(** * medxbaybackend: booking life cycle, slot reconciliation and routes

    A shallow embedding of the request handlers of [routes/doctor.js],
    [routes/patient.js] and of the application file that mounts them.
    Handlers are programs over the calls they make to the outside world
    (MongoDB through Mongoose, the mail transport, the calendar API, the
    console); a program is run against an explicit [World]. *)

From Stdlib Require Import ZArith String Ascii List Bool Lia.
From stdpp Require Import base option list strings gmap.
Import ListNotations.

Local Open Scope Z_scope.
Local Open Scope string_scope.

(** ** JavaScript values the handlers compute with *)

(** [a === b] on two strings. *)
Definition strict_eq (a b : string) : bool := String.eqb a b.
Arguments strict_eq : simpl never.

Infix "===" := strict_eq (at level 70, no associativity).

(** Truthiness of a string that may be [undefined]: the empty string and
    [undefined] are falsy. *)
Definition truthy (s : option string) : bool :=
  match s with
  | Some EmptyString => false
  | Some _ => true
  | None => false
  end.

(** [String.prototype.split] with a separator that is not empty.  [skip]
    counts the characters of a separator just matched that are still to
    be dropped, [acc] is the piece being read. *)
Fixpoint split_go (sep : string) (skip : nat) (acc s : string) : list string :=
  match s with
  | EmptyString => [acc]
  | String c s' =>
      match skip with
      | S n => split_go sep n acc s'
      | O =>
          if String.prefix sep s
          then acc :: split_go sep (Nat.pred (String.length sep)) EmptyString s'
          else split_go sep O (acc ++ String c EmptyString) s'
      end
  end.

Definition split (sep s : string) : list string := split_go sep O EmptyString s.

(** A [Date]: milliseconds since the epoch, or [None] for a date that is
    absent or invalid. *)
Definition JsDate : Type := option Z.

(** A number that may be [NaN]. *)
Definition JsNumber : Type := option Z.

(** A compiled regular expression: [new RegExp(source, flags)]. *)
Record RegExp : Type := mkRegExp { source : string; flags : string }.

(** An exception value; only its [message] is ever read. *)
Record JsError : Type := mkError { message : string }.

Definition TypeError (m : string) : JsError := mkError m.

(** ** The runtime the handlers rely on

    Built-ins and the moment library are not part of the repository; the
    handlers are written against this interface. *)
Class JsRuntime : Type := {
  (** [Date.prototype.toISOString] of a valid date *)
  toISOString : Z -> string;
  (** [new Date(s)] *)
  newDate : string -> JsDate;
  (** [new RegExp(s, 'i')]; [None] when the pattern does not compile
      (a [SyntaxError]) *)
  newRegExp : string -> option RegExp;
  (** a moment.js object *)
  Moment : Type;
  (** [moment()] when the clock shows the given time *)
  moment_now : Z -> Moment;
  (** [moment(date)] *)
  moment_date : JsDate -> Moment;
  (** [moment(text, 'HH:mm')]; [text] may be [undefined] *)
  moment_HHmm : option string -> Moment;
  (** [m.get('hour')], [m.get('minute')] *)
  get_hour : Moment -> JsNumber;
  get_minute : Moment -> JsNumber;
  (** [moment(m).set({ hour, minute })] *)
  set_hour_minute : Moment -> JsNumber -> JsNumber -> Moment;
  (** [a.isAfter(b)] *)
  isAfter : Moment -> Moment -> bool
}.

(** ** Documents *)

Definition ObjectId : Type := string.

Module TimeSlot.
Record t : Type := mk {
  date : JsDate;
  startTime : string;
  endTime : string;
  status : string;
  hospital : string
}.
Definition set_status (v : string) (s : t) : t :=
  mk (date s) (startTime s) (endTime s) v (hospital s).
End TimeSlot.

Module Doctor.
Record t : Type := mk {
  _id : ObjectId;
  name : string;
  email : string;
  timeSlots : list TimeSlot.t
}.
Definition set_timeSlots (v : list TimeSlot.t) (d : t) : t :=
  mk (_id d) (name d) (email d) v.
End Doctor.

Module Patient.
Record t : Type := mk {
  _id : ObjectId;
  name : string;
  email : string;
  favoriteDoctors : option (list ObjectId)
}.
Definition set_favoriteDoctors (v : option (list ObjectId)) (p : t) : t :=
  mk (_id p) (name p) (email p) v.
End Patient.

Module Hospital.
Record location : Type := mkLocation {
  street : string; city : string; state : string;
  country : string; zip : string
}.
Record t : Type := mk { name : string; loc : location }.
End Hospital.

(** A booking as stored: [patient] and [doctor] are references. *)
Module Booking.
Record t : Type := mk {
  _id : ObjectId;
  patient : ObjectId;
  doctor : ObjectId;
  date : JsDate;
  time : string;
  consultationType : string;
  status : string;
  meetingLink : option string;
  hospital : option Hospital.t
}.
Definition set_status (v : string) (b : t) : t :=
  mk (_id b) (patient b) (doctor b) (date b) (time b) (consultationType b)
     v (meetingLink b) (hospital b).
Definition set_meetingLink (v : option string) (b : t) : t :=
  mk (_id b) (patient b) (doctor b) (date b) (time b) (consultationType b)
     (status b) v (hospital b).
End Booking.

(** A booking after [.populate('doctor').populate('patient')]: the two
    references are replaced by the documents they point to, [None] when
    the referenced document is gone. *)
Module Populated.
Record t : Type := mk {
  doc : Booking.t;
  doctor : option Doctor.t;
  patient : option Patient.t
}.
Definition set_doc (v : Booking.t) (b : t) : t := mk v (doctor b) (patient b).
End Populated.

(** ** Messages, mails and calendar events

    The handlers build their texts with template literals.  A text is
    kept as the template that produced it together with the values
    interpolated into it. *)

Inductive Text : Type :=
  | VideoConfirmationMail (patientName doctorName : string) (date : Z)
      (time : string) (meetingLink : option string)
  | VideoConfirmationNotice (doctorName patientName : string) (date : Z)
      (time : string) (meetingLink : option string)
  | VideoConfirmationChat (doctorName : string) (date : Z) (time : string)
      (meetingLink : option string)
  | InPersonConfirmationMail (patientName doctorName : string) (date : Z)
      (time : string) (hospital : Hospital.t)
  | InPersonConfirmationChat (doctorName : string) (date : Z) (time : string)
      (hospital : Hospital.t)
  | RejectionMail (patientName doctorName : string) (date : Z) (time : string)
  | RejectionChat (doctorName : string) (date : Z) (time : string).

Record Mail : Type := mkMail { to : string; subject : string; html : Text }.

Record ChatMessage : Type := mkChatMessage {
  senderId : ObjectId; text : Text; timestamp : Z
}.

Module Chat.
Record t : Type := mk {
  doctorId : ObjectId;
  patientId : ObjectId;
  messages : list ChatMessage
}.
End Chat.

Record CalendarEvent : Type := mkEvent {
  summary_doctor : string;
  description_patient : string;
  start_dateTime : string;
  end_dateTime : string;
  attendees : list string
}.

(** ** MongoDB filters, as built by the doctor search *)

Inductive Filter : Type :=
  | FEq (v : string)
  | FBool (b : bool)
  | FRegex (r : RegExp)
  | FIn (rs : list RegExp)
  | FOr (alternatives : list (string * RegExp)).

(** ** Responses *)

Inductive Response : Type :=
  | Send (code : nat) (body : string)
  | Redirect (url : string)
  | Render (view : string)
  | JsonDoctors (doctors : list Doctor.t)
  | JsonMessage (code : nat) (msg : string)
  | JsonError (code : nat) (msg : string) (error : JsError).

(** ** Calls to the outside world *)

Inductive Op : Type :=
  | Booking_findById_populated (id : ObjectId)
  | Booking_save (b : Booking.t)
  | Doctor_findById (id : ObjectId)
  | Doctor_find (query : gmap string Filter)
  | Doctor_save (d : Doctor.t)
  | Patient_findById (id : ObjectId)
  | Patient_save (p : Patient.t)
  | Chat_findOneAndUpdate_push (doctorId patientId : ObjectId) (m : ChatMessage)
  | calendar_events_insert (ev : CalendarEvent)
  | transporter_sendMail (m : Mail)
  | res_render (view : string)
  | console_error (args : list string)
  | Date_now.

Definition result (op : Op) : Type :=
  match op with
  | Booking_findById_populated _ => option Populated.t
  | Booking_save _ => unit
  | Doctor_findById _ => option Doctor.t
  | Doctor_find _ => list Doctor.t
  | Doctor_save _ => unit
  | Patient_findById _ => option Patient.t
  | Patient_save _ => unit
  | Chat_findOneAndUpdate_push _ _ _ => unit
  | calendar_events_insert _ => option string
  | transporter_sendMail _ => unit
  | res_render _ => unit
  | console_error _ => unit
  | Date_now => Z
  end.

(** The calls a handler waits for with [await]; the others run
    synchronously. *)
Definition awaited (op : Op) : bool :=
  match op with
  | res_render _ | console_error _ | Date_now => false
  | _ => true
  end.

(** Writing to the console and reading the clock never throw. *)
Definition infallible (op : Op) : bool :=
  match op with
  | console_error _ | Date_now => true
  | _ => false
  end.

(** ** Handler programs

    A program returns, throws, or makes a call and goes on with [k] on
    its result or with [h] on the exception the call raised. *)
Inductive Prog (A : Type) : Type :=
  | Ret (a : A)
  | Throw (e : JsError)
  | Do (op : Op) (k : result op -> Prog A) (h : JsError -> Prog A).

Arguments Ret {A} a.
Arguments Throw {A} e.
Arguments Do {A} op k h.

Definition call (op : Op) : Prog (result op) := Do op Ret Throw.

Fixpoint bind {A B : Type} (p : Prog A) (f : A -> Prog B) : Prog B :=
  match p with
  | Ret a => f a
  | Throw e => Throw e
  | Do op k h => Do op (fun x => bind (k x) f) (fun e => bind (h e) f)
  end.

(** [try { p } catch (e) { c e }] *)
Fixpoint tryCatch {A : Type} (p : Prog A) (c : JsError -> Prog A) : Prog A :=
  match p with
  | Ret a => Ret a
  | Throw e => c e
  | Do op k h => Do op (fun x => tryCatch (k x) c) (fun e => tryCatch (h e) c)
  end.

Notation "'let!' x ':=' e 'in' k" := (bind e (fun x => k))
  (at level 10, x name, e at level 100, k at level 200).
Notation "e ';;;' k" := (bind e (fun _ => k))
  (at level 100, k at level 200, right associativity).

(** ** The world a handler runs in *)

Record World : Type := mkWorld {
  bookings : list Booking.t;
  doctors : list Doctor.t;
  patients : list Patient.t;
  chats : list Chat.t;
  calendar : list CalendarEvent;
  outbox : list Mail;
  console : list (list string)
}.

(** What the handler cannot control: which calls fail and with what
    exception, what the calendar API answers, how the database evaluates
    a filter, and the clock. *)
Record Env : Type := mkEnv {
  faults : Op -> option JsError;
  hangoutLink : CalendarEvent -> option string;
  matches : gmap string Filter -> Doctor.t -> bool;
  clock : Z
}.

Definition set_bookings (v : list Booking.t) (w : World) : World :=
  mkWorld v (doctors w) (patients w) (chats w) (calendar w) (outbox w)
          (console w).
Definition set_doctors (v : list Doctor.t) (w : World) : World :=
  mkWorld (bookings w) v (patients w) (chats w) (calendar w) (outbox w)
          (console w).
Definition set_patients (v : list Patient.t) (w : World) : World :=
  mkWorld (bookings w) (doctors w) v (chats w) (calendar w) (outbox w)
          (console w).
Definition set_chats (v : list Chat.t) (w : World) : World :=
  mkWorld (bookings w) (doctors w) (patients w) v (calendar w) (outbox w)
          (console w).
Definition set_calendar (v : list CalendarEvent) (w : World) : World :=
  mkWorld (bookings w) (doctors w) (patients w) (chats w) v (outbox w)
          (console w).
Definition set_outbox (v : list Mail) (w : World) : World :=
  mkWorld (bookings w) (doctors w) (patients w) (chats w) (calendar w) v
          (console w).
Definition set_console (v : list (list string)) (w : World) : World :=
  mkWorld (bookings w) (doctors w) (patients w) (chats w) (calendar w)
          (outbox w) v.

(** [doc.save()]: the stored document with the same [_id] is replaced;
    a new document is inserted at the end of its collection. *)
Fixpoint upsert {A : Type} (same : A -> bool) (x : A) (l : list A) : list A :=
  match l with
  | [] => [x]
  | y :: l' => if same y then x :: l' else y :: upsert same x l'
  end.

Definition findById {A : Type} (key : A -> ObjectId) (id : ObjectId)
    (l : list A) : option A :=
  List.find (fun x => key x === id) l.

Definition populate (w : World) (b : Booking.t) : Populated.t :=
  Populated.mk b
    (findById Doctor._id (Booking.doctor b) (doctors w))
    (findById Patient._id (Booking.patient b) (patients w)).

(** [$push] of a message with [upsert: true]. *)
Fixpoint push_message (d p : ObjectId) (m : ChatMessage) (l : list Chat.t)
    : list Chat.t :=
  match l with
  | [] => [Chat.mk d p [m]]
  | c :: l' =>
      if (Chat.doctorId c === d) && (Chat.patientId c === p)
      then Chat.mk d p (Chat.messages c ++ [m]) :: l'
      else c :: push_message d p m l'
  end.

(** The effect of a call that succeeds. *)
Definition perform (env : Env) (op : Op) (w : World) : result op * World :=
  match op as o return result o * World with
  | Booking_findById_populated id =>
      (populate w <$> findById Booking._id id (bookings w), w)
  | Booking_save b =>
      (tt, set_bookings
             (upsert (fun x => Booking._id x === Booking._id b) b (bookings w)) w)
  | Doctor_findById id => (findById Doctor._id id (doctors w), w)
  | Doctor_find q => (List.filter (matches env q) (doctors w), w)
  | Doctor_save d =>
      (tt, set_doctors
             (upsert (fun x => Doctor._id x === Doctor._id d) d (doctors w)) w)
  | Patient_findById id => (findById Patient._id id (patients w), w)
  | Patient_save p =>
      (tt, set_patients
             (upsert (fun x => Patient._id x === Patient._id p) p (patients w)) w)
  | Chat_findOneAndUpdate_push d p m =>
      (tt, set_chats (push_message d p m (chats w)) w)
  | calendar_events_insert ev =>
      (hangoutLink env ev, set_calendar (calendar w ++ [ev]) w)
  | transporter_sendMail m => (tt, set_outbox (outbox w ++ [m]) w)
  | res_render _ => (tt, w)
  | console_error args => (tt, set_console (console w ++ [args]) w)
  | Date_now => (clock env, w)
  end.

(** A call fails as the environment decides, leaving the world as it
    was, or takes effect. *)
Definition exec (env : Env) (op : Op) (w : World)
    : (JsError + result op) * World :=
  match (if infallible op then None else faults env op) with
  | Some e => (inl e, w)
  | None => let (r, w') := perform env op w in (inr r, w')
  end.

Inductive Outcome (A : Type) : Type :=
  | Returned (a : A)
  | Thrown (e : JsError).

Arguments Returned {A} a.
Arguments Thrown {A} e.

(** One request handled from start to end with nothing else running. *)
Fixpoint run {A : Type} (env : Env) (p : Prog A) (w : World)
    : Outcome A * World :=
  match p with
  | Ret a => (Returned a, w)
  | Throw e => (Thrown e, w)
  | Do op k h =>
      match exec env op w with
      | (inl e, w') => run env (h e) w'
      | (inr x, w') => run env (k x) w'
      end
  end.

(** The calls that run makes, in order, failed ones included. *)
Fixpoint calls {A : Type} (env : Env) (p : Prog A) (w : World) : list Op :=
  match p with
  | Ret _ | Throw _ => []
  | Do op k h =>
      op :: match exec env op w with
            | (inl e, w') => calls env (h e) w'
            | (inr x, w') => calls env (k x) w'
            end
  end.

(** ** Arrays *)

(** [Array.prototype.findIndex] with a callback that may throw: the
    index of the first element the callback accepts, [-1] when there is
    none; an exception of the callback ends the search. *)
Fixpoint findIndex_from {A : Type} (callback : A -> JsError + bool)
    (l : list A) (i : Z) : JsError + Z :=
  match l with
  | [] => inr (-1)
  | x :: l' =>
      match callback x with
      | inl e => inl e
      | inr true => inr i
      | inr false => findIndex_from callback l' (i + 1)
      end
  end.

Definition findIndex {A : Type} (callback : A -> JsError + bool) (l : list A)
    : JsError + Z :=
  findIndex_from callback l 0.

(** [Array.prototype.find], as the position of the element found: what
    the caller then does to the element happens at that position. *)
Fixpoint find_from {A : Type} (callback : A -> bool) (l : list A) (i : nat)
    : option nat :=
  match l with
  | [] => None
  | x :: l' => if callback x then Some i else find_from callback l' (S i)
  end.

Definition find_position {A : Type} (callback : A -> bool) (l : list A)
    : option nat :=
  find_from callback l O.

(** [Array.prototype.includes] on identifiers. *)
Definition includes (x : ObjectId) (l : list ObjectId) : bool :=
  existsb (fun y => y === x) l.

(** [a === b] where [b] may be [undefined]. *)
Definition strict_eq_undef (a : string) (b : option string) : bool :=
  match b with
  | Some b' => a === b'
  | None => false
  end.

Definition lift {A : Type} (r : JsError + A) : Prog A :=
  match r with
  | inl e => Throw e
  | inr a => Ret a
  end.

(** Reading a property of a value that is [null] or [undefined]. *)
Definition read_of {A : Type} (what : string) (o : option A) : Prog A :=
  match o with
  | Some a => Ret a
  | None => Throw (TypeError ("Cannot read properties of " ++ what))
  end.

(** The way a route ends when its [catch] block logs and answers 500. *)
Inductive Logged : Type :=
  | LogMessage                 (* console.error(err.message) *)
  | LogError                   (* console.error(err) *)
  | LogLabelled (label : string). (* console.error(label, err) *)

Definition log_args (l : Logged) (e : JsError) : list string :=
  match l with
  | LogMessage => [message e]
  | LogError => [message e]
  | LogLabelled label => [label; message e]
  end.

(** [try { body } catch (e) { console.error(..); res.status(500).. }] *)
Definition guarded (l : Logged) (answer : Response) (body : Prog Response)
    : Prog Response :=
  tryCatch body
    (fun e => call (console_error (log_args l e)) ;;; Ret answer).

(** How a route's callback is written: its whole body inside one
    [try]/[catch], or with no [try] at all. *)
Inductive Guard : Type :=
  | TryCatch (l : Logged) (answer : Response)
  | NoTry.

Definition handle (g : Guard) (body : Prog Response) : Prog Response :=
  match g with
  | TryCatch l answer => guarded l answer body
  | NoTry => body
  end.

Inductive Method : Type := GET | POST | DELETE.

Record Route : Type := mkRoute {
  method : Method;
  path : string;
  guard : Guard
}.

Definition ServerError : Guard := TryCatch LogMessage (Send 500 "Server Error").

(** The routes of [routes/doctor.js], in the order of the file. *)
Definition doctor_routes : list Route := [
  mkRoute GET "/doctor-index" ServerError;
  mkRoute GET "/profile" ServerError;
  mkRoute GET "/edit" ServerError;
  mkRoute POST "/profile/update" ServerError;
  mkRoute POST "/profile/verify" ServerError;
  mkRoute GET "/bookings" ServerError;
  mkRoute POST "/bookings/:id" ServerError;
  mkRoute GET "/completed-bookings" ServerError;
  mkRoute GET "/bookings/:id/prescription" ServerError;
  mkRoute POST "/prescriptions/upload" ServerError;
  mkRoute GET "/doctor-view/:id/prescriptions" ServerError;
  mkRoute GET "/manage-time-slots" ServerError;
  mkRoute DELETE "/manage-time-slots/:index" ServerError;
  mkRoute POST "/add-time-slot" ServerError;
  mkRoute GET "/calendar"
    (TryCatch (LogLabelled "Error fetching calendar data:") (Send 500 "Server error"));
  mkRoute GET "/subscribe" NoTry;
  mkRoute POST "/subscribe" ServerError;
  mkRoute GET "/subscription-success" ServerError;
  mkRoute GET "/subscription-failure" NoTry;
  mkRoute GET "/blog" NoTry;
  mkRoute POST "/blog" (TryCatch LogError (JsonMessage 500 "Server error"));
  mkRoute GET "/profile/blogs" ServerError;
  mkRoute GET "/blogs/edit/:id" (TryCatch LogError (Send 500 "Server Error"));
  mkRoute POST "/blogs/edit/:id" (TryCatch LogError (Send 500 "Server Error"));
  mkRoute GET "/dashboard" ServerError;
  mkRoute POST "/chats/:chatId/send-message" ServerError;
  mkRoute GET "/chat/:id" ServerError;
  mkRoute GET "/blogs/view/:id" ServerError;
  mkRoute POST "/blogs/comment/:id" ServerError;
  mkRoute GET "/author/:id" ServerError;
  mkRoute GET "/priority-blogs" ServerError;
  mkRoute GET "/blogs" ServerError
].

(** The routes of [routes/patient.js], in the order of the file. *)
Definition patient_routes : list Route := [
  mkRoute GET "/profile" ServerError;
  mkRoute GET "/edit" ServerError;
  mkRoute POST "/profile/update" ServerError;
  mkRoute GET "/doctors" ServerError;
  mkRoute GET "/doctors/:id/slots" ServerError;
  mkRoute POST "/book" ServerError;
  mkRoute GET "/bookings" ServerError;
  mkRoute GET "/search-doctors"
    (TryCatch (LogLabelled "Error searching doctors:") (Send 500 "Server error"));
  mkRoute POST "/add-to-favorites"
    (TryCatch (LogLabelled "Error adding to favorites:") (Send 500 "Server error"));
  mkRoute GET "/favorites"
    (TryCatch (LogLabelled "Error fetching favorite doctors:") (Send 500 "Server error"));
  mkRoute GET "/calendar"
    (TryCatch (LogLabelled "Error fetching calendar data:") (Send 500 "Server error"))
].

(** [router.get('/subscribe', isLoggedIn, async (req, res) => {
    res.render('subscriptionForm'); })] of [routes/doctor.js]. *)
Definition get_subscribe : Prog Response :=
  handle NoTry
    (call (res_render "subscriptionForm") ;;; Ret (Render "subscriptionForm")).

Section Handlers.

Context {RT : JsRuntime}.

(** ** routes/doctor.js *)

(** [createGoogleMeetLink(booking)] *)
Definition createGoogleMeetLink (booking : Populated.t) : Prog (option string) :=
  let! doctor := read_of "null (reading 'name')" (Populated.doctor booking) in
  let! patient := read_of "null (reading 'name')" (Populated.patient booking) in
  let! date := read_of "undefined (reading 'toISOString')"
                 (Booking.date (Populated.doc booking)) in
  let event := mkEvent (Doctor.name doctor) (Patient.name patient)
                 (toISOString date) (toISOString (date + 30 * 60000))
                 [Doctor.email doctor; Patient.email patient] in
  tryCatch (call (calendar_events_insert event))
    (fun error =>
       call (console_error ["Error creating Google Meet link:"; message error]) ;;;
       Throw (mkError "Unable to create Google Meet link")).

(** [sendAppointmentEmail(to, name, subject, content)] *)
Definition sendAppointmentEmail (to_ name_ subject_ : string) (content : Text)
    : Prog unit :=
  tryCatch (call (transporter_sendMail (mkMail to_ subject_ content)))
    (fun error =>
       call (console_error ["Error sending email:"; message error]) ;;;
       Throw (mkError "Unable to send email")).

(** The end of the appointment: the booking's date with the hour and the
    minute of the second part of [booking.time].  The handler also
    computes [bookingTimeStart] and [bookingStartDateTime] in the same
    way from the first part and never reads them. *)
Definition bookingEndDateTime (booking : Booking.t) : Moment :=
  let bookingDate := moment_date (Booking.date booking) in
  let bookingTimeEnd := moment_HHmm (split " - " (Booking.time booking) !! 1%nat) in
  set_hour_minute bookingDate (get_hour bookingTimeEnd) (get_minute bookingTimeEnd).

(** The callback of [doctor.timeSlots.findIndex]. *)
Definition slot_of_booking (booking : Booking.t) (slot : TimeSlot.t)
    : JsError + bool :=
  match TimeSlot.date slot with
  | None => inl (TypeError "Cannot read properties of undefined (reading 'toISOString')")
  | Some slotDate =>
      match Booking.date booking with
      | None => inl (TypeError "Cannot read properties of undefined (reading 'toISOString')")
      | Some bookingDate =>
          inr ((toISOString slotDate === toISOString bookingDate)
               && strict_eq_undef (TimeSlot.startTime slot)
                    (split " - " (Booking.time booking) !! 0%nat))
      end
  end.

(** [doctor.timeSlots[i].status = v] *)
Definition set_slot_status (v : string) (i : nat) (doctor : Doctor.t) : Doctor.t :=
  Doctor.set_timeSlots
    (alter (TimeSlot.set_status v) i (Doctor.timeSlots doctor)) doctor.

(** The three branches that choose the slot's new status. *)
Definition reconciled_status (currentStatus status : string) : string :=
  if (currentStatus === "rejected")
     && ((status === "waiting") || (status === "accepted"))
  then "booked"
  else if status === "rejected" then "free"
  else "booked".

(** [await Chat.findOneAndUpdate(.., { $push: { messages: .. } }, ..)] *)
Definition push_chat (doctor : Doctor.t) (patient : Patient.t) (chatMessage : Text)
    : Prog unit :=
  let! t := call Date_now in
  call (Chat_findOneAndUpdate_push (Doctor._id doctor) (Patient._id patient)
          (mkChatMessage (Doctor._id doctor) chatMessage t)).

(** The mails and the chat message that follow the slot update. *)
Definition notify (status : string) (booking : Populated.t) (doctor : Doctor.t)
    : Prog unit :=
  let b := Populated.doc booking in
  if (status === "accepted") || (status === "rejected") then
    if status === "accepted" then
      if Booking.consultationType b === "Video call" then
        let! patient := read_of "null (reading 'name')" (Populated.patient booking) in
        let! date := read_of "undefined (reading 'toDateString')" (Booking.date b) in
        sendAppointmentEmail (Patient.email patient) (Patient.name patient)
          "Appointment Confirmation"
          (VideoConfirmationMail (Patient.name patient) (Doctor.name doctor) date
             (Booking.time b) (Booking.meetingLink b)) ;;;
        sendAppointmentEmail (Doctor.email doctor) (Doctor.name doctor)
          "Appointment Confirmation Notification"
          (VideoConfirmationNotice (Doctor.name doctor) (Patient.name patient) date
             (Booking.time b) (Booking.meetingLink b)) ;;;
        push_chat doctor patient
          (VideoConfirmationChat (Doctor.name doctor) date (Booking.time b)
             (Booking.meetingLink b))
      else if Booking.consultationType b === "In-person" then
        let! patient := read_of "null (reading 'name')" (Populated.patient booking) in
        let! date := read_of "undefined (reading 'toDateString')" (Booking.date b) in
        let! hospital := read_of "undefined (reading 'name')" (Booking.hospital b) in
        sendAppointmentEmail (Patient.email patient) (Patient.name patient)
          "Appointment Confirmation"
          (InPersonConfirmationMail (Patient.name patient) (Doctor.name doctor) date
             (Booking.time b) hospital) ;;;
        push_chat doctor patient
          (InPersonConfirmationChat (Doctor.name doctor) date (Booking.time b) hospital)
      else Ret tt
    else if status === "rejected" then
      let! patient := read_of "null (reading 'name')" (Populated.patient booking) in
      let! date := read_of "undefined (reading 'toDateString')" (Booking.date b) in
      sendAppointmentEmail (Patient.email patient) (Patient.name patient)
        "Appointment Rejection"
        (RejectionMail (Patient.name patient) (Doctor.name doctor) date (Booking.time b)) ;;;
      push_chat doctor patient
        (RejectionChat (Doctor.name doctor) date (Booking.time b))
    else Ret tt
  else Ret tt.

(** The status the handler assigns to the booking. *)
Definition assigned_status (now : Moment) (booking : Booking.t) (status : string)
    : string :=
  if isAfter now (bookingEndDateTime booking) then "completed" else status.

(** [if (status === 'accepted' && !booking.meetingLink &&
    booking.consultationType === 'Video call') booking.meetingLink = ..] *)
Definition needs_meeting_link (status : string) (b : Booking.t) : bool :=
  (status === "accepted")
  && negb (truthy (Booking.meetingLink b))
  && (Booking.consultationType b === "Video call").

Definition with_meeting_link (status : string) (booking : Populated.t)
    : Prog Populated.t :=
  if needs_meeting_link status (Populated.doc booking) then
    let! link := createGoogleMeetLink booking in
    Ret (Populated.set_doc
           (Booking.set_meetingLink link (Populated.doc booking)) booking)
  else Ret booking.

(** From [const doctor = booking.doctor] to the redirect: the slot of
    the booking is looked up and updated, the doctor saved, the patient
    and the doctor told. *)
Definition reconcile (currentStatus status : string) (booking : Populated.t)
    : Prog Response :=
  match Populated.doctor booking with
  | None => Ret (Send 404 "Doctor not found")
  | Some doctor =>
      let! timeSlotIndex :=
        lift (findIndex (slot_of_booking (Populated.doc booking))
                (Doctor.timeSlots doctor)) in
      if negb (timeSlotIndex =? -1)%Z then
        let doctor :=
          set_slot_status (reconciled_status currentStatus status)
            (Z.to_nat timeSlotIndex) doctor in
        call (Doctor_save doctor) ;;;
        notify status booking doctor ;;;
        Ret (Redirect "/doctor/bookings")
      else
        call (console_error ["Time slot not found for the given date and time"]) ;;;
        Ret (Redirect "/doctor/bookings")
  end.

(** [router.post('/bookings/:id', isLoggedIn, ..)], the body of its [try]. *)
Definition post_bookings_id_body (status : string) (bookingId : ObjectId)
    : Prog Response :=
  let! found := call (Booking_findById_populated bookingId) in
  match found with
  | None => Ret (Send 404 "Booking not found")
  | Some booking =>
      let currentStatus := Booking.status (Populated.doc booking) in
      let! t := call Date_now in
      let now := moment_now t in
      let booking :=
        Populated.set_doc
          (Booking.set_status
             (assigned_status now (Populated.doc booking) status)
             (Populated.doc booking)) booking in
      let! booking := with_meeting_link status booking in
      call (Booking_save (Populated.doc booking)) ;;;
      reconcile currentStatus status booking
  end.

Definition post_bookings_id (status : string) (bookingId : ObjectId)
    : Prog Response :=
  handle ServerError (post_bookings_id_body status bookingId).

(** ** routes/patient.js *)

(** The callback of [doctor.timeSlots.find] in the booking route; a slot
    document is never [null], so [slot &&] is not modelled. *)
Definition slot_of_request (date time : string) (slot : TimeSlot.t) : bool :=
  match TimeSlot.date slot with
  | None => false
  | Some slotDate =>
      (toISOString slotDate === date)
      && strict_eq_undef (TimeSlot.startTime slot) (split " - " time !! 0%nat)
  end.

(** The document [new Booking({..})] builds; [_id] is the identifier
    Mongoose gives the new document. *)
Definition new_booking (_id patientId doctorId date time consultationType : string)
    : Booking.t :=
  Booking.mk _id patientId doctorId (newDate date) time consultationType
    "waiting" None None.

(** [router.post('/book', isLoggedIn, ..)]; [patientId] is
    [req.session.user._id]. *)
Definition post_book (_id patientId doctorId date time consultationType : string)
    : Prog Response :=
  handle ServerError
    (let booking := new_booking _id patientId doctorId date time consultationType in
     call (Booking_save booking) ;;;
     let! found := call (Doctor_findById doctorId) in
     match found with
     | None => Ret (Send 404 "Doctor not found")
     | Some doctor =>
         match find_position (slot_of_request date time) (Doctor.timeSlots doctor) with
         | Some slotToUpdate =>
             let doctor := set_slot_status "booked" slotToUpdate doctor in
             call (Doctor_save doctor) ;;;
             Ret (Redirect "/patient/bookings")
         | None => Ret (Redirect "/patient/bookings")
         end
     end).

(** [router.post('/add-to-favorites', isLoggedIn, ..)] *)
Definition post_add_to_favorites (patientId doctorId : string) : Prog Response :=
  handle (TryCatch (LogLabelled "Error adding to favorites:") (Send 500 "Server error"))
    (let! patient := call (Patient_findById patientId) in
     let! doctor := call (Doctor_findById doctorId) in
     match patient, doctor with
     | Some patient, Some _ =>
         let favoriteDoctors :=
           match Patient.favoriteDoctors patient with
           | Some l => l
           | None => []
           end in
         if includes doctorId favoriteDoctors then
           Ret (Send 400 "Doctor already in favorites")
         else
           call (Patient_save
                   (Patient.set_favoriteDoctors
                      (Some (favoriteDoctors ++ [doctorId])%list) patient)) ;;;
           Ret (Redirect "/patient/doctors")
     | _, _ => Ret (Send 404 "Patient or Doctor not found")
     end).

(** ** The application file: [app.get('/auth/search-doctors', ..)] *)

Record SearchQuery : Type := mkSearchQuery {
  what : option string;
  where_ : option string;
  country : option string;
  state : option string;
  city : option string;
  speciality : option string;
  languages : option string;
  gender : option string;
  hospitals : option string;
  availability : option string
}.

(** [new RegExp(s, 'i')] *)
Definition regexp (s : string) : Prog RegExp :=
  match newRegExp s with
  | Some r => Ret r
  | None => Throw (mkError ("Invalid regular expression: /" ++ s ++ "/"))
  end.

(** [if (param) query = f(param)] *)
Definition when_given {A : Type} (param : option string)
    (f : string -> A -> Prog A) (query : A) : Prog A :=
  match param with
  | Some s => if truthy param then f s query else Ret query
  | None => Ret query
  end.

Definition initial_query : gmap string Filter :=
  <["timeSlots.status" := FEq "free"]>
    (<["verified" := FEq "Verified"]> (<["role" := FEq "doctor"]> ∅)).

(** The filter object the route builds, statement by statement. *)
Definition build_query (q : SearchQuery) : Prog (gmap string Filter) :=
  let! query := when_given (country q)
    (fun s query => let! r := regexp s in Ret (<["country" := FRegex r]> query))
    initial_query in
  let! query := when_given (state q)
    (fun s query => let! r := regexp s in Ret (<["state" := FRegex r]> query))
    query in
  let! query := when_given (city q)
    (fun s query => let! r := regexp s in Ret (<["city" := FRegex r]> query))
    query in
  let! query := when_given (speciality q)
    (fun s query => let! r := regexp s in Ret (<["speciality" := FIn [r]]> query))
    query in
  let! query := when_given (languages q)
    (fun s query => let! r := regexp s in Ret (<["languages" := FIn [r]]> query))
    query in
  let! query := when_given (gender q)
    (fun s query => Ret (<["gender" := FEq s]> query))
    query in
  let! query := when_given (hospitals q)
    (fun s query => let! r := regexp s in Ret (<["hospitals" := FRegex r]> query))
    query in
  let! query := when_given (availability q)
    (fun s query => Ret (<["availability" := FBool (s === "true")]> query))
    query in
  let! query := when_given (what q)
    (fun s query =>
       let! r1 := regexp s in
       let! r2 := regexp s in
       let! r3 := regexp s in
       Ret (<["$or" := FOr [("speciality", r1); ("name", r2); ("conditions", r3)]]> query))
    query in
  when_given (where_ q)
    (fun s query =>
       let! r1 := regexp s in
       let! r2 := regexp s in
       let! r3 := regexp s in
       Ret (<["$or" := FOr [("city", r1); ("state", r2); ("country", r3)]]> query))
    query.

Definition get_auth_search_doctors (q : SearchQuery) : Prog Response :=
  tryCatch
    (let! query := build_query q in
     let! found := call (Doctor_find query) in
     Ret (JsonDoctors found))
    (fun error => Ret (JsonError 500 "Error fetching doctors" error)).

End Handlers.

(** ** Requests in flight at the same time

    Node runs a callback until its next [await]; another request may run
    only there.  A request in flight is the rest of its program, stopped
    at an awaited call or finished. *)

(** Run the synchronous calls a program starts with. *)
Fixpoint settle {A : Type} (env : Env) (p : Prog A) (w : World) : Prog A * World :=
  match p with
  | Do op k h =>
      if awaited op then (p, w)
      else
        match exec env op w with
        | (inl e, w') => settle env (h e) w'
        | (inr x, w') => settle env (k x) w'
        end
  | _ => (p, w)
  end.

(** Complete the awaited call a request is stopped at and run it up to
    its next [await]. *)
Definition resume {A : Type} (env : Env) (p : Prog A) (w : World)
    : option (Prog A * World) :=
  match p with
  | Do op k h =>
      if awaited op then
        match exec env op w with
        | (inl e, w') => Some (settle env (h e) w')
        | (inr x, w') => Some (settle env (k x) w')
        end
      else None
  | _ => None
  end.

Definition Pool : Type := list (Prog Response).

(** The event loop resumes request [i]. *)
Definition turn (env : Env) (i : nat) (s : Pool * World) : option (Pool * World) :=
  match fst s !! i with
  | Some p =>
      match resume env p (snd s) with
      | Some (p', w') => Some (<[i := p']> (fst s), w')
      | None => None
      end
  | None => None
  end.

(** A schedule names the request resumed at each turn. *)
Fixpoint interleave (env : Env) (schedule : list nat) (s : Pool * World)
    : option (Pool * World) :=
  match schedule with
  | [] => Some s
  | i :: rest =>
      match turn env i s with
      | Some s' => interleave env rest s'
      | None => None
      end
  end.

Definition finished (p : Prog Response) : option Response :=
  match p with
  | Ret r => Some r
  | _ => None
  end.

(** ** A concrete runtime: Node with the process time zone set to UTC *)

Module UTC.

Definition digit (d : Z) : ascii := ascii_of_nat (48 + Z.to_nat d).

(** The [width] low decimal digits of [n], in front of [acc]. *)
Fixpoint digits (width : nat) (n : Z) (acc : string) : string :=
  match width with
  | O => acc
  | S w => digits w (n / 10) (String (digit (n mod 10)) acc)
  end.

(** Year, month and day of a day number counted from 1970-01-01. *)
Definition civil_from_days (days : Z) : Z * Z * Z :=
  let z := days + 719468 in
  let era := z / 146097 in
  let doe := z - era * 146097 in
  let yoe := (doe - doe / 1460 + doe / 36524 - doe / 146096) / 365 in
  let doy := doe - (365 * yoe + yoe / 4 - yoe / 100) in
  let mp := (5 * doy + 2) / 153 in
  let d := doy - (153 * mp + 2) / 5 + 1 in
  let m := if (mp <? 10)%Z then mp + 3 else mp - 9 in
  let y := yoe + era * 400 + (if (m <=? 2)%Z then 1 else 0) in
  (y, m, d).

Definition days_from_civil (y m d : Z) : Z :=
  let y' := if (m <=? 2)%Z then y - 1 else y in
  let era := y' / 400 in
  let yoe := y' - era * 400 in
  let doy := (153 * (if (2 <? m)%Z then m - 3 else m + 9) + 2) / 5 + d - 1 in
  let doe := yoe * 365 + yoe / 4 - yoe / 100 + doy in
  era * 146097 + doe - 719468.

Definition ms_per_day : Z := 86400000.

(** [YYYY-MM-DDTHH:mm:ss.sssZ], for the years 0000 to 9999. *)
Definition iso (t : Z) : string :=
  let '(y, m, d) := civil_from_days (t / ms_per_day) in
  let r := t mod ms_per_day in
  digits 4 y
    (String "-" (digits 2 m
    (String "-" (digits 2 d
    (String "T" (digits 2 (r / 3600000)
    (String ":" (digits 2 (r / 60000 mod 60)
    (String ":" (digits 2 (r / 1000 mod 60)
    (String "." (digits 3 (r mod 1000) "Z")))))))))))).

Definition digit_value (c : ascii) : option Z :=
  let n := Z.of_nat (nat_of_ascii c) in
  if ((48 <=? n)%Z && (n <=? 57)%Z)%bool then Some (n - 48) else None.

(** The number written by a string of decimal digits. *)
Fixpoint number (s : string) (acc : Z) : option Z :=
  match s with
  | EmptyString => Some acc
  | String c s' =>
      match digit_value c with
      | Some d => number s' (10 * acc + d)
      | None => None
      end
  end.

Definition field (s : string) (from len : nat) : option Z :=
  let part := String.substring from len s in
  if Nat.eqb (String.length part) len then number part 0 else None.

(** [new Date(s)] for a string in the format [iso] writes; any other
    string gives an invalid date. *)
Definition parse_iso (s : string) : JsDate :=
  match field s 0 4, field s 5 2, field s 8 2, field s 11 2, field s 14 2,
        field s 17 2, field s 20 3 with
  | Some y, Some m, Some d, Some hh, Some mm, Some ss, Some ms =>
      let t := days_from_civil y m d * ms_per_day
               + hh * 3600000 + mm * 60000 + ss * 1000 + ms in
      if iso t === s then Some t else None
  | _, _, _, _, _, _, _ => None
  end.

(** [moment(text, 'HH:mm')] for a text of the form [HH:mm]: only the
    hour and the minute of the result are read. *)
Definition parse_HHmm (text : option string) : option Z :=
  match text with
  | Some s =>
      match field s 0 2, field s 3 2 with
      | Some hh, Some mm =>
          if (String.length s =? 5)%nat && (s =? digits 2 hh (String ":" (digits 2 mm "")))%string
             && (hh <? 24)%Z && (mm <? 60)%Z
          then Some (hh * 3600000 + mm * 60000)
          else None
      | _, _ => None
      end
  | None => None
  end.

(** [set] skips a unit whose value is [NaN] and leaves an invalid
    moment invalid. *)
Definition set_hm (m : option Z) (hour minute : JsNumber) : option Z :=
  match m with
  | Some t =>
      let t1 :=
        match hour with
        | Some h => t - (t mod ms_per_day / 3600000) * 3600000 + h * 3600000
        | None => t
        end in
      let t2 :=
        match minute with
        | Some mi => t1 - (t1 mod 3600000 / 60000) * 60000 + mi * 60000
        | None => t1
        end in
      Some t2
  | None => None
  end.

(** A pattern compiles when its parentheses are balanced. *)
Fixpoint balanced (s : string) (depth : nat) : bool :=
  match s with
  | EmptyString => Nat.eqb depth 0
  | String "(" s' => balanced s' (S depth)
  | String ")" s' =>
      match depth with
      | O => false
      | S n => balanced s' n
      end
  | String _ s' => balanced s' depth
  end.

#[export] Instance runtime : JsRuntime := {|
  toISOString := iso;
  newDate := parse_iso;
  newRegExp := fun s => if balanced s 0 then Some (mkRegExp s "i") else None;
  Moment := option Z;
  moment_now := Some;
  moment_date := fun d => d;
  moment_HHmm := parse_HHmm;
  get_hour := fun m => (fun t => t mod ms_per_day / 3600000) <$> m;
  get_minute := fun m => (fun t => t mod 3600000 / 60000) <$> m;
  set_hour_minute := set_hm;
  isAfter := fun a b =>
    match a, b with
    | Some x, Some y => (y <? x)%Z
    | _, _ => false
    end
|}.

End UTC.

(** ** Which calls a program can make *)

(** Every call the program can make, on any path, satisfies [allowed]. *)
Fixpoint uses {A : Type} (allowed : Op -> bool) (p : Prog A) : Prop :=
  match p with
  | Ret _ | Throw _ => True
  | Do op k h =>
      allowed op = true /\ (forall x, uses allowed (k x)) /\ (forall e, uses allowed (h e))
  end.

(** The parts of the world. *)
Inductive Store : Type :=
  | SBookings | SDoctors | SPatients | SChats | SCalendar | SOutbox | SConsole.

Definition writes (op : Op) (s : Store) : bool :=
  match op, s with
  | Booking_save _, SBookings
  | Doctor_save _, SDoctors
  | Patient_save _, SPatients
  | Chat_findOneAndUpdate_push _ _ _, SChats
  | calendar_events_insert _, SCalendar
  | transporter_sendMail _, SOutbox
  | console_error _, SConsole => true
  | _, _ => false
  end.

Definition same_on (s : Store) (w w' : World) : Prop :=
  match s with
  | SBookings => bookings w' = bookings w
  | SDoctors => doctors w' = doctors w
  | SPatients => patients w' = patients w
  | SChats => chats w' = chats w
  | SCalendar => calendar w' = calendar w
  | SOutbox => outbox w' = outbox w
  | SConsole => console w' = console w
  end.

Definition is_calendar (op : Op) : bool :=
  match op with
  | calendar_events_insert _ | console_error _ => true
  | _ => false
  end.

Definition is_notification (op : Op) : bool :=
  match op with
  | transporter_sendMail _ | Chat_findOneAndUpdate_push _ _ _
  | console_error _ | Date_now => true
  | _ => false
  end.

Definition is_reconciliation (op : Op) : bool :=
  match op with
  | Doctor_save _ => true
  | _ => is_notification op
  end.

(** Two populated bookings that differ at most in the meeting link. *)
Definition same_but_link (a b : Populated.t) : Prop :=
  Populated.doctor b = Populated.doctor a
  /\ Populated.patient b = Populated.patient a
  /\ exists link,
       Populated.doc b = Booking.set_meetingLink link (Populated.doc a).

(** The booking in memory once its status is assigned. *)
Definition updated {RT : JsRuntime} (env : Env) (status : string) (w : World)
    (b : Booking.t) : Populated.t :=
  Populated.set_doc
    (Booking.set_status (assigned_status (moment_now (clock env)) b status) b)
    (populate w b).

(** The simple rule of the specification for the slot: free after a
    rejection, booked after any other request. *)
Definition simple_slot_rule (status : string) : string :=
  if status === "rejected" then "free" else "booked".

(** The life cycle waiting -> accepted/rejected -> completed, as a
    relation between the status a booking has and the one it gets. *)
Definition lifecycle_allows (from to_ : string) : bool :=
  if from === "waiting" then
    (to_ === "accepted") || (to_ === "rejected") || (to_ === "completed")
  else if (from === "accepted") || (from === "rejected") then
    to_ === "completed"
  else if from === "completed" then negb (to_ === "waiting")
  else true.

(** The requests after which the patient is written to: a rejection, or
    an acceptance of a video call or of a visit in person. *)
Definition notifies (status consultationType : string) : bool :=
  (status === "rejected")
  || ((status === "accepted")
      && ((consultationType === "Video call") || (consultationType === "In-person"))).

(** The template of a mail fits the request and the kind of consultation. *)
Definition mail_fits (status consultationType : string) (m : Mail) : Prop :=
  match html m with
  | VideoConfirmationMail _ _ _ _ _ =>
      status = "accepted" /\ consultationType = "Video call"
      /\ subject m = "Appointment Confirmation"
  | VideoConfirmationNotice _ _ _ _ _ =>
      status = "accepted" /\ consultationType = "Video call"
      /\ subject m = "Appointment Confirmation Notification"
  | InPersonConfirmationMail _ _ _ _ _ =>
      status = "accepted" /\ consultationType = "In-person"
      /\ subject m = "Appointment Confirmation"
  | RejectionMail _ _ _ _ =>
      status = "rejected" /\ subject m = "Appointment Rejection"
  | _ => False
  end.

(** The template of a chat message fits the request likewise. *)
Definition chat_fits (status consultationType : string) (m : ChatMessage) : Prop :=
  match text m with
  | VideoConfirmationChat _ _ _ _ =>
      status = "accepted" /\ consultationType = "Video call"
  | InPersonConfirmationChat _ _ _ _ =>
      status = "accepted" /\ consultationType = "In-person"
  | RejectionChat _ _ _ => status = "rejected"
  | _ => False
  end.

Definition is_mail (op : Op) : bool :=
  match op with
  | transporter_sendMail _ => true
  | _ => false
  end.

Definition is_chat (op : Op) : bool :=
  match op with
  | Chat_findOneAndUpdate_push _ _ _ => true
  | _ => false
  end.

(** The favourite doctors of a patient document. *)
Definition favorites (p : Patient.t) : list ObjectId :=
  match Patient.favoriteDoctors p with
  | Some l => l
  | None => []
  end.

(** The same query string with another [what]. *)
Definition with_what (v : option string) (q : SearchQuery) : SearchQuery :=
  mkSearchQuery v (where_ q) (country q) (state q) (city q) (speciality q)
    (languages q) (gender q) (hospitals q) (availability q).

(** A parameter that, when given, is a pattern [new RegExp] accepts. *)
Definition compiles {RT : JsRuntime} (param : option string) : Prop :=
  forall s, param = Some s -> truthy param = true -> newRegExp s <> None.

(** Two stored bookings wait for the same doctor at the same date and
    time. *)
Definition double_booked (w : World) : Prop :=
  exists a b,
    In a (bookings w) /\ In b (bookings w)
    /\ Booking._id a <> Booking._id b
    /\ Booking.status a = "waiting" /\ Booking.status b = "waiting"
    /\ Booking.doctor a = Booking.doctor b
    /\ Booking.date a = Booking.date b
    /\ Booking.time a = Booking.time b.

(** A stored booking waits for a slot that its doctor's document shows
    as free. *)
Definition waits_for_free_slot {RT : JsRuntime} (w : World) : Prop :=
  exists b d slot,
    In b (bookings w) /\ Booking.status b = "waiting"
    /\ In d (doctors w) /\ Doctor._id d = Booking.doctor b
    /\ In slot (Doctor.timeSlots d)
    /\ slot_of_booking b slot = inr true
    /\ TimeSlot.status slot = "free".

(** A generic answer to a failed request: status 500 and a fixed text. *)
Definition generic_500 (r : Response) : Prop :=
  r = Send 500 "Server Error" \/ r = Send 500 "Server error"
  \/ r = JsonMessage 500 "Server error".

(** ** A small clinic to run the handlers on *)

Module Clinic.

(** 2024-07-01T00:00:00.000Z *)
Definition july1 : Z := 1719792000000.

Definition slot_9 : TimeSlot.t :=
  TimeSlot.mk (Some july1) "09:00" "09:30" "free" "General".
Definition slot_10 : TimeSlot.t :=
  TimeSlot.mk (Some july1) "10:00" "10:30" "booked" "General".

Definition ada : Doctor.t := Doctor.mk "d1" "Ada" "ada@clinic.example" [slot_9; slot_10].
Definition bob : Patient.t := Patient.mk "p1" "Bob" "bob@mail.example" None.
Definition carol : Patient.t := Patient.mk "p2" "Carol" "carol@mail.example" (Some ["d1"]).

Definition booking (status consultationType : string) : Booking.t :=
  Booking.mk "b1" "p1" "d1" (Some july1) "10:00 - 10:30" consultationType
    status None None.

Definition world (status consultationType : string) : World :=
  mkWorld [booking status consultationType] [ada] [bob; carol] [] [] [] [].

(** No booking yet and both slots free. *)
Definition fresh : World :=
  mkWorld [] [set_slot_status "free" 1 ada] [bob; carol] [] [] [] [].

Definition no_fault : Op -> option JsError := fun _ => None.

(** 2024-07-01T08:00Z, before the appointment, and the day after. *)
Definition morning : Env :=
  mkEnv no_fault (fun _ => Some "https://meet.example/abc") (fun _ _ => true)
    (july1 + 8 * 3600000).
Definition next_day : Env :=
  mkEnv no_fault (fun _ => Some "https://meet.example/abc") (fun _ _ => true)
    (july1 + 86400000).

(** The calendar API refuses every event. *)
Definition calendar_down : Env :=
  mkEnv (fun op => match op with
                   | calendar_events_insert _ => Some (mkError "quota exceeded")
                   | _ => None
                   end)
    (fun _ => None) (fun _ _ => true) (july1 + 8 * 3600000).

(** Bob and Carol both ask for the nine o'clock slot. *)
Definition two_patients_book : Pool :=
  [post_book (RT := UTC.runtime) "b1" "p1" "d1" "2024-07-01T00:00:00.000Z"
     "09:00 - 09:30" "In-person";
   post_book (RT := UTC.runtime) "b2" "p2" "d1" "2024-07-01T00:00:00.000Z"
     "09:00 - 09:30" "Video call"].

(** Ada rejects Bob's booking of the ten o'clock slot while Carol asks
    for that slot. *)
Definition reject_while_booking : Pool :=
  [post_bookings_id (RT := UTC.runtime) "rejected" "b1";
   post_book (RT := UTC.runtime) "b2" "p2" "d1" "2024-07-01T00:00:00.000Z"
     "10:00 - 10:30" "In-person"].

Definition search : SearchQuery :=
  mkSearchQuery (Some "cardio") (Some "Paris") None None None None None None None None.

(** The view engine fails. *)
Definition render_fails : Env :=
  mkEnv (fun op => match op with
                   | res_render _ => Some (mkError "Failed to lookup view")
                   | _ => None
                   end)
    (fun _ => None) (fun _ _ => true) (july1 + 8 * 3600000).

End Clinic.

(** * The rest of the routes *)

(** The dates of the slots, written by [toISOString], are read back by
    [new Date]. *)
Definition dates_round_trip {RT : JsRuntime} (slots : list TimeSlot.t) : Prop :=
  forall slot t, In slot slots -> TimeSlot.date slot = Some t ->
                 newDate (toISOString t) = Some t.


(** Requests served one after the other, each to its end. *)
Definition in_turn {A : Type} (env : Env) (requests : list (Prog A)) (w : World)
    : World :=
  fold_left (fun w request => (run env request w).2) requests w.

(** No patient has a doctor twice among the favourites. *)
Definition distinct_favorites (w : World) : Prop :=
  forall p, In p (patients w) -> NoDup (favorites p).

(** ** The search and its patterns *)

(** The conditions every search starts from. *)
Definition base_conditions (query : gmap string Filter) : Prop :=
  query !! "role" = Some (FEq "doctor")
  /\ query !! "verified" = Some (FEq "Verified")
  /\ query !! "timeSlots.status" = Some (FEq "free").

(** The parameters the route hands to [new RegExp], in the order of its
    statements. *)
Definition patterns (q : SearchQuery) : list (option string) :=
  [country q; state q; city q; speciality q; languages q; hospitals q;
   what q; where_ q].

(** [e] is the error of a given parameter that [new RegExp] rejects. *)
Definition rejected_pattern {RT : JsRuntime} (q : SearchQuery) (e : JsError) : Prop :=
  exists s,
    In (Some s) (patterns q) /\ truthy (Some s) = true /\ newRegExp s = None
    /\ e = mkError ("Invalid regular expression: /" ++ s ++ "/").

(** Where the construction of the filter stands once the parameters
    [done] are dealt with. *)
Definition built {RT : JsRuntime} (q : SearchQuery) (w : World)
    (done : list (option string)) (o : Outcome (gmap string Filter) * World) : Prop :=
  o.2 = w
  /\ match o.1 with
     | Returned query => Forall compiles done /\ base_conditions query
     | Thrown e => rejected_pattern q e
     end.

(** * Slots, blogs, guards and the patient's search

    The routes below read the session and ask Mongoose for documents
    with fields the handlers above never touch.  They are written in a
    state and error monad over the collections they use; [Odds] says
    which queries are rejected. *)

Module Office.

(** ** Numbers *)

(** An integral number, [NaN] or an infinity: what [parseInt] and
    [ToIntegerOrInfinity] give. *)
Inductive Integral : Type :=
  | NaN
  | Int (z : Z)
  | Infinity (negative : bool).

(** Conversions of the language the routes rely on. *)
Class Conversions : Type := {
  (** [parseInt(v)] of a query parameter, [undefined] included *)
  parseInt : option string -> Integral;
  (** [ToIntegerOrInfinity(v)] of a string, which [Array.prototype.splice]
      applies to its first argument *)
  ToIntegerOrInfinity : string -> Integral
}.

(** [n || d] for a number [n] and a finite number [d] *)
Definition or_else (n : Integral) (d : Z) : Integral :=
  match n with
  | NaN | Int 0 => Int d
  | _ => n
  end.

(** [n < z] and [n > z] *)
Definition lt (n : Integral) (z : Z) : bool :=
  match n with
  | NaN => false
  | Int x => (x <? z)%Z
  | Infinity negative => negative
  end.

Definition gt (n : Integral) (z : Z) : bool :=
  match n with
  | NaN => false
  | Int x => (z <? x)%Z
  | Infinity negative => negb negative
  end.

(** [Array.prototype.splice(start, deleteCount)]: the array after the
    call. *)
Definition actualStart (relativeStart : Integral) (len : nat) : nat :=
  match relativeStart with
  | NaN => 0
  | Infinity true => 0
  | Infinity false => len
  | Int z =>
      if (z <? 0)%Z then Z.to_nat (Z.max (Z.of_nat len + z) 0)
      else Z.to_nat (Z.min z (Z.of_nat len))
  end.

Definition splice {A : Type} (start : Integral) (deleteCount : nat) (l : list A)
    : list A :=
  let from := actualStart start (length l) in
  let actualDeleteCount := Nat.min deleteCount (length l - from) in
  (take from l ++ drop (from + actualDeleteCount) l)%list.

(** ** The month and the year of the two calendars

    [GET /doctor/calendar] and [GET /patient/calendar] compute them with
    the same statements. *)

(** [parseInt(req.query.month) || currentDate.getMonth()], replaced by
    the current month when outside [0..11]. *)
Definition calendar_month {C : Conversions} (month : option string) (now_month : Z)
    : Integral :=
  let currentMonth := or_else (parseInt month) now_month in
  if lt currentMonth 0 || gt currentMonth 11 then Int now_month else currentMonth.

Definition calendar_year {C : Conversions} (year : option string) (now_year : Z)
    : Integral :=
  let currentYear := or_else (parseInt year) now_year in
  if lt currentYear 1900 || gt currentYear 2100 then Int now_year else currentYear.

(** ** Documents *)

(** An entry of [doctor.timeSlots] with the location [POST
    /add-time-slot] writes beside it. *)
Module Slot.
Record t : Type := mk {
  slot : TimeSlot.t;
  hospitalLocation : option Hospital.location
}.
End Slot.

Module Doc.
Record t : Type := mk {
  _id : ObjectId;
  name : string;
  email : string;
  hospitals : list Hospital.t;
  timeSlots : list Slot.t
}.
Definition set_timeSlots (v : list Slot.t) (d : t) : t :=
  mk (_id d) (name d) (email d) (hospitals d) v.
End Doc.

Record Image : Type := mkImage { data : string; contentType : string }.

Record Comment : Type := mkComment { username : string; comment : string }.

Module Blog.
Record t : Type := mk {
  _id : ObjectId;
  authorId : option ObjectId;
  title : string;
  description : string;
  summary : string;
  categories : list string;
  hashtags : list string;
  verificationStatus : string;
  image : Image;
  comments : list Comment
}.
End Blog.

(** [req.session.user] *)
Module User.
Record t : Type := mk {
  _id : option ObjectId;
  name : string;
  email : string;
  role : string
}.
End User.

(** [req.session]: [None] when the request has no session object, [Some
    None] for a session nobody is logged in to. *)
Definition Session : Type := option (option User.t).

(** ** The filter of the patient's search *)

Inductive Cond : Type :=
  | Is (v : string)
  | IsBool (b : bool)
  | IsDate (d : JsDate)
  | InStrings (l : list string)
  | Or (alternatives : list (string * RegExp)).

(** ** Queries and the collections *)

Inductive Query : Type :=
  | Doctor_findOne (email : string)
  | Doctor_save (d : Doc.t)
  | Doctor_find (filter : gmap string Cond)
  | Blog_findById (id : ObjectId)
  | Blog_save (b : Blog.t)
  | res_render (view : string).

Record Odds : Type := mkOdds {
  (** the error a query is rejected with *)
  rejects : Query -> option JsError;
  (** the documents a filter selects *)
  selects : gmap string Cond -> Doc.t -> bool
}.

Record Db : Type := mkDb {
  doctors : list Doc.t;
  blogs : list Blog.t;
  (** the lines written with [console.error] and [console.warn] *)
  console : list (list string);
  (** the queries made so far, rejected ones included *)
  asked : list Query
}.

Definition set_doctors (v : list Doc.t) (db : Db) : Db :=
  mkDb v (blogs db) (console db) (asked db).
Definition set_blogs (v : list Blog.t) (db : Db) : Db :=
  mkDb (doctors db) v (console db) (asked db).
Definition set_console (v : list (list string)) (db : Db) : Db :=
  mkDb (doctors db) (blogs db) v (asked db).
Definition set_asked (v : list Query) (db : Db) : Db :=
  mkDb (doctors db) (blogs db) (console db) v.

(** ** The monad *)

Definition M (A : Type) : Type := Db -> Outcome A * Db.

Definition ret {A : Type} (a : A) : M A := fun db => (Returned a, db).

Definition throw {A : Type} (e : JsError) : M A := fun db => (Thrown e, db).

Definition bind {A B : Type} (m : M A) (f : A -> M B) : M B :=
  fun db =>
    match m db with
    | (Returned a, db') => f a db'
    | (Thrown e, db') => (Thrown e, db')
    end.

(** [try { m } catch (e) { c e }] *)
Definition try_catch {A : Type} (m : M A) (c : JsError -> M A) : M A :=
  fun db =>
    match m db with
    | (Returned a, db') => (Returned a, db')
    | (Thrown e, db') => c e db'
    end.

Notation "'let*' x ':=' e 'in' k" := (bind e (fun x => k))
  (at level 10, x name, e at level 100, k at level 200).
Notation "e ';;*' k" := (bind e (fun _ => k))
  (at level 100, k at level 200, right associativity).

(** A query: noted, then rejected or answered from the collections. *)
Definition ask {A : Type} (env : Odds) (q : Query) (answer : Db -> A * Db) : M A :=
  fun db =>
    let db := set_asked (asked db ++ [q])%list db in
    match rejects env q with
    | Some e => (Thrown e, db)
    | None => let (a, db') := answer db in (Returned a, db')
    end.

(** [console.error(..)], [console.warn(..)] *)
Definition log (args : list string) : M unit :=
  fun db => (Returned tt, set_console (console db ++ [args])%list db).

(** Reading a property of a value that may be [undefined] or [null]. *)
Definition read {A : Type} (what : string) (o : option A) : M A :=
  match o with
  | Some a => ret a
  | None => throw (TypeError ("Cannot read properties of " ++ what))
  end.

(** [await Doctor.findOne({ email })] *)
Definition findOne (env : Odds) (email : string) : M (option Doc.t) :=
  ask env (Doctor_findOne email)
    (fun db => (List.find (fun d => Doc.email d === email) (doctors db), db)).

(** [await doctor.save()] *)
Definition save (env : Odds) (d : Doc.t) : M unit :=
  ask env (Doctor_save d)
    (fun db =>
       (tt, set_doctors
              (upsert (fun x => Doc._id x === Doc._id d) d (doctors db)) db)).

(** [await Doctor.find(filter)] *)
Definition find (env : Odds) (filter : gmap string Cond) : M (list Doc.t) :=
  ask env (Doctor_find filter)
    (fun db => (List.filter (selects env filter) (doctors db), db)).

(** [await Blog.findById(id)] *)
Definition Blog_find (env : Odds) (id : ObjectId) : M (option Blog.t) :=
  ask env (Blog_findById id)
    (fun db => (findById Blog._id id (blogs db), db)).

(** [await blog.save()] *)
Definition Blog_store (env : Odds) (b : Blog.t) : M unit :=
  ask env (Blog_save b)
    (fun db =>
       (tt, set_blogs
              (upsert (fun x => Blog._id x === Blog._id b) b (blogs db)) db)).

(** ** Answers *)

Inductive Reply : Type :=
  | Sent (code : nat) (body : string)
  | Redirected (url : string)
  | Rendered (view : string)
  | Json (doctors : list Doc.t).

(** [res.render(view, ..)].  An error of the view is not thrown to the
    callback: Express hands it to the error middleware of the
    application file, which writes it on the console and answers 500
    ['Something broke!']. *)
Definition render (env : Odds) (view : string) : M Reply :=
  fun db =>
    let db := set_asked (asked db ++ [res_render view])%list db in
    match rejects env (res_render view) with
    | Some e =>
        (Returned (Sent 500 "Something broke!"),
         set_console (console db ++ [["Error:"; message e]])%list db)
    | None => (Returned (Rendered view), db)
    end.

(** [try { body } catch (e) { console.error(..); res.status(500).send(..) }] *)
Definition guarded (l : Logged) (answer : Reply) (body : M Reply) : M Reply :=
  try_catch body (fun e => log (log_args l e) ;;* ret answer).

(** ** The two guards *)

(** What a middleware does with a request: it calls [next()] or answers
    it. *)
Inductive Passage : Type :=
  | Next
  | Answered (r : Reply).

(** [isLoggedIn] of [routes/doctor.js] *)
Definition doctor_isLoggedIn (session : Session) (ip originalUrl : string)
    : M Passage :=
  if match session with
     | Some (Some user) => User.role user === "doctor"
     | _ => false
     end
  then ret Next
  else
    let* user := read "undefined (reading 'user')" session in
    log ["Unauthorized access attempt:"; ip; originalUrl;
         match user with
         | Some user => User.email user
         | None => "Guest"
         end] ;;*
    ret (Answered (Redirected "/auth/login")).

(** [isLoggedIn] of [routes/patient.js] *)
Definition patient_isLoggedIn (session : Session) : M Passage :=
  let* user := read "undefined (reading 'user')" session in
  if match user with
     | Some user => User.role user === "patient"
     | None => false
     end
  then ret Next
  else ret (Answered (Redirected "/auth/login")).

(** [router.METHOD(path, guard, handler)] *)
Definition behind (guard : M Passage) (handler : M Reply) : M Reply :=
  let* passage := guard in
  match passage with
  | Next => handler
  | Answered r => ret r
  end.

(** [req.session.user.email] *)
Definition session_email (session : Session) : M string :=
  let* user := read "undefined (reading 'user')" session in
  let* user := read "undefined (reading 'email')" user in
  ret (User.email user).

Section Handlers.

Context {RT : JsRuntime} {C : Conversions}.

Variable env : Odds.

(** ** routes/doctor.js: the profile *)

(** The callback of [router.get('/profile', isLoggedIn, ..)] *)
Definition get_profile (session : Session) : M Reply :=
  guarded LogMessage (Sent 500 "Server Error")
    (let* doctorEmail := session_email session in
     let* doctor := findOne env doctorEmail in
     match doctor with
     | None => ret (Sent 404 "Doctor not found")
     | Some _ => render env "doctorProfile"
     end).

(** The callback of [router.get('/edit', isLoggedIn, ..)] *)
Definition get_edit (session : Session) : M Reply :=
  guarded LogMessage (Sent 500 "Server Error")
    (let* doctorEmail := session_email session in
     let* doctor := findOne env doctorEmail in
     let* _ := read "null (reading 'hospitals')" doctor in
     render env "editDoctorProfile").

(** ** routes/doctor.js: the time slots *)

(** The callback of [router.delete('/manage-time-slots/:index',
    isLoggedIn, ..)] *)
Definition delete_manage_time_slots (session : Session) (index : string) : M Reply :=
  guarded LogMessage (Sent 500 "Server Error")
    (let* doctorEmail := session_email session in
     let* doctor := findOne env doctorEmail in
     match doctor with
     | None => ret (Sent 404 "Doctor not found")
     | Some doctor =>
         let doctor :=
           Doc.set_timeSlots
             (splice (ToIntegerOrInfinity index) 1 (Doc.timeSlots doctor)) doctor in
         save env doctor ;;*
         ret (Redirected "/doctor/manage-time-slots")
     end).

(** The callback of [router.post('/add-time-slot', isLoggedIn, ..)] *)
Definition post_add_time_slot (session : Session)
    (date startTime endTime hospital : string) : M Reply :=
  guarded LogMessage (Sent 500 "Server Error")
    (let* doctorEmail := session_email session in
     let* doctor := findOne env doctorEmail in
     match doctor with
     | None => ret (Sent 404 "Doctor not found")
     | Some doctor =>
         match List.find (fun h => Hospital.name h === hospital)
                 (Doc.hospitals doctor) with
         | None => ret (Sent 404 "Hospital not found")
         | Some selectedHospital =>
             let newTimeSlot :=
               Slot.mk (TimeSlot.mk (newDate date) startTime endTime "free" hospital)
                 (Some (Hospital.loc selectedHospital)) in
             let doctor :=
               Doc.set_timeSlots (Doc.timeSlots doctor ++ [newTimeSlot])%list doctor in
             save env doctor ;;*
             ret (Redirected "/doctor/manage-time-slots")
         end
     end).

(** ** routes/doctor.js: the blogs *)

(** The callback of [router.get('/blogs/edit/:id', isLoggedIn, ..)] *)
Definition get_blogs_edit (session : Session) (id : ObjectId) : M Reply :=
  guarded LogError (Sent 500 "Server Error")
    (let* blog := Blog_find env id in
     match blog with
     | None => log ["Blog not found"] ;;* ret (Sent 404 "Blog not found")
     | Some blog =>
         let* user := read "undefined (reading 'user')" session in
         match user with
         | Some (User.mk (Some ((String _ _) as user_id)) _ _ _) =>
             match Blog.authorId blog with
             | None =>
                 log ["Blog author ID is not defined"] ;;*
                 ret (Sent 403 "Unauthorized")
             | Some authorId =>
                 if negb (authorId === user_id) then ret (Sent 403 "Unauthorized")
                 else render env "edit-blog"
             end
         | _ =>
             (* !req.session.user || !req.session.user._id *)
             log ["Unauthorized: No user session found"] ;;*
             ret (Sent 403 "Unauthorized")
         end
     end).

(** The body of a [POST /blogs/edit/:id]; a field the form did not send
    is [None]. *)
Record Edit : Type := mkEdit {
  edit_title : string;
  edit_description : string;
  edit_summary : string;
  edit_categories : option string;
  edit_hashtags : option string;
  file : option Image
}.

(** The blog as the handler leaves it before [blog.save()]. *)
Definition edited (blog : Blog.t) (body : Edit) (categories hashtags : string)
    : Blog.t :=
  Blog.mk (Blog._id blog) (Blog.authorId blog)
    (edit_title body) (edit_description body) (edit_summary body)
    (split "," categories) (split "," hashtags)
    "pending"
    match file body with
    | Some f => f
    | None => Blog.image blog
    end
    (Blog.comments blog).

(** The callback of [router.post('/blogs/edit/:id', isLoggedIn,
    upload.single('image'), ..)] *)
Definition post_blogs_edit (session : Session) (id : ObjectId) (body : Edit)
    : M Reply :=
  guarded LogError (Sent 500 "Server Error")
    (let* blog := Blog_find env id in
     match blog with
     | None => ret (Sent 404 "Blog not found")
     | Some blog =>
         let* authorId := read "null (reading 'toString')" (Blog.authorId blog) in
         let* user := read "undefined (reading 'user')" session in
         let* user := read "undefined (reading '_id')" user in
         let* user_id := read "undefined (reading 'toString')" (User._id user) in
         if negb (authorId === user_id) then ret (Sent 403 "Unauthorized")
         else
           let* categories :=
             read "undefined (reading 'split')" (edit_categories body) in
           let* hashtags :=
             read "undefined (reading 'split')" (edit_hashtags body) in
           Blog_store env (edited blog body categories hashtags) ;;*
           ret (Redirected "/doctor/profile/blogs")
     end).

(** The callback of [router.post('/blogs/comment/:id', isLoggedIn, ..)];
    [console.log] and [req.flash] leave the collections alone and are
    left out. *)
Definition post_blogs_comment (session : Session) (id : ObjectId) (comment : string)
    : M Reply :=
  guarded LogMessage (Sent 500 "Server Error")
    (let* blog := Blog_find env id in
     match blog with
     | None => ret (Sent 404 "Blog not found")
     | Some blog =>
         let* user := read "undefined (reading 'user')" session in
         let* user := read "undefined (reading 'name')" user in
         let blog :=
           Blog.mk (Blog._id blog) (Blog.authorId blog) (Blog.title blog)
             (Blog.description blog) (Blog.summary blog) (Blog.categories blog)
             (Blog.hashtags blog) (Blog.verificationStatus blog) (Blog.image blog)
             (Blog.comments blog ++ [mkComment (User.name user) comment])%list in
         Blog_store env blog ;;*
         ret (Redirected ("/doctor/blogs/view/" ++ id))
     end).

(** ** routes/patient.js: the search of the patient router *)

Record Search : Type := mkSearch {
  what : option string;
  where_ : option string;
  country : option string;
  state : option string;
  city : option string;
  speciality : option string;
  languages : option string;
  gender : option string;
  hospital : option string;
  availability : option string;
  dateAvailability : option string;
  consultation : option string
}.

(** [new RegExp(s, 'i')] *)
Definition regexp (s : string) : M RegExp :=
  match newRegExp s with
  | Some r => ret r
  | None => throw (mkError ("Invalid regular expression: /" ++ s ++ "/"))
  end.

(** [if (param) filter = f(param)] *)
Definition given {A : Type} (param : option string) (f : string -> A -> M A)
    (filter : A) : M A :=
  match param with
  | Some s => if truthy param then f s filter else ret filter
  | None => ret filter
  end.

(** [filter.$or], or the empty array the handler puts there first. *)
Definition alternatives_of (filter : gmap string Cond) : list (string * RegExp) :=
  match filter !! "$or" with
  | Some (Or l) => l
  | _ => []
  end.

(** The filter object the route builds, statement by statement. *)
Definition search_filter (q : Search) : M (gmap string Cond) :=
  let* filter := given (what q)
    (fun s filter =>
       let* r1 := regexp s in
       let* r2 := regexp s in
       let* r3 := regexp s in
       ret (<["$or" := Or [("speciality", r1); ("conditionsTreated", r2);
                           ("name", r3)]]> filter))
    ∅ in
  let* filter := given (where_ q)
    (fun s filter =>
       let alternatives := alternatives_of filter in
       let* r1 := regexp s in
       let* r2 := regexp s in
       let* r3 := regexp s in
       ret (<["$or" := Or (alternatives ++
                           [("city", r1); ("state", r2); ("country", r3)])%list]>
              filter))
    filter in
  let* filter := given (country q)
    (fun s filter => ret (<["country" := Is s]> filter)) filter in
  let* filter := given (state q)
    (fun s filter => ret (<["state" := Is s]> filter)) filter in
  let* filter := given (city q)
    (fun s filter => ret (<["city" := Is s]> filter)) filter in
  let* filter := given (speciality q)
    (fun s filter => ret (<["speciality" := Is s]> filter)) filter in
  let* filter := given (languages q)
    (fun s filter => ret (<["languagesSpoken" := InStrings (split "," s)]> filter))
    filter in
  let* filter := given (gender q)
    (fun s filter => ret (<["gender" := Is s]> filter)) filter in
  let* filter := given (hospital q)
    (fun s filter => ret (<["hospitals" := Is s]> filter)) filter in
  let* filter := given (availability q)
    (fun s filter => ret (<["availability" := IsBool (s === "true")]> filter))
    filter in
  let* filter := given (dateAvailability q)
    (fun s filter => ret (<["dateAvailability" := IsDate (newDate s)]> filter))
    filter in
  given (consultation q)
    (fun s filter => ret (<["consultation" := Is s]> filter)) filter.

(** The callback of [router.get('/search-doctors', ..)] *)
Definition get_search_doctors (q : Search) : M Reply :=
  guarded (LogLabelled "Error searching doctors:") (Sent 500 "Server error")
    (let* filter := search_filter q in
     let* doctors := find env filter in
     ret (Json doctors)).

End Handlers.

(** ** The routes with their guards *)

Section Routes.

Context {RT : JsRuntime} {C : Conversions}.

Variable env : Odds.

(** A request: the session and where it comes from. *)
Record Request : Type := mkRequest {
  session : Session;
  ip : string;
  originalUrl : string
}.

Definition doctor_route (req : Request) (handler : Session -> M Reply) : M Reply :=
  behind (doctor_isLoggedIn (session req) (ip req) (originalUrl req))
    (handler (session req)).

Definition DELETE_manage_time_slots (req : Request) (index : string) : M Reply :=
  doctor_route req (fun s => delete_manage_time_slots env s index).

Definition POST_add_time_slot (req : Request)
    (date startTime endTime hospital : string) : M Reply :=
  doctor_route req
    (fun s => post_add_time_slot env s date startTime endTime hospital).

Definition POST_blogs_edit (req : Request) (id : ObjectId) (body : Edit) : M Reply :=
  doctor_route req (fun s => post_blogs_edit env s id body).

Definition GET_blogs_edit (req : Request) (id : ObjectId) : M Reply :=
  doctor_route req (fun s => get_blogs_edit env s id).

End Routes.

(** [m] leaves the collections alone and returns a value with the
    property [I]. *)
Definition returns {A : Type} (I : A -> Prop) (m : M A) : Prop :=
  forall db, exists a, m db = (Returned a, db) /\ I a.



End Office.
(** Further situations at the clinic. *)
Module Mishaps.

(** The mail server refuses every mail. *)
Definition mail_down : Env :=
  mkEnv (fun op => match op with
                   | transporter_sendMail _ => Some (mkError "connection refused")
                   | _ => None
                   end)
    (fun _ => Some "https://meet.example/abc") (fun _ _ => true)
    (Clinic.july1 + 8 * 3600000).

(** A search for a speciality with a parenthesis left open. *)
Definition unbalanced : SearchQuery :=
  mkSearchQuery (Some "(cardio") (Some "Paris") None None None None None None None None.

(** The clinic after the doctor of the booking has been removed. *)
Definition doctor_gone (status consultationType : string) : World :=
  mkWorld [Clinic.booking status consultationType] [] [Clinic.bob; Clinic.carol]
    [] [] [] [].

End Mishaps.

(** A doctor at her desk: the documents, sessions and conversions the
    examples of the slots, the blogs and the searches use. *)
Module Practice.

Import Office.

(** ** Numbers written in requests *)

Definition is_space (c : ascii) : bool :=
  let n := nat_of_ascii c in
  Nat.eqb n 32 || (Nat.leb 9 n && Nat.leb n 13).

Fixpoint skip_spaces (s : string) : string :=
  match s with
  | String c s' => if is_space c then skip_spaces s' else s
  | EmptyString => EmptyString
  end.

Definition digit_of (radix : Z) (c : ascii) : option Z :=
  let n := Z.of_nat (nat_of_ascii c) in
  let d :=
    if ((48 <=? n) && (n <=? 57))%Z then Some (n - 48)
    else if ((97 <=? n) && (n <=? 122))%Z then Some (n - 87)
    else if ((65 <=? n) && (n <=? 90))%Z then Some (n - 55)
    else None in
  match d with
  | Some v => if (v <? radix)%Z then Some v else None
  | None => None
  end.

(** The value of the digits [s] starts with; [None] when it starts with
    none. *)
Fixpoint digits_prefix (radix : Z) (s : string) (acc : option Z) : option Z :=
  match s with
  | String c s' =>
      match digit_of radix c with
      | Some d => digits_prefix radix s' (Some (radix * default 0 acc + d))
      | None => acc
      end
  | EmptyString => acc
  end.

(** [parseInt] without a radix, for numbers a double holds exactly:
    blanks, a sign, [0x] for sixteen, then the digits there are. *)
Definition parse_int (v : option string) : Integral :=
  match v with
  | None => NaN
  | Some s =>
      let s := skip_spaces s in
      let (negative, s) :=
        match s with
        | String "-" s' => (true, s')
        | String "+" s' => (false, s')
        | _ => (false, s)
        end in
      let (radix, s) :=
        match s with
        | String "0" (String "x" s') | String "0" (String "X" s') => (16, s')
        | _ => (10, s)
        end in
      match digits_prefix radix s None with
      | Some z => Int (if negative then - z else z)
      | None => NaN
      end
  end.

(** [s] without the blanks at its ends. *)
Fixpoint rev_onto (s acc : string) : string :=
  match s with
  | String c s' => rev_onto s' (String c acc)
  | EmptyString => acc
  end.

Definition trim (s : string) : string :=
  rev_onto (skip_spaces (rev_onto (skip_spaces s) EmptyString)) EmptyString.

(** The digits [s] starts with, and what follows them. *)
Fixpoint span_digits (radix : Z) (s : string) : string * string :=
  match s with
  | String c s' =>
      match digit_of radix c with
      | Some _ => let (d, rest) := span_digits radix s' in (String c d, rest)
      | None => (EmptyString, s)
      end
  | EmptyString => (EmptyString, EmptyString)
  end.

Definition value_of (radix : Z) (digits : string) : Z :=
  default 0 (digits_prefix radix digits None).

(** A sign in front of [s]. *)
Definition signed (s : string) : bool * string :=
  match s with
  | String "-" s' => (true, s')
  | String "+" s' => (false, s')
  | _ => (false, s)
  end.

(** A literal in radix 16, 8 or 2 after its prefix: digits only. *)
Definition radix_literal (radix : Z) (s : string) : Integral :=
  match s, span_digits radix s with
  | String _ _, (_, EmptyString) => Int (value_of radix s)
  | _, _ => NaN
  end.

(** The exponent part of a decimal literal: nothing, or [e] and a signed
    number. *)
Definition exponent_of (s : string) : option Z :=
  match s with
  | EmptyString => Some 0
  | String "e" s' | String "E" s' =>
      let (negative, digits) := signed s' in
      match digits, span_digits 10 digits with
      | String _ _, (_, EmptyString) =>
          Some (if negative then - value_of 10 digits else value_of 10 digits)
      | _, _ => None
      end
  | _ => None
  end.

(** A decimal literal, cut to its integral part. *)
Definition decimal_literal (s : string) : Integral :=
  let (whole, rest) := span_digits 10 s in
  let (fraction, rest) :=
    match rest with
    | String "." rest' => span_digits 10 rest'
    | _ => (EmptyString, rest)
    end in
  match (whole ++ fraction)%string, exponent_of rest with
  | String _ _ as digits, Some exponent =>
      let mantissa := value_of 10 digits in
      let scale := exponent - Z.of_nat (String.length fraction) in
      if (0 <=? scale)%Z then
        if (mantissa =? 0)%Z then Int 0
        else if (400 <? scale)%Z then Infinity false
        else if (2 ^ 1024 <=? mantissa * 10 ^ scale)%Z then Infinity false
        else Int (mantissa * 10 ^ scale)
      else if (Z.of_nat (String.length digits) <? - scale)%Z then Int 0
      else Int (mantissa / 10 ^ (- scale))
  | _, _ => NaN
  end.

(** [ToNumber] of a string cut to its integral part, for numbers a double
    holds exactly. *)
Definition number_of (s : string) : Integral :=
  match trim s with
  | EmptyString => Int 0
  | String "0" (String "x" s') | String "0" (String "X" s') => radix_literal 16 s'
  | String "0" (String "o" s') | String "0" (String "O" s') => radix_literal 8 s'
  | String "0" (String "b" s') | String "0" (String "B" s') => radix_literal 2 s'
  | s =>
      let (negative, unsigned) := signed s in
      if unsigned === "Infinity" then Infinity negative
      else
        match decimal_literal unsigned with
        | Int z => Int (if negative then - z else z)
        | Infinity _ => Infinity negative
        | NaN => NaN
        end
  end.

(** [ToIntegerOrInfinity] of a string: a text that is not a number
    counts as [0]. *)
Definition index_of (s : string) : Integral :=
  match number_of s with
  | NaN => Int 0
  | n => n
  end.

#[export] Instance decimal : Conversions := {|
  parseInt := parse_int;
  ToIntegerOrInfinity := index_of
|}.

(** ** Documents and sessions *)

Definition general : Hospital.t :=
  Hospital.mk "General" (Hospital.mkLocation "1 Main St" "Paris" "IdF" "France" "75001").

Definition ada : Doc.t :=
  Doc.mk "d1" "Ada" "ada@clinic.example" [general]
    [Slot.mk Clinic.slot_9 None; Slot.mk Clinic.slot_10 None].

Definition ada_user : User.t := User.mk (Some "d1") "Ada" "ada@clinic.example" "doctor".
Definition eve_user : User.t := User.mk (Some "d9") "Eve" "eve@clinic.example" "doctor".
Definition bob_user : User.t := User.mk (Some "p1") "Bob" "bob@mail.example" "patient".

Definition picture : Image := mkImage "..." "image/png".

Definition heart : Blog.t :=
  Blog.mk "g1" (Some "d1") "Heart" "On the heart" "Short" ["cardio"] ["#heart"]
    "Verified" picture [mkComment "Eve" "Nice"].

(** A blog whose author is not recorded. *)
Definition orphan : Blog.t :=
  Blog.mk "g2" None "Lungs" "On the lungs" "Short" ["pulmo"] ["#lungs"]
    "Verified" picture [].

Definition db : Db := mkDb [ada] [heart; orphan] [] [].

(** No query is rejected and every filter selects every doctor. *)
Definition calm : Odds := mkOdds (fun _ => None) (fun _ _ => true).

Definition from (user : User.t) : Request :=
  mkRequest (Some (Some user)) "203.0.113.7" "/doctor/manage-time-slots".

Definition form : Edit :=
  mkEdit "Heart" "On the heart, revised" "Short" (Some "cardio,surgery") (Some "#heart")
    None.

Definition cardio_in_paris : Search :=
  mkSearch (Some "cardio") (Some "Paris") None None None None None None None None
    None None.


End Practice.
(** * Properties *)

Example iso_example : UTC.iso 1719792000000 = "2024-07-01T00:00:00.000Z".
Proof. vm_compute. reflexivity. Qed.
Example parse_iso_example : UTC.parse_iso "2024-07-01T09:30:00.000Z" = Some 1719826200000.
Proof. vm_compute. reflexivity. Qed.
Example parse_HHmm_example : UTC.parse_HHmm (Some "10:30") = Some 37800000.
Proof. vm_compute. reflexivity. Qed.

Example split_two : split " - " "10:00 - 10:30" = ["10:00"; "10:30"].
Proof. reflexivity. Qed.

Example split_none : split " - " "10:00" = ["10:00"].
Proof. reflexivity. Qed.

Example split_three : split " - " "a - b - c" = ["a"; "b"; "c"].
Proof. reflexivity. Qed.

Lemma strict_eq_true (a b : string) : (a === b) = true <-> a = b.
Proof. unfold strict_eq. apply String.eqb_eq. Qed.

Lemma strict_eq_false (a b : string) : (a === b) = false <-> a <> b.
Proof. unfold strict_eq. apply String.eqb_neq. Qed.

Lemma strict_eq_refl (a : string) : (a === a) = true.
Proof. apply strict_eq_true. reflexivity. Qed.

(** ** Running composed programs *)

Section Running.

Context {A B : Type} (env : Env).

Lemma run_bind (p : Prog A) (f : A -> Prog B) (w : World) :
  run env (bind p f) w =
  match run env p w with
  | (Returned a, w') => run env (f a) w'
  | (Thrown e, w') => (Thrown e, w')
  end.
Proof.
  revert w. induction p as [a|e|op k IHk h IHh]; intros w; simpl; try reflexivity.
  destruct (exec env op w) as [[e|x] w']; [apply IHh | apply IHk].
Qed.

Lemma calls_bind (p : Prog A) (f : A -> Prog B) (w : World) :
  calls env (bind p f) w =
  (calls env p w ++
   match run env p w with
   | (Returned a, w') => calls env (f a) w'
   | (Thrown e, w') => []
   end)%list.
Proof.
  revert w. induction p as [a|e|op k IHk h IHh]; intros w; simpl; try reflexivity.
  f_equal. destruct (exec env op w) as [[e|x] w']; [apply IHh | apply IHk].
Qed.

Lemma run_tryCatch (p : Prog A) (c : JsError -> Prog A) (w : World) :
  run env (tryCatch p c) w =
  match run env p w with
  | (Returned a, w') => (Returned a, w')
  | (Thrown e, w') => run env (c e) w'
  end.
Proof.
  revert w. induction p as [a|e|op k IHk h IHh]; intros w; simpl; try reflexivity.
  destruct (exec env op w) as [[e|x] w']; [apply IHh | apply IHk].
Qed.

Lemma calls_tryCatch (p : Prog A) (c : JsError -> Prog A) (w : World) :
  calls env (tryCatch p c) w =
  (calls env p w ++
   match run env p w with
   | (Returned a, w') => []
   | (Thrown e, w') => calls env (c e) w'
   end)%list.
Proof.
  revert w. induction p as [a|e|op k IHk h IHh]; intros w; simpl; try reflexivity.
  f_equal. destruct (exec env op w) as [[e|x] w']; [apply IHh | apply IHk].
Qed.

End Running.

Lemma run_call (env : Env) (op : Op) (w : World) :
  run env (call op) w =
  match exec env op w with
  | (inl e, w') => (Thrown e, w')
  | (inr x, w') => (Returned x, w')
  end.
Proof. simpl. destruct (exec env op w) as [[e|x] w']; reflexivity. Qed.

Lemma calls_call (env : Env) (op : Op) (w : World) : calls env (call op) w = [op].
Proof. simpl. destruct (exec env op w) as [[e|x] w']; reflexivity. Qed.

Lemma exec_ok (env : Env) (op : Op) (w : World) :
  faults env op = None -> exec env op w = (inr (perform env op w).1, (perform env op w).2).
Proof.
  intros H. unfold exec. rewrite H. destruct (infallible op);
    destruct (perform env op w); reflexivity.
Qed.

Lemma exec_fault (env : Env) (op : Op) (w : World) (e : JsError) :
  infallible op = false -> faults env op = Some e -> exec env op w = (inl e, w).
Proof. intros Hi H. unfold exec. rewrite Hi, H. reflexivity. Qed.


(** A guarded route turns an exception of its body into its answer. *)
Lemma run_guarded (env : Env) (l : Logged) (answer : Response)
    (body : Prog Response) (w : World) :
  run env (guarded l answer body) w =
  match run env body w with
  | (Returned r, w') => (Returned r, w')
  | (Thrown e, w') => (Returned answer, set_console (console w' ++ [log_args l e]) w')
  end.
Proof.
  unfold guarded. rewrite run_tryCatch.
  destruct (run env body w) as [[r|e] w']; reflexivity.
Qed.

Lemma calls_guarded (env : Env) (l : Logged) (answer : Response)
    (body : Prog Response) (w : World) :
  calls env (guarded l answer body) w =
  (calls env body w ++
   match run env body w with
   | (Returned r, w') => []
   | (Thrown e, w') => [console_error (log_args l e)]
   end)%list.
Proof.
  unfold guarded. rewrite calls_tryCatch.
  destruct (run env body w) as [[r|e] w']; reflexivity.
Qed.

(** ** Which calls a program can make, and what they leave alone *)

Lemma uses_call (allowed : Op -> bool) (op : Op) :
  allowed op = true -> uses allowed (call op).
Proof. intros H. simpl. auto. Qed.

Lemma uses_bind {A B : Type} (allowed : Op -> bool) (p : Prog A) (f : A -> Prog B) :
  uses allowed p -> (forall a, uses allowed (f a)) -> uses allowed (bind p f).
Proof.
  intros Hp Hf. induction p as [a|e|op k IHk h IHh]; simpl in *; auto.
  destruct Hp as (Hop & Hk & Hh). auto.
Qed.

Lemma uses_tryCatch {A : Type} (allowed : Op -> bool) (p : Prog A)
    (c : JsError -> Prog A) :
  uses allowed p -> (forall e, uses allowed (c e)) -> uses allowed (tryCatch p c).
Proof.
  intros Hp Hc. induction p as [a|e|op k IHk h IHh]; simpl in *; auto.
  destruct Hp as (Hop & Hk & Hh). auto.
Qed.

Lemma uses_weaken {A : Type} (allowed allowed' : Op -> bool) (p : Prog A) :
  (forall op, allowed op = true -> allowed' op = true) ->
  uses allowed p -> uses allowed' p.
Proof.
  intros Hw. induction p as [a|e|op k IHk h IHh]; simpl; auto.
  intros (Hop & Hk & Hh). auto.
Qed.

Lemma uses_read_of {A : Type} (allowed : Op -> bool) (what : string) (o : option A) :
  uses allowed (read_of what o).
Proof. destruct o; simpl; auto. Qed.

Lemma uses_lift {A : Type} (allowed : Op -> bool) (r : JsError + A) :
  uses allowed (lift r).
Proof. destruct r; simpl; auto. Qed.

Lemma uses_calls {A : Type} (allowed : Op -> bool) (env : Env) (p : Prog A) (w : World) :
  uses allowed p -> Forall (fun op => allowed op = true) (calls env p w).
Proof.
  revert w. induction p as [a|e|op k IHk h IHh]; simpl; intros w Hp.
  - constructor.
  - constructor.
  - destruct Hp as (Hop & Hk & Hh). constructor; [exact Hop|].
    destruct (exec env op w) as [[e|x] w']; auto.
Qed.

Lemma uses_not_in {A : Type} (allowed : Op -> bool) (env : Env) (p : Prog A)
    (w : World) (op : Op) :
  uses allowed p -> allowed op = false -> ~ In op (calls env p w).
Proof.
  intros Hp Hop Hin.
  pose proof (uses_calls allowed env p w Hp) as HF.
  rewrite Forall_forall in HF.
  apply list_elem_of_In in Hin. apply HF in Hin. congruence.
Qed.

Lemma same_on_refl (s : Store) (w : World) : same_on s w w.
Proof. destruct s; reflexivity. Qed.

Lemma same_on_trans (s : Store) (w1 w2 w3 : World) :
  same_on s w1 w2 -> same_on s w2 w3 -> same_on s w1 w3.
Proof. destruct s; simpl; congruence. Qed.

Lemma exec_same_on (env : Env) (op : Op) (w : World) (s : Store) :
  writes op s = false -> same_on s w (exec env op w).2.
Proof.
  intros H. unfold exec.
  destruct (if infallible op then None else faults env op).
  - apply same_on_refl.
  - destruct op, s; simpl in *; try reflexivity; discriminate.
Qed.

(** A program that never writes a store leaves it as it was. *)
Lemma run_same_on {A : Type} (env : Env) (s : Store) (p : Prog A) (w : World) :
  uses (fun op => negb (writes op s)) p -> same_on s w (run env p w).2.
Proof.
  revert w. induction p as [a|e|op k IHk h IHh]; simpl; intros w Hp.
  - apply same_on_refl.
  - apply same_on_refl.
  - destruct Hp as (Hop & Hk & Hh). apply negb_true_iff in Hop.
    pose proof (exec_same_on env op w s Hop) as Hex.
    destruct (exec env op w) as [[e|x] w']; simpl in Hex;
      eapply same_on_trans; eauto.
Qed.

(** ** The pieces of the status update *)

Section StatusUpdate.

Context {RT : JsRuntime}.

Ltac uses_tac :=
  repeat first
    [ apply uses_bind; [|intros ?]
    | apply uses_tryCatch; [|intros ?]
    | apply uses_call; reflexivity
    | apply uses_read_of
    | apply uses_lift
    | exact I ].

Lemma createGoogleMeetLink_uses (booking : Populated.t) :
  uses is_calendar (createGoogleMeetLink booking).
Proof. unfold createGoogleMeetLink. uses_tac. Qed.

Lemma with_meeting_link_uses (status : string) (booking : Populated.t) :
  uses is_calendar (with_meeting_link status booking).
Proof.
  unfold with_meeting_link.
  destruct (needs_meeting_link status (Populated.doc booking)); [|exact I].
  apply uses_bind; [apply createGoogleMeetLink_uses | intros ?; exact I].
Qed.

Lemma sendAppointmentEmail_uses (to_ name_ subject_ : string) (content : Text) :
  uses is_notification (sendAppointmentEmail to_ name_ subject_ content).
Proof. unfold sendAppointmentEmail. uses_tac. Qed.

Lemma push_chat_uses (doctor : Doctor.t) (patient : Patient.t) (m : Text) :
  uses is_notification (push_chat doctor patient m).
Proof. unfold push_chat. uses_tac. Qed.

Lemma notify_uses (status : string) (booking : Populated.t) (doctor : Doctor.t) :
  uses is_notification (notify status booking doctor).
Proof.
  unfold notify.
  repeat match goal with
         | |- uses _ (if ?c then _ else _) => destruct c
         end;
    repeat first
      [ exact I
      | apply sendAppointmentEmail_uses
      | apply push_chat_uses
      | apply uses_read_of
      | apply uses_bind; [|intros ?] ].
Qed.

Lemma reconcile_uses (currentStatus status : string) (booking : Populated.t) :
  uses is_reconciliation (reconcile currentStatus status booking).
Proof.
  unfold reconcile. destruct (Populated.doctor booking) as [doctor|]; [|exact I].
  apply uses_bind; [apply uses_lift|]. intros i.
  destruct (negb (i =? -1)%Z).
  - apply uses_bind; [apply uses_call; reflexivity|]. intros _.
    apply uses_bind; [|intros _; exact I].
    eapply uses_weaken; [|apply notify_uses].
    intros op; destruct op; simpl; congruence.
  - uses_tac.
Qed.

Lemma with_meeting_link_returns (env : Env) (status : string)
    (booking booking' : Populated.t) (w w' : World) :
  run env (with_meeting_link status booking) w = (Returned booking', w') ->
  same_but_link booking booking'.
Proof.
  unfold with_meeting_link.
  destruct (needs_meeting_link status (Populated.doc booking)).
  - rewrite run_bind.
    destruct (run env (createGoogleMeetLink booking) w) as [[link|e] w1]; simpl;
      [|discriminate].
    intros [= <- <-]. repeat split. exists link. reflexivity.
  - simpl. intros [= <- <-]. repeat split.
    exists (Booking.meetingLink (Populated.doc booking)).
    destruct (Populated.doc booking); reflexivity.
Qed.

End StatusUpdate.

Section StatusUpdateRun.

Context {RT : JsRuntime}.

Lemma post_bookings_id_body_calls (env : Env) (status : string) (id : ObjectId)
    (w : World) (b : Booking.t) :
  faults env (Booking_findById_populated id) = None ->
  findById Booking._id id (bookings w) = Some b ->
  calls env (post_bookings_id_body status id) w =
  Booking_findById_populated id :: Date_now ::
  (calls env (with_meeting_link status (updated env status w b)) w ++
   match run env (with_meeting_link status (updated env status w b)) w with
   | (Returned b2, w2) =>
       Booking_save (Populated.doc b2) ::
       match exec env (Booking_save (Populated.doc b2)) w2 with
       | (inr _, w3) => calls env (reconcile (Booking.status b) status b2) w3
       | (inl _, _) => []
       end
   | (Thrown _, _) => []
   end)%list.
Proof.
  intros Hfault Hfound. unfold post_bookings_id_body.
  rewrite calls_bind, calls_call, run_call, (exec_ok _ _ _ Hfault).
  simpl. rewrite Hfound. simpl.
  f_equal. f_equal.
  fold (updated env status w b).
  rewrite calls_bind. reflexivity.
Qed.

Lemma post_bookings_id_body_run (env : Env) (status : string) (id : ObjectId)
    (w : World) (b : Booking.t) :
  faults env (Booking_findById_populated id) = None ->
  findById Booking._id id (bookings w) = Some b ->
  run env (post_bookings_id_body status id) w =
  match run env (with_meeting_link status (updated env status w b)) w with
  | (Returned b2, w2) =>
      match exec env (Booking_save (Populated.doc b2)) w2 with
      | (inr _, w3) => run env (reconcile (Booking.status b) status b2) w3
      | (inl e, w3) => (Thrown e, w3)
      end
  | (Thrown e, w2) => (Thrown e, w2)
  end.
Proof.
  intros Hfault Hfound. unfold post_bookings_id_body.
  rewrite run_bind, run_call, (exec_ok _ _ _ Hfault).
  simpl. rewrite Hfound. simpl.
  fold (updated env status w b).
  rewrite run_bind.
  destruct (run env (with_meeting_link status (updated env status w b)) w)
    as [[b2|e] w2]; [|reflexivity].
  simpl.
  destruct (exec env (Booking_save (Populated.doc b2)) w2) as [[e|x] w3];
    reflexivity.
Qed.

End StatusUpdateRun.

Lemma findById_key {A : Type} (key : A -> ObjectId) (id : ObjectId) (l : list A) (x : A) :
  findById key id l = Some x -> key x = id.
Proof.
  unfold findById. intros H. apply find_some in H as [_ H].
  apply strict_eq_true in H. exact H.
Qed.

Lemma findById_upsert {A : Type} (key : A -> ObjectId) (x : A) (l : list A) :
  findById key (key x) (upsert (fun y => key y === key x) x l) = Some x.
Proof.
  unfold findById. induction l as [|y l IH]; simpl.
  - rewrite strict_eq_refl. reflexivity.
  - destruct (key y === key x) eqn:E; simpl.
    + rewrite strict_eq_refl. reflexivity.
    + rewrite E. exact IH.
Qed.

Lemma exec_Booking_save (env : Env) (b : Booking.t) (w w' : World) (x : unit) :
  exec env (Booking_save b) w = (inr x, w') ->
  faults env (Booking_save b) = None /\
  bookings w' = upsert (fun y => Booking._id y === Booking._id b) b (bookings w).
Proof.
  unfold exec. simpl. destruct (faults env (Booking_save b)); [discriminate|].
  intros [= _ <-]. split; reflexivity.
Qed.

Lemma exec_Doctor_save (env : Env) (d : Doctor.t) (w w' : World) (x : unit) :
  exec env (Doctor_save d) w = (inr x, w') ->
  faults env (Doctor_save d) = None /\
  doctors w' = upsert (fun y => Doctor._id y === Doctor._id d) d (doctors w).
Proof.
  unfold exec. simpl. destruct (faults env (Doctor_save d)); [discriminate|].
  intros [= _ <-]. split; reflexivity.
Qed.

Section StatusAssignment.

Context {RT : JsRuntime}.

Lemma needs_meeting_link_set_status (status v : string) (b : Booking.t) :
  needs_meeting_link status (Booking.set_status v b) = needs_meeting_link status b.
Proof. reflexivity. Qed.

(** The only booking the handler saves is the one it found, with the
    status it assigned and possibly a meeting link. *)
Lemma saved_booking (env : Env) (status : string) (id : ObjectId) (w : World)
    (b b' : Booking.t) :
  faults env (Booking_findById_populated id) = None ->
  findById Booking._id id (bookings w) = Some b ->
  In (Booking_save b') (calls env (post_bookings_id status id) w) ->
  exists link,
    b' = Booking.set_meetingLink link
           (Booking.set_status
              (assigned_status (moment_now (clock env)) b status) b).
Proof.
  intros Hfault Hfound Hin.
  unfold post_bookings_id, handle, ServerError in Hin.
  rewrite calls_guarded in Hin. apply in_app_or in Hin as [Hin|Hin].
  2:{ destruct (run env (post_bookings_id_body status id) w) as [[r|e] w'];
        simpl in Hin; intuition discriminate. }
  rewrite (post_bookings_id_body_calls _ _ _ _ _ Hfault Hfound) in Hin.
  destruct Hin as [Hin|[Hin|Hin]]; try discriminate.
  apply in_app_or in Hin as [Hin|Hin].
  { exfalso. revert Hin. eapply uses_not_in;
      [apply with_meeting_link_uses | reflexivity]. }
  destruct (run env (with_meeting_link status (updated env status w b)) w)
    as [[b2|e] w2] eqn:Hlink; [|destruct Hin].
  apply with_meeting_link_returns in Hlink as (_ & _ & link & Hdoc).
  destruct Hin as [Hin|Hin].
  - injection Hin as <-. exists link. exact Hdoc.
  - exfalso.
    destruct (exec env (Booking_save (Populated.doc b2)) w2) as [[e|x] w3];
      [destruct Hin|].
    revert Hin. eapply uses_not_in; [apply reconcile_uses | reflexivity].
Qed.

End StatusAssignment.

Lemma run_keeps {A : Type} (env : Env) (allowed : Op -> bool) (s : Store)
    (p : Prog A) (w : World) :
  uses allowed p ->
  (forall op, allowed op = true -> writes op s = false) ->
  same_on s w (run env p w).2.
Proof.
  intros Hp Hw. apply run_same_on. eapply uses_weaken; [|exact Hp].
  intros op Hop. rewrite (Hw op Hop). reflexivity.
Qed.

Section StatusAssignmentTheorem.

Context {RT : JsRuntime}.

(** C1.  For an existing booking the handler assigns ['completed'] when
    the current time is after the end of the appointment (the booking's
    date with the hour and minute of the part of [booking.time] after
    [' - ']), whatever status was requested, and the requested status
    otherwise: every booking it saves has that status, it saves the
    booking whenever no meeting link is to be created first, and whenever
    it does not answer 500 the stored booking has that status. *)
Theorem status_assigned_by_end_time (env : Env) (status : string)
    (id : ObjectId) (w : World) (b : Booking.t) :
  faults env (Booking_findById_populated id) = None ->
  findById Booking._id id (bookings w) = Some b ->
  let assigned :=
    if isAfter (moment_now (clock env)) (bookingEndDateTime b)
    then "completed" else status in
  (forall b', In (Booking_save b') (calls env (post_bookings_id status id) w) ->
     Booking.status b' = assigned /\ Booking._id b' = Booking._id b)
  /\ (needs_meeting_link status b = false ->
      In (Booking_save (Booking.set_status assigned b))
         (calls env (post_bookings_id status id) w))
  /\ (forall r w',
        run env (post_bookings_id status id) w = (Returned r, w') ->
        r <> Send 500 "Server Error" ->
        exists b', findById Booking._id id (bookings w') = Some b'
                   /\ Booking.status b' = assigned).
Proof.
  intros Hfault Hfound assigned.
  assert (Hassigned : assigned_status (moment_now (clock env)) b status = assigned)
    by reflexivity.
  split; [|split].
  - intros b' Hin.
    destruct (saved_booking env status id w b b' Hfault Hfound Hin) as [link ->].
    rewrite Hassigned. split; reflexivity.
  - intros Hneeds.
    unfold post_bookings_id, handle, ServerError. rewrite calls_guarded.
    apply in_or_app. left.
    rewrite (post_bookings_id_body_calls _ _ _ _ _ Hfault Hfound).
    right. right. apply in_or_app. right.
    unfold with_meeting_link, updated. simpl Populated.doc.
    rewrite needs_meeting_link_set_status, Hneeds. simpl.
    left. rewrite Hassigned. reflexivity.
  - intros r w' Hrun Hr.
    unfold post_bookings_id, handle, ServerError in Hrun.
    rewrite run_guarded in Hrun.
    destruct (run env (post_bookings_id_body status id) w) as [[r0|e] w0] eqn:Hbody.
    2:{ injection Hrun as <- _. congruence. }
    injection Hrun as -> ->.
    rewrite (post_bookings_id_body_run _ _ _ _ _ Hfault Hfound) in Hbody.
    pose proof (run_keeps env is_calendar SBookings
                  (with_meeting_link status (updated env status w b)) w
                  (with_meeting_link_uses _ _)) as Hkeep1.
    destruct (run env (with_meeting_link status (updated env status w b)) w)
      as [[b2|e] w2] eqn:Hlink; [|discriminate].
    simpl in Hkeep1.
    apply with_meeting_link_returns in Hlink as (_ & _ & link & Hdoc).
    destruct (exec env (Booking_save (Populated.doc b2)) w2) as [[e|x] w3] eqn:Hsave;
      [discriminate|].
    apply exec_Booking_save in Hsave as [_ Hsaved].
    pose proof (run_keeps env is_reconciliation SBookings
                  (reconcile (Booking.status b) status b2) w3
                  (reconcile_uses _ _ _)) as Hkeep2.
    rewrite Hbody in Hkeep2. simpl in Hkeep2.
    exists (Populated.doc b2).
    rewrite Hkeep2, Hsaved, Hkeep1 by (intros op; destruct op; simpl; congruence).
    split.
    + assert (Hid : id = Booking._id (Populated.doc b2)).
      { rewrite Hdoc. simpl. symmetry. exact (findById_key _ _ _ _ Hfound). }
      rewrite Hid at 1. apply findById_upsert.
    + rewrite Hdoc. reflexivity.
Qed.

End StatusAssignmentTheorem.

(** ** Linear search *)

Lemma findIndex_from_found {A : Type} (cb : A -> JsError + bool) (l : list A) (i r : Z) :
  findIndex_from cb l i = inr r -> r <> -1 -> 0 <= i ->
  exists n x, r = i + Z.of_nat n /\ l !! n = Some x /\ cb x = inr true
              /\ forall j y, (j < n)%nat -> l !! j = Some y -> cb y = inr false.
Proof.
  revert i. induction l as [|x l IH]; simpl; intros i H Hr Hi.
  - injection H as <-. congruence.
  - destruct (cb x) as [e|[|]] eqn:Hx; [discriminate| |].
    + injection H as <-. exists O, x. repeat split; auto with zarith.
      intros j y Hj. lia.
    + destruct (IH (i + 1) H Hr ltac:(lia)) as (n & y & -> & Hn & Hy & Hbefore).
      exists (S n), y. repeat split; auto with zarith.
      intros [|j] z Hj Hz; simpl in Hz.
      * injection Hz as <-. exact Hx.
      * apply (Hbefore j z); [lia | exact Hz].
Qed.


Lemma findIndex_from_none {A : Type} (cb : A -> JsError + bool) (l : list A) (i : Z) :
  0 <= i ->
  (findIndex_from cb l i = inr (-1) <-> Forall (fun x => cb x = inr false) l).
Proof.
  revert i. induction l as [|x l IH]; simpl; intros i Hi.
  - split; auto.
  - destruct (cb x) as [e|[|]] eqn:Hx.
    + split; [discriminate|]. intros H. inversion H; congruence.
    + split; [intros [=]; lia|]. intros H. inversion H; congruence.
    + rewrite (IH (i + 1)) by lia. split; intros H.
      * constructor; assumption.
      * inversion H; assumption.
Qed.

Lemma findIndex_found {A : Type} (cb : A -> JsError + bool) (l : list A) (r : Z) :
  findIndex cb l = inr r -> r <> -1 ->
  exists n x, r = Z.of_nat n /\ l !! n = Some x /\ cb x = inr true
              /\ forall j y, (j < n)%nat -> l !! j = Some y -> cb y = inr false.
Proof.
  intros H Hr. destruct (findIndex_from_found cb l 0 r H Hr ltac:(lia))
    as (n & x & -> & ?). exists n, x. auto.
Qed.

Lemma findIndex_none {A : Type} (cb : A -> JsError + bool) (l : list A) :
  findIndex cb l = inr (-1) <-> Forall (fun x => cb x = inr false) l.
Proof. apply findIndex_from_none. lia. Qed.

Lemma find_from_found {A : Type} (cb : A -> bool) (l : list A) (i n : nat) :
  find_from cb l i = Some n ->
  exists k x, n = (i + k)%nat /\ l !! k = Some x /\ cb x = true
              /\ forall j y, (j < k)%nat -> l !! j = Some y -> cb y = false.
Proof.
  revert i. induction l as [|x l IH]; simpl; intros i H; [discriminate|].
  destruct (cb x) eqn:Hx.
  - injection H as <-. exists O, x. repeat split; auto with arith. intros j y Hj; lia.
  - destruct (IH _ H) as (k & y & -> & Hk & Hy & Hbefore).
    exists (S k), y. repeat split; auto; try lia.
    intros [|j] z Hj Hz; simpl in Hz.
    + injection Hz as <-. exact Hx.
    + apply (Hbefore j z); [lia | exact Hz].
Qed.

Lemma find_from_none {A : Type} (cb : A -> bool) (l : list A) (i : nat) :
  find_from cb l i = None <-> Forall (fun x => cb x = false) l.
Proof.
  revert i. induction l as [|x l IH]; simpl; intros i.
  - split; auto.
  - destruct (cb x) eqn:Hx.
    + split; [discriminate|]. intros H. inversion H; congruence.
    + rewrite IH. split; intros H; [constructor; assumption | inversion H; assumption].
Qed.

(** The theorem at work: Bob's video call is accepted in the morning. *)
Lemma status_assigned_by_end_time_witness :
  faults Clinic.morning (Booking_findById_populated "b1") = None
  /\ findById Booking._id "b1" (bookings (Clinic.world "waiting" "Video call"))
     = Some (Clinic.booking "waiting" "Video call")
  /\ exists b',
       findById Booking._id "b1"
         (bookings (run Clinic.morning
                      (post_bookings_id (RT := UTC.runtime) "accepted" "b1")
                      (Clinic.world "waiting" "Video call")).2) = Some b'
       /\ Booking.status b' = "accepted".
Proof.
  split; [reflexivity|]. split; [reflexivity|].
  destruct (status_assigned_by_end_time (RT := UTC.runtime) Clinic.morning
              "accepted" "b1" (Clinic.world "waiting" "Video call")
              (Clinic.booking "waiting" "Video call") eq_refl eq_refl)
    as (_ & _ & H).
  apply (H (Redirect "/doctor/bookings")
           (run Clinic.morning (post_bookings_id (RT := UTC.runtime) "accepted" "b1")
              (Clinic.world "waiting" "Video call")).2).
  - vm_compute. reflexivity.
  - discriminate.
Defined.

Section Reconciliation.

Context {RT : JsRuntime}.

Lemma slot_of_booking_updated (link : option string) (v : string) (b : Booking.t) :
  slot_of_booking (Booking.set_meetingLink link (Booking.set_status v b))
  = slot_of_booking b.
Proof. reflexivity. Qed.

Lemma reconcile_calls (env : Env) (currentStatus status : string)
    (booking : Populated.t) (w : World) :
  calls env (reconcile currentStatus status booking) w =
  match Populated.doctor booking with
  | None => []
  | Some doctor =>
      match findIndex (slot_of_booking (Populated.doc booking))
              (Doctor.timeSlots doctor) with
      | inl _ => []
      | inr i =>
          if negb (i =? -1)%Z then
            let d' := set_slot_status (reconciled_status currentStatus status)
                        (Z.to_nat i) doctor in
            Doctor_save d' ::
            match exec env (Doctor_save d') w with
            | (inr _, w1) => calls env (notify status booking d') w1
            | (inl _, _) => []
            end
          else [console_error ["Time slot not found for the given date and time"]]
      end
  end.
Proof.
  unfold reconcile. destruct (Populated.doctor booking) as [doctor|]; [|reflexivity].
  destruct (findIndex _ _) as [e|i]; [reflexivity|]. simpl.
  destruct (negb (i =? -1)%Z); [|reflexivity].
  simpl. f_equal.
  destruct (exec env _ w) as [[e|x] w1]; [reflexivity|].
  rewrite calls_bind.
  destruct (run env (notify _ _ _) w1) as [[u|e] w2]; simpl; apply app_nil_r.
Qed.

Lemma reconcile_run (env : Env) (currentStatus status : string)
    (booking : Populated.t) (w : World) :
  run env (reconcile currentStatus status booking) w =
  match Populated.doctor booking with
  | None => (Returned (Send 404 "Doctor not found"), w)
  | Some doctor =>
      match findIndex (slot_of_booking (Populated.doc booking))
              (Doctor.timeSlots doctor) with
      | inl e => (Thrown e, w)
      | inr i =>
          if negb (i =? -1)%Z then
            let d' := set_slot_status (reconciled_status currentStatus status)
                        (Z.to_nat i) doctor in
            match exec env (Doctor_save d') w with
            | (inr _, w1) =>
                match run env (notify status booking d') w1 with
                | (Returned _, w2) => (Returned (Redirect "/doctor/bookings"), w2)
                | (Thrown e, w2) => (Thrown e, w2)
                end
            | (inl e, w1) => (Thrown e, w1)
            end
          else
            (Returned (Redirect "/doctor/bookings"),
             set_console
               (console w ++ [["Time slot not found for the given date and time"]]) w)
      end
  end.
Proof.
  unfold reconcile. destruct (Populated.doctor booking) as [doctor|]; [|reflexivity].
  destruct (findIndex _ _) as [e|i]; [reflexivity|]. simpl.
  destruct (negb (i =? -1)%Z); [|reflexivity].
  simpl.
  destruct (exec env _ w) as [[e|x] w1]; [reflexivity|].
  rewrite run_bind.
  destruct (run env (notify _ _ _) w1) as [[u|e] w2]; reflexivity.
Qed.

(** The only doctor document the handler saves is the booking's doctor
    with the status of the first matching slot replaced. *)
Lemma saved_doctor (env : Env) (status : string) (id : ObjectId) (w : World)
    (b : Booking.t) (d' : Doctor.t) :
  faults env (Booking_findById_populated id) = None ->
  findById Booking._id id (bookings w) = Some b ->
  In (Doctor_save d') (calls env (post_bookings_id status id) w) ->
  exists doctor i,
    findById Doctor._id (Booking.doctor b) (doctors w) = Some doctor
    /\ findIndex (slot_of_booking b) (Doctor.timeSlots doctor) = inr i
    /\ i <> -1
    /\ d' = set_slot_status (reconciled_status (Booking.status b) status)
              (Z.to_nat i) doctor.
Proof.
  intros Hfault Hfound Hin.
  unfold post_bookings_id, handle, ServerError in Hin.
  rewrite calls_guarded in Hin. apply in_app_or in Hin as [Hin|Hin].
  2:{ destruct (run env (post_bookings_id_body status id) w) as [[r|e] w'];
        simpl in Hin; intuition discriminate. }
  rewrite (post_bookings_id_body_calls _ _ _ _ _ Hfault Hfound) in Hin.
  destruct Hin as [Hin|[Hin|Hin]]; try discriminate.
  apply in_app_or in Hin as [Hin|Hin].
  { exfalso. revert Hin. eapply uses_not_in;
      [apply with_meeting_link_uses | reflexivity]. }
  destruct (run env (with_meeting_link status (updated env status w b)) w)
    as [[b2|e] w2] eqn:Hlink; [|destruct Hin].
  apply with_meeting_link_returns in Hlink as (Hdoctor & _ & link & Hdoc).
  destruct Hin as [Hin|Hin]; [discriminate|].
  destruct (exec env (Booking_save (Populated.doc b2)) w2) as [[e|x] w3];
    [destruct Hin|].
  rewrite reconcile_calls, Hdoctor, Hdoc in Hin.
  unfold updated in Hin. simpl in Hin.
  destruct (findById Doctor._id (Booking.doctor b) (doctors w)) as [doctor|];
    [|destruct Hin].
  rewrite slot_of_booking_updated in Hin.
  destruct (findIndex (slot_of_booking b) (Doctor.timeSlots doctor)) as [e|i] eqn:Hi;
    [destruct Hin|].
  destruct (i =? -1)%Z eqn:Hne; simpl in Hin.
  { destruct Hin as [Hin|[]]. discriminate. }
  apply Z.eqb_neq in Hne.
  destruct Hin as [Hin|Hin].
  - injection Hin as <-. exists doctor, i. auto.
  - exfalso.
    destruct (exec env (Doctor_save _) w3) as [[e|x'] w4]; [destruct Hin|].
    revert Hin. eapply uses_not_in; [apply notify_uses | reflexivity].
Qed.

End Reconciliation.

Lemma reconciled_status_simple (currentStatus status : string) :
  reconciled_status currentStatus status = simple_slot_rule status.
Proof.
  unfold reconciled_status, simple_slot_rule.
  destruct (currentStatus === "rejected"); simpl; [|reflexivity].
  destruct (status === "waiting") eqn:Hw; simpl.
  - apply strict_eq_true in Hw. subst. reflexivity.
  - destruct (status === "accepted") eqn:Ha; simpl; [|reflexivity].
    apply strict_eq_true in Ha. subst. reflexivity.
Qed.

Lemma set_slot_status_lookup (v : string) (n : nat) (doctor : Doctor.t) :
  Doctor.timeSlots (set_slot_status v n doctor) !! n
  = TimeSlot.set_status v <$> Doctor.timeSlots doctor !! n.
Proof. unfold set_slot_status. simpl. apply list_lookup_alter_eq. Qed.

Section ReconciliationTheorem.

Context {RT : JsRuntime}.

(** C2.  The three-branch conditional that picks the slot's status is
    the simple rule: ['free'] when the requested status is ['rejected'],
    ['booked'] for every other request, whatever the booking's previous
    status; so the first branch never gives another result.  Whenever a
    matching slot is found, the doctor document the handler saves has
    that slot set by the rule, and so has the stored document when the
    handler does not answer 500. *)
Theorem slot_reconciliation_is_simple_rule (env : Env) (status : string)
    (id : ObjectId) (w : World) (b : Booking.t) :
  faults env (Booking_findById_populated id) = None ->
  findById Booking._id id (bookings w) = Some b ->
  (forall currentStatus, reconciled_status currentStatus status = simple_slot_rule status)
  /\ (forall d', In (Doctor_save d') (calls env (post_bookings_id status id) w) ->
      exists doctor n slot,
        findById Doctor._id (Booking.doctor b) (doctors w) = Some doctor
        /\ findIndex (slot_of_booking b) (Doctor.timeSlots doctor) = inr (Z.of_nat n)
        /\ Doctor.timeSlots doctor !! n = Some slot
        /\ d' = set_slot_status (simple_slot_rule status) n doctor
        /\ Doctor.timeSlots d' !! n
           = Some (TimeSlot.set_status (simple_slot_rule status) slot))
  /\ (forall r w' doctor i,
        run env (post_bookings_id status id) w = (Returned r, w') ->
        r <> Send 500 "Server Error" ->
        findById Doctor._id (Booking.doctor b) (doctors w) = Some doctor ->
        findIndex (slot_of_booking b) (Doctor.timeSlots doctor) = inr i ->
        i <> -1 ->
        exists d' slot,
          findById Doctor._id (Doctor._id doctor) (doctors w') = Some d'
          /\ Doctor.timeSlots d' !! Z.to_nat i = Some slot
          /\ TimeSlot.status slot = simple_slot_rule status).
Proof.
  intros Hfault Hfound. split; [|split].
  - intros c. apply reconciled_status_simple.
  - intros d' Hin.
    destruct (saved_doctor env status id w b d' Hfault Hfound Hin)
      as (doctor & i & Hdoctor & Hi & Hne & ->).
    destruct (findIndex_found _ _ _ Hi Hne) as (n & slot & -> & Hn & _).
    exists doctor, n, slot. rewrite Nat2Z.id, reconciled_status_simple.
    repeat split; auto.
    rewrite set_slot_status_lookup, Hn. reflexivity.
  - intros r w' doctor i Hrun Hr Hdoctor Hi Hne.
    unfold post_bookings_id, handle, ServerError in Hrun.
    rewrite run_guarded in Hrun.
    destruct (run env (post_bookings_id_body status id) w) as [[r0|e] w0] eqn:Hbody.
    2:{ injection Hrun as <- _. congruence. }
    injection Hrun as -> ->.
    rewrite (post_bookings_id_body_run _ _ _ _ _ Hfault Hfound) in Hbody.
    pose proof (run_keeps env is_calendar SDoctors
                  (with_meeting_link status (updated env status w b)) w
                  (with_meeting_link_uses _ _)) as Hkeep1.
    destruct (run env (with_meeting_link status (updated env status w b)) w)
      as [[b2|e] w2] eqn:Hlink; [|discriminate].
    simpl in Hkeep1.
    apply with_meeting_link_returns in Hlink as (Hdoc2 & _ & link & Hdoc).
    pose proof (exec_same_on env (Booking_save (Populated.doc b2)) w2 SDoctors eq_refl)
      as Hkeep2.
    destruct (exec env (Booking_save (Populated.doc b2)) w2) as [[e|x] w3];
      [discriminate|].
    simpl in Hkeep2.
    rewrite reconcile_run, Hdoc2, Hdoc in Hbody.
    unfold updated in Hbody. simpl in Hbody.
    rewrite Hdoctor, slot_of_booking_updated, Hi in Hbody.
    apply Z.eqb_neq in Hne. rewrite Hne in Hbody. simpl in Hbody.
    destruct (exec env (Doctor_save _) w3) as [[e|x'] w4] eqn:Hsave; [discriminate|].
    apply exec_Doctor_save in Hsave as [_ Hsaved].
    match type of Hbody with
    | context [run env (notify ?s ?bk ?d) w4] =>
        pose proof (run_keeps env is_notification SDoctors (notify s bk d) w4
                      (notify_uses _ _ _)) as Hkeep3;
        destruct (run env (notify s bk d) w4) as [[u|e] w5]; [|discriminate]
    end.
    injection Hbody as _ <-. simpl in Hkeep3.
    apply Z.eqb_neq in Hne.
    destruct (findIndex_found _ _ _ Hi Hne) as (n & slot & -> & Hn & _).
    exists (set_slot_status (reconciled_status (Booking.status b) status)
              (Z.to_nat (Z.of_nat n)) doctor),
           (TimeSlot.set_status (simple_slot_rule status) slot).
    rewrite Hkeep3, Hsaved, Hkeep2, Hkeep1
      by (intros op; destruct op; simpl; congruence).
    split; [|split].
    + apply (findById_upsert Doctor._id
               (set_slot_status (reconciled_status (Booking.status b) status)
                  (Z.to_nat (Z.of_nat n)) doctor)).
    + rewrite set_slot_status_lookup, Nat2Z.id, Hn, reconciled_status_simple.
      reflexivity.
    + reflexivity.
Qed.

End ReconciliationTheorem.

(** The theorem at work: Bob's booking is rejected and the ten o'clock
    slot is free again. *)
Lemma slot_reconciliation_is_simple_rule_witness :
  faults Clinic.morning (Booking_findById_populated "b1") = None
  /\ findById Booking._id "b1" (bookings (Clinic.world "accepted" "In-person"))
     = Some (Clinic.booking "accepted" "In-person")
  /\ exists d' slot,
       findById Doctor._id "d1"
         (doctors (run Clinic.morning
                     (post_bookings_id (RT := UTC.runtime) "rejected" "b1")
                     (Clinic.world "accepted" "In-person")).2) = Some d'
       /\ Doctor.timeSlots d' !! 1%nat = Some slot
       /\ TimeSlot.status slot = "free".
Proof.
  split; [reflexivity|]. split; [reflexivity|].
  destruct (slot_reconciliation_is_simple_rule (RT := UTC.runtime) Clinic.morning
              "rejected" "b1" (Clinic.world "accepted" "In-person")
              (Clinic.booking "accepted" "In-person") eq_refl eq_refl)
    as (_ & _ & H).
  apply (H (Redirect "/doctor/bookings")
           (run Clinic.morning (post_bookings_id (RT := UTC.runtime) "rejected" "b1")
              (Clinic.world "accepted" "In-person")).2 Clinic.ada 1).
  - vm_compute. reflexivity.
  - discriminate.
  - reflexivity.
  - vm_compute. reflexivity.
  - discriminate.
Defined.

(** ** The life cycle *)

(** C3, as stated, fails: an accepted booking whose appointment has not
    ended is put back to ['waiting'] when that status is requested. *)
Lemma lifecycle_not_enforced :
  findById Booking._id "b1" (bookings (Clinic.world "accepted" "In-person"))
  = Some (Clinic.booking "accepted" "In-person")
  /\ In (Booking_save (Clinic.booking "waiting" "In-person"))
        (calls Clinic.morning (post_bookings_id (RT := UTC.runtime) "waiting" "b1")
           (Clinic.world "accepted" "In-person"))
  /\ findById Booking._id "b1"
       (bookings (run Clinic.morning
                    (post_bookings_id (RT := UTC.runtime) "waiting" "b1")
                    (Clinic.world "accepted" "In-person")).2)
     = Some (Clinic.booking "waiting" "In-person")
  /\ (run Clinic.morning (post_bookings_id (RT := UTC.runtime) "waiting" "b1")
        (Clinic.world "accepted" "In-person")).1
     = Returned (Redirect "/doctor/bookings")
  /\ lifecycle_allows "accepted" "waiting" = false.
Proof.
  vm_compute. repeat split; auto.
Qed.

Section Lifecycle.

Context {RT : JsRuntime}.

Lemma bookingEndDateTime_set_status (v : string) (b : Booking.t) :
  bookingEndDateTime (Booking.set_status v b) = bookingEndDateTime b.
Proof. reflexivity. Qed.

(** C3, amended.  The status the handler assigns is the requested status,
    or ['completed'] once the current time is after the end of the
    appointment; the booking's current status plays no part in it.  So a
    waiting booking asked to become accepted, rejected or completed moves
    only to one of these three, and every booking is completed once its
    end has passed; no other order is enforced. *)
Theorem status_is_requested_or_completed (env : Env) (status : string)
    (id : ObjectId) (w : World) (b : Booking.t) :
  faults env (Booking_findById_populated id) = None ->
  findById Booking._id id (bookings w) = Some b ->
  forall b', In (Booking_save b') (calls env (post_bookings_id status id) w) ->
    (Booking.status b' = status \/ Booking.status b' = "completed")
    /\ (isAfter (moment_now (clock env)) (bookingEndDateTime b) = true ->
        Booking.status b' = "completed")
    /\ (forall current,
          Booking.status b'
          = assigned_status (moment_now (clock env)) (Booking.set_status current b) status)
    /\ (status = "accepted" \/ status = "rejected" \/ status = "completed" ->
        lifecycle_allows "waiting" (Booking.status b') = true).
Proof.
  intros Hfault Hfound b' Hin.
  destruct (saved_booking env status id w b b' Hfault Hfound Hin) as [link ->].
  simpl. unfold assigned_status.
  repeat split.
  - destruct (isAfter _ _); auto.
  - intros ->. reflexivity.
  - destruct (isAfter _ _); intros [->| [->| ->]]; reflexivity.
Qed.

End Lifecycle.

(** The theorem at work: the day after the appointment a request to put
    the booking back to waiting completes it. *)
Lemma status_is_requested_or_completed_witness :
  faults Clinic.next_day (Booking_findById_populated "b1") = None
  /\ findById Booking._id "b1" (bookings (Clinic.world "accepted" "In-person"))
     = Some (Clinic.booking "accepted" "In-person")
  /\ In (Booking_save (Clinic.booking "completed" "In-person"))
        (calls Clinic.next_day (post_bookings_id (RT := UTC.runtime) "waiting" "b1")
           (Clinic.world "accepted" "In-person"))
  /\ Booking.status (Clinic.booking "completed" "In-person") = "completed".
Proof.
  assert (Hin : In (Booking_save (Clinic.booking "completed" "In-person"))
                  (calls Clinic.next_day
                     (post_bookings_id (RT := UTC.runtime) "waiting" "b1")
                     (Clinic.world "accepted" "In-person"))).
  { vm_compute. auto. }
  split; [reflexivity|]. split; [reflexivity|]. split; [exact Hin|].
  destruct (status_is_requested_or_completed (RT := UTC.runtime) Clinic.next_day
              "waiting" "b1" (Clinic.world "accepted" "In-person")
              (Clinic.booking "accepted" "In-person") eq_refl eq_refl _ Hin)
    as (_ & H & _).
  apply H. vm_compute. reflexivity.
Defined.

(** ** Locating the slot *)

(** A store is left as it was by a run none of whose calls writes it. *)
Lemma run_same_on_calls {A : Type} (env : Env) (s : Store) (p : Prog A) (w : World) :
  (forall op, In op (calls env p w) -> writes op s = false) ->
  same_on s w (run env p w).2.
Proof.
  revert w. induction p as [a|e|op k IHk h IHh]; simpl; intros w Hp.
  - apply same_on_refl.
  - apply same_on_refl.
  - pose proof (exec_same_on env op w s (Hp op (or_introl eq_refl))) as Hex.
    destruct (exec env op w) as [[e|x] w']; simpl in Hex;
      (eapply same_on_trans; [exact Hex|]); [apply IHh | apply IHk];
      intros op' Hin; apply Hp; right; exact Hin.
Qed.

Section SlotSearch.

Context {RT : JsRuntime}.

(** What the callback of [findIndex] accepts. *)
Lemma slot_of_booking_true (b : Booking.t) (slot : TimeSlot.t) :
  slot_of_booking b slot = inr true <->
  exists slotDate bookingDate,
    TimeSlot.date slot = Some slotDate
    /\ Booking.date b = Some bookingDate
    /\ toISOString slotDate = toISOString bookingDate
    /\ split " - " (Booking.time b) !! 0%nat = Some (TimeSlot.startTime slot).
Proof.
  unfold slot_of_booking. split.
  - destruct (TimeSlot.date slot) as [sd|]; [|discriminate].
    destruct (Booking.date b) as [bd|]; [|discriminate].
    intros [= H]. apply andb_true_iff in H as [H1 H2].
    apply strict_eq_true in H1.
    exists sd, bd. repeat split; auto.
    destruct (split " - " (Booking.time b) !! 0%nat) as [s|]; [|discriminate].
    simpl in H2. apply strict_eq_true in H2. congruence.
  - intros (sd & bd & -> & -> & Hiso & ->). simpl.
    rewrite Hiso, !strict_eq_refl. reflexivity.
Qed.

(** C4.  The slot acted on is found by linear search: it is the first
    element of [doctor.timeSlots], in index order, whose date has the ISO
    string of the booking's date and whose [startTime] is the part of
    [booking.time] before [' - ']; only that element is changed.  When no
    element matches, no doctor document is saved and the stored doctors
    are as they were. *)
Theorem slot_located_by_linear_search (env : Env) (status : string)
    (id : ObjectId) (w : World) (b : Booking.t) :
  faults env (Booking_findById_populated id) = None ->
  findById Booking._id id (bookings w) = Some b ->
  (forall d', In (Doctor_save d') (calls env (post_bookings_id status id) w) ->
     exists doctor n slot slotDate bookingDate,
       findById Doctor._id (Booking.doctor b) (doctors w) = Some doctor
       /\ Doctor.timeSlots doctor !! n = Some slot
       /\ TimeSlot.date slot = Some slotDate
       /\ Booking.date b = Some bookingDate
       /\ toISOString slotDate = toISOString bookingDate
       /\ split " - " (Booking.time b) !! 0%nat = Some (TimeSlot.startTime slot)
       /\ (forall j earlier, (j < n)%nat -> Doctor.timeSlots doctor !! j = Some earlier ->
             slot_of_booking b earlier = inr false)
       /\ Doctor.timeSlots d' !! n
          = Some (TimeSlot.set_status (reconciled_status (Booking.status b) status) slot)
       /\ (forall j, j <> n ->
             Doctor.timeSlots d' !! j = Doctor.timeSlots doctor !! j))
  /\ (forall doctor,
        findById Doctor._id (Booking.doctor b) (doctors w) = Some doctor ->
        Forall (fun slot => slot_of_booking b slot = inr false)
               (Doctor.timeSlots doctor) ->
        (forall d', ~ In (Doctor_save d') (calls env (post_bookings_id status id) w))
        /\ doctors (run env (post_bookings_id status id) w).2 = doctors w).
Proof.
  intros Hfault Hfound. split.
  - intros d' Hin.
    destruct (saved_doctor env status id w b d' Hfault Hfound Hin)
      as (doctor & i & Hdoctor & Hi & Hne & ->).
    destruct (findIndex_found _ _ _ Hi Hne) as (n & slot & -> & Hn & Hslot & Hbefore).
    apply slot_of_booking_true in Hslot as (sd & bd & Hsd & Hbd & Hiso & Hstart).
    exists doctor, n, slot, sd, bd. rewrite Nat2Z.id.
    repeat split; auto.
    + rewrite set_slot_status_lookup, Hn. reflexivity.
    + intros j Hj. unfold set_slot_status. simpl.
      apply list_lookup_alter_ne. congruence.
  - intros doctor Hdoctor Hnone.
    assert (Hno : forall d', ~ In (Doctor_save d') (calls env (post_bookings_id status id) w)).
    { intros d' Hin.
      destruct (saved_doctor env status id w b d' Hfault Hfound Hin)
        as (doctor' & i & Hdoctor' & Hi & Hne & _).
      rewrite Hdoctor in Hdoctor'. injection Hdoctor' as <-.
      apply findIndex_none in Hnone. congruence. }
    split; [exact Hno|].
    apply (run_same_on_calls env SDoctors).
    intros op Hin. destruct op; try reflexivity.
    exfalso. exact (Hno _ Hin).
Qed.

End SlotSearch.

(** The theorem at work: Bob's booking is for the second slot of Ada's
    day; accepting it sets that slot and leaves the first alone. *)
Lemma slot_located_by_linear_search_witness :
  faults Clinic.morning (Booking_findById_populated "b1") = None
  /\ findById Booking._id "b1" (bookings (Clinic.world "waiting" "In-person"))
     = Some (Clinic.booking "waiting" "In-person")
  /\ In (Doctor_save (set_slot_status "booked" 1 Clinic.ada))
        (calls Clinic.morning (post_bookings_id (RT := UTC.runtime) "accepted" "b1")
           (Clinic.world "waiting" "In-person"))
  /\ exists doctor n slot,
       findById Doctor._id "d1" (doctors (Clinic.world "waiting" "In-person"))
       = Some doctor
       /\ Doctor.timeSlots doctor !! n = Some slot
       /\ split " - " "10:00 - 10:30" !! 0%nat = Some (TimeSlot.startTime slot).
Proof.
  assert (Hin : In (Doctor_save (set_slot_status "booked" 1 Clinic.ada))
                  (calls Clinic.morning
                     (post_bookings_id (RT := UTC.runtime) "accepted" "b1")
                     (Clinic.world "waiting" "In-person"))).
  { vm_compute. auto 10. }
  split; [reflexivity|]. split; [reflexivity|]. split; [exact Hin|].
  destruct (slot_located_by_linear_search (RT := UTC.runtime) Clinic.morning
              "accepted" "b1" (Clinic.world "waiting" "In-person")
              (Clinic.booking "waiting" "In-person") eq_refl eq_refl) as [H _].
  destruct (H _ Hin) as (doctor & n & slot & sd & bd & H1 & H2 & _ & _ & _ & H6 & _).
  exists doctor, n, slot. auto.
Defined.

(** ** Mails, chat messages and the calendar *)

Section Notifications.

Context {RT : JsRuntime}.

Ltac explore H :=
  repeat first
    [ progress simpl in H
    | match type of H with
      | In _ [] => destruct H
      | In _ (_ :: _) => destruct H as [H|H]; [try discriminate|]
      | _ \/ _ => destruct H as [H|H]; [try discriminate|]
      | context [exec ?e ?o ?w] => destruct (exec e o w) as [[?|?] ?]
      | False => destruct H
      end ].

(** Whatever fails, a mail the handler sends fits the request. *)
Lemma notify_mail (env : Env) (status : string) (booking : Populated.t)
    (doctor : Doctor.t) (w : World) (m : Mail) :
  In (transporter_sendMail m) (calls env (notify status booking doctor) w) ->
  mail_fits status (Booking.consultationType (Populated.doc booking)) m.
Proof.
  unfold notify, mail_fits. intros H.
  destruct (status === "accepted") eqn:Ha; simpl in H.
  - apply strict_eq_true in Ha.
    destruct (Booking.consultationType (Populated.doc booking) === "Video call") eqn:Hv.
    + apply strict_eq_true in Hv.
      destruct (Populated.patient booking), (Booking.date (Populated.doc booking));
        explore H; injection H as <-; simpl; auto.
    + destruct (Booking.consultationType (Populated.doc booking) === "In-person") eqn:Hp;
        [|destruct H].
      apply strict_eq_true in Hp.
      destruct (Populated.patient booking), (Booking.date (Populated.doc booking)),
        (Booking.hospital (Populated.doc booking));
        explore H; injection H as <-; simpl; auto.
  - destruct (status === "rejected") eqn:Hr; simpl in H; [|destruct H].
    apply strict_eq_true in Hr.
    destruct (Populated.patient booking), (Booking.date (Populated.doc booking));
      explore H; injection H as <-; simpl; auto.
Qed.

Lemma notify_chat (env : Env) (status : string) (booking : Populated.t)
    (doctor : Doctor.t) (w : World) (d p : ObjectId) (m : ChatMessage) :
  In (Chat_findOneAndUpdate_push d p m) (calls env (notify status booking doctor) w) ->
  chat_fits status (Booking.consultationType (Populated.doc booking)) m.
Proof.
  unfold notify, chat_fits. intros H.
  destruct (status === "accepted") eqn:Ha; simpl in H.
  - apply strict_eq_true in Ha.
    destruct (Booking.consultationType (Populated.doc booking) === "Video call") eqn:Hv.
    + apply strict_eq_true in Hv.
      destruct (Populated.patient booking), (Booking.date (Populated.doc booking));
        explore H; injection H; intros; subst m; simpl; auto.
    + destruct (Booking.consultationType (Populated.doc booking) === "In-person") eqn:Hp;
        [|destruct H].
      apply strict_eq_true in Hp.
      destruct (Populated.patient booking), (Booking.date (Populated.doc booking)),
        (Booking.hospital (Populated.doc booking));
        explore H; injection H; intros; subst m; simpl; auto.
  - destruct (status === "rejected") eqn:Hr; simpl in H; [|destruct H].
    apply strict_eq_true in Hr.
    destruct (Populated.patient booking), (Booking.date (Populated.doc booking));
      explore H; injection H; intros; subst m; simpl; auto.
Qed.

(** With nothing failing and the patient, the date and (for a visit in
    person) the hospital at hand, the patient is written to exactly after
    the requests [notifies] lists, by mail and by chat. *)
Lemma notify_sends (env : Env) (status : string) (booking : Populated.t)
    (doctor : Doctor.t) (w : World) (patient : Patient.t) (date : Z) :
  (forall op, faults env op = None) ->
  Populated.patient booking = Some patient ->
  Booking.date (Populated.doc booking) = Some date ->
  (Booking.consultationType (Populated.doc booking) = "In-person" ->
   Booking.hospital (Populated.doc booking) <> None) ->
  let sent := notifies status (Booking.consultationType (Populated.doc booking)) in
  ((exists m, In (transporter_sendMail m) (calls env (notify status booking doctor) w))
   <-> sent = true)
  /\ ((exists d p m, In (Chat_findOneAndUpdate_push d p m)
                       (calls env (notify status booking doctor) w))
      <-> sent = true)
  /\ exists w', run env (notify status booking doctor) w = (Returned tt, w').
Proof.
  intros Hnf Hp Hd Hh sent. subst sent. unfold notify, notifies.
  destruct (status === "accepted") eqn:Ha; simpl.
  - apply strict_eq_true in Ha. subst status.
    change ("accepted" === "rejected") with false. simpl.
    destruct (Booking.consultationType (Populated.doc booking) === "Video call") eqn:Hv;
      simpl.
    + rewrite Hp, Hd. simpl. repeat (rewrite exec_ok by apply Hnf; simpl).
      repeat split; eauto 10.
    + destruct (Booking.consultationType (Populated.doc booking) === "In-person") eqn:Hi;
        simpl.
      * apply strict_eq_true in Hi.
        destruct (Booking.hospital (Populated.doc booking)) as [hospital|];
          [|destruct (Hh Hi eq_refl)].
        rewrite Hp, Hd. simpl. repeat (rewrite exec_ok by apply Hnf; simpl).
        repeat split; eauto 10.
      * repeat split; eauto; try discriminate; intros; firstorder.
  - destruct (status === "rejected") eqn:Hr; simpl.
    + rewrite Hp, Hd. simpl. repeat (rewrite exec_ok by apply Hnf; simpl).
      repeat split; eauto 10.
    + repeat split; eauto; try discriminate; intros; firstorder.
Qed.

End Notifications.

Section NotificationTheorem.

Context {RT : JsRuntime}.

Lemma with_meeting_link_ok (env : Env) (status : string) (booking : Populated.t)
    (w : World) (doctor : Doctor.t) (patient : Patient.t) (date : Z) :
  (forall op, faults env op = None) ->
  Populated.doctor booking = Some doctor ->
  Populated.patient booking = Some patient ->
  Booking.date (Populated.doc booking) = Some date ->
  (exists booking' w',
     run env (with_meeting_link status booking) w = (Returned booking', w'))
  /\ ((exists ev, In (calendar_events_insert ev)
                    (calls env (with_meeting_link status booking) w))
      <-> needs_meeting_link status (Populated.doc booking) = true).
Proof.
  intros Hnf Hd Hp Hdate. unfold with_meeting_link.
  destruct (needs_meeting_link status (Populated.doc booking)).
  - unfold createGoogleMeetLink. rewrite Hd, Hp, Hdate. simpl.
    repeat (rewrite exec_ok by apply Hnf; simpl).
    split; [eauto|]. split; eauto.
  - simpl. split; [eauto|]. split; [intros [ev []] | discriminate].
Qed.

Lemma mail_or_chat_elsewhere (op : Op) :
  is_mail op || is_chat op = true ->
  is_calendar op = false
  /\ (forall args, op <> console_error args)
  /\ (forall d, op <> Doctor_save d) /\ (forall b, op <> Booking_save b)
  /\ op <> Date_now /\ (forall id, op <> Booking_findById_populated id).
Proof. destruct op; simpl; intros H; try discriminate; repeat split; intros; discriminate. Qed.

(** Where the mails and chat messages of a run come from: the slot was
    found, and [notify] issued them. *)
Lemma notifications_come_from_notify (env : Env) (status : string) (id : ObjectId)
    (w : World) (b : Booking.t) (doctor : Doctor.t) (patient : Patient.t) (date : Z) :
  (forall op, faults env op = None) ->
  findById Booking._id id (bookings w) = Some b ->
  findById Doctor._id (Booking.doctor b) (doctors w) = Some doctor ->
  findById Patient._id (Booking.patient b) (patients w) = Some patient ->
  Booking.date b = Some date ->
  exists booking' doctor' w',
    same_but_link (updated env status w b) booking'
    /\ forall op, is_mail op || is_chat op = true ->
         (In op (calls env (post_bookings_id status id) w) <->
          (exists i, findIndex (slot_of_booking b) (Doctor.timeSlots doctor) = inr i
                     /\ i <> -1)
          /\ In op (calls env (notify status booking' doctor') w')).
Proof.
  intros Hnf Hb Hd Hp Hdate.
  destruct (with_meeting_link_ok env status (updated env status w b) w doctor patient date
              Hnf Hd Hp Hdate) as [(b2 & w2 & Hrun) _].
  pose proof (with_meeting_link_returns _ _ _ _ _ _ Hrun) as Hsame.
  destruct Hsame as (Hdoc2 & Hpat2 & link & Hdoc).
  assert (Hshape : forall op, is_mail op || is_chat op = true ->
            (In op (calls env (post_bookings_id status id) w) <->
             In op (calls env (reconcile (Booking.status b) status b2)
                      (perform env (Booking_save (Populated.doc b2)) w2).2))).
  { intros op Hop.
    destruct (mail_or_chat_elsewhere op Hop) as (Hcal & Hlog & Hds & Hbs & Hnow & Hfind).
    unfold post_bookings_id, handle, ServerError. rewrite calls_guarded.
    rewrite (post_bookings_id_body_calls _ _ _ _ _ (Hnf _) Hb), Hrun.
    rewrite (exec_ok _ _ _ (Hnf _)). cbv beta iota.
    split.
    - intros Hin. apply in_app_or in Hin as [Hin|Hin].
      + destruct Hin as [Hin|Hin]; [congruence|].
        destruct Hin as [Hin|Hin]; [congruence|].
        apply in_app_or in Hin as [Hin|Hin].
        * exfalso. revert Hin. eapply uses_not_in;
            [apply with_meeting_link_uses | exact Hcal].
        * destruct Hin as [Hin|Hin]; [congruence | exact Hin].
      + destruct (run env (post_bookings_id_body status id) w) as [[r|e] w'];
          [destruct Hin|]. destruct Hin as [Hin|[]]. symmetry in Hin.
        destruct (Hlog _ Hin).
    - intros Hin. apply in_or_app. left. right. right. apply in_or_app. right.
      right. exact Hin. }
  remember (calls env (post_bookings_id status id) w) as cs eqn:Hcs. clear Hcs.
  rewrite reconcile_calls in Hshape.
  rewrite Hdoc2, Hdoc in Hshape. unfold updated in Hshape. simpl in Hshape.
  rewrite Hd, slot_of_booking_updated in Hshape.
  fold (updated env status w b) in Hshape.
  destruct (findIndex (slot_of_booking b) (Doctor.timeSlots doctor)) as [e|i] eqn:Hi.
  { exists b2, doctor, w. split; [repeat split; eauto|].
    intros op Hop. rewrite (Hshape op Hop). split; [intros []|].
    intros [(i & Hi' & _) _]. discriminate. }
  destruct (i =? -1)%Z eqn:Hne; simpl in Hshape.
  { apply Z.eqb_eq in Hne. exists b2, doctor, w. split; [repeat split; eauto|].
    intros op Hop. rewrite (Hshape op Hop).
    destruct (mail_or_chat_elsewhere op Hop) as (_ & Hlog & _).
    split.
    - intros [Hin|[]]. symmetry in Hin. destruct (Hlog _ Hin).
    - intros [(i' & Hi' & Hne') _]. congruence. }
  apply Z.eqb_neq in Hne.
  rewrite (exec_ok _ _ _ (Hnf _)) in Hshape. simpl in Hshape.
  eexists b2, _, _. split; [repeat split; eauto|].
  intros op Hop. rewrite (Hshape op Hop).
  destruct (mail_or_chat_elsewhere op Hop) as (_ & _ & Hds & _).
  split.
  - intros [Hin|Hin]; [symmetry in Hin; destruct (Hds _ Hin)|].
    split; [eauto | exact Hin].
  - intros [_ Hin]. right. exact Hin.
Qed.

Lemma needs_meeting_link_true (status : string) (b : Booking.t) :
  needs_meeting_link status b = true <->
  status = "accepted" /\ truthy (Booking.meetingLink b) = false
  /\ Booking.consultationType b = "Video call".
Proof.
  unfold needs_meeting_link.
  rewrite !andb_true_iff, negb_true_iff, !strict_eq_true. tauto.
Qed.

(** When the calendar is called. *)
Lemma calendar_event_created (env : Env) (status : string) (id : ObjectId)
    (w : World) (b : Booking.t) (doctor : Doctor.t) (patient : Patient.t) (date : Z) :
  (forall op, faults env op = None) ->
  findById Booking._id id (bookings w) = Some b ->
  findById Doctor._id (Booking.doctor b) (doctors w) = Some doctor ->
  findById Patient._id (Booking.patient b) (patients w) = Some patient ->
  Booking.date b = Some date ->
  (exists ev, In (calendar_events_insert ev) (calls env (post_bookings_id status id) w))
  <-> needs_meeting_link status b = true.
Proof.
  intros Hnf Hb Hd Hp Hdate.
  destruct (with_meeting_link_ok env status (updated env status w b) w doctor patient date
              Hnf Hd Hp Hdate) as [(b2 & w2 & Hrun) Hcal].
  change (needs_meeting_link status (Populated.doc (updated env status w b)))
    with (needs_meeting_link status b) in Hcal.
  rewrite <- Hcal.
  unfold post_bookings_id, handle, ServerError.
  split; intros [ev Hin]; exists ev.
  - rewrite calls_guarded in Hin.
    rewrite (post_bookings_id_body_calls _ _ _ _ _ (Hnf _) Hb), Hrun in Hin.
    apply in_app_or in Hin as [Hin|Hin].
    + destruct Hin as [Hin|Hin]; [discriminate|].
      destruct Hin as [Hin|Hin]; [discriminate|].
      apply in_app_or in Hin as [Hin|Hin]; [exact Hin|].
      destruct Hin as [Hin|Hin]; [discriminate|]. exfalso.
      destruct (exec env (Booking_save (Populated.doc b2)) w2) as [[e|x] w3];
        [destruct Hin|].
      revert Hin. eapply uses_not_in; [apply reconcile_uses | reflexivity].
    + destruct (run env (post_bookings_id_body status id) w) as [[r|e] w'];
        [destruct Hin|]. destruct Hin as [Hin|[]]. discriminate.
  - rewrite calls_guarded.
    rewrite (post_bookings_id_body_calls _ _ _ _ _ (Hnf _) Hb).
    apply in_or_app. left. right. right. apply in_or_app. left. exact Hin.
Qed.

(** C5, amended.  When no call fails and the booking's doctor, patient,
    date and (for a visit in person) hospital are there: a mail is sent
    and a chat message appended exactly when the search finds the slot
    and the request is a rejection or the acceptance of a video call or
    of a visit in person; the template of every mail and message is the
    one of the request and of the kind of consultation; the calendar
    event is created exactly when the request is ['accepted'], the
    booking has no meeting link and it is a video call, whether or not a
    slot matches. *)
Theorem notifications_and_calendar_event (env : Env) (status : string)
    (id : ObjectId) (w : World) (b : Booking.t) (doctor : Doctor.t)
    (patient : Patient.t) (date : Z) :
  (forall op, faults env op = None) ->
  findById Booking._id id (bookings w) = Some b ->
  findById Doctor._id (Booking.doctor b) (doctors w) = Some doctor ->
  findById Patient._id (Booking.patient b) (patients w) = Some patient ->
  Booking.date b = Some date ->
  (Booking.consultationType b = "In-person" -> Booking.hospital b <> None) ->
  ((exists m, In (transporter_sendMail m) (calls env (post_bookings_id status id) w))
   <-> (exists i, findIndex (slot_of_booking b) (Doctor.timeSlots doctor) = inr i
                  /\ i <> -1)
       /\ notifies status (Booking.consultationType b) = true)
  /\ ((exists d p m, In (Chat_findOneAndUpdate_push d p m)
                       (calls env (post_bookings_id status id) w))
      <-> (exists i, findIndex (slot_of_booking b) (Doctor.timeSlots doctor) = inr i
                     /\ i <> -1)
          /\ notifies status (Booking.consultationType b) = true)
  /\ (forall m, In (transporter_sendMail m) (calls env (post_bookings_id status id) w) ->
        mail_fits status (Booking.consultationType b) m)
  /\ (forall d p m, In (Chat_findOneAndUpdate_push d p m)
                      (calls env (post_bookings_id status id) w) ->
        chat_fits status (Booking.consultationType b) m)
  /\ ((exists ev, In (calendar_events_insert ev)
                    (calls env (post_bookings_id status id) w))
      <-> status = "accepted" /\ truthy (Booking.meetingLink b) = false
          /\ Booking.consultationType b = "Video call").
Proof.
  intros Hnf Hb Hd Hp Hdate Hhospital.
  destruct (notifications_come_from_notify env status id w b doctor patient date
              Hnf Hb Hd Hp Hdate)
    as (b2 & d2 & w2 & (_ & Hpat2 & link & Hdoc) & Hfrom).
  assert (Hct : Booking.consultationType (Populated.doc b2) = Booking.consultationType b)
    by (rewrite Hdoc; reflexivity).
  destruct (notify_sends env status b2 d2 w2 patient date Hnf) as (Hmail & Hchat & _).
  { rewrite Hpat2. exact Hp. }
  { rewrite Hdoc. exact Hdate. }
  { rewrite Hdoc. exact Hhospital. }
  rewrite Hct in Hmail, Hchat.
  split; [|split; [|split; [|split]]].
  - rewrite <- Hmail. split.
    + intros [m Hin]. apply Hfrom in Hin as [Hfound Hin]; [|reflexivity]. eauto.
    + intros [Hfound [m Hin]]. exists m. apply Hfrom; [reflexivity | auto].
  - rewrite <- Hchat. split.
    + intros (d & p & m & Hin). apply Hfrom in Hin as [Hfound Hin]; [|reflexivity].
      eauto 6.
    + intros [Hfound (d & p & m & Hin)]. exists d, p, m.
      apply Hfrom; [reflexivity | auto].
  - intros m Hin. apply Hfrom in Hin as [_ Hin]; [|reflexivity].
    rewrite <- Hct. eapply notify_mail. exact Hin.
  - intros d p m Hin. apply Hfrom in Hin as [_ Hin]; [|reflexivity].
    rewrite <- Hct. eapply notify_chat. exact Hin.
  - rewrite <- needs_meeting_link_true.
    eapply calendar_event_created; eauto.
Qed.

End NotificationTheorem.

(** C5, as stated, fails: a booking for a consultation by phone is
    accepted, its slot is found and updated, nothing fails, and neither a
    mail nor a chat message is produced. *)
Lemma accepted_without_notification :
  findIndex (slot_of_booking (RT := UTC.runtime) (Clinic.booking "waiting" "Phone call"))
    (Doctor.timeSlots Clinic.ada) = inr 1
  /\ run Clinic.morning (post_bookings_id (RT := UTC.runtime) "accepted" "b1")
       (Clinic.world "waiting" "Phone call")
     = (Returned (Redirect "/doctor/bookings"),
        mkWorld [Clinic.booking "accepted" "Phone call"]
          [set_slot_status "booked" 1 Clinic.ada] [Clinic.bob; Clinic.carol]
          [] [] [] [])
  /\ calls Clinic.morning (post_bookings_id (RT := UTC.runtime) "accepted" "b1")
       (Clinic.world "waiting" "Phone call")
     = [Booking_findById_populated "b1"; Date_now;
        Booking_save (Clinic.booking "accepted" "Phone call");
        Doctor_save (set_slot_status "booked" 1 Clinic.ada)].
Proof. vm_compute. auto. Qed.

(** The theorem at work: Bob's video call is accepted; two mails go out,
    a chat message is appended and the calendar event is created. *)
Lemma notifications_and_calendar_event_witness :
  (forall op, faults Clinic.morning op = None)
  /\ findById Booking._id "b1" (bookings (Clinic.world "waiting" "Video call"))
     = Some (Clinic.booking "waiting" "Video call")
  /\ findById Doctor._id "d1" (doctors (Clinic.world "waiting" "Video call"))
     = Some Clinic.ada
  /\ findById Patient._id "p1" (patients (Clinic.world "waiting" "Video call"))
     = Some Clinic.bob
  /\ (exists m, In (transporter_sendMail m)
                  (calls Clinic.morning
                     (post_bookings_id (RT := UTC.runtime) "accepted" "b1")
                     (Clinic.world "waiting" "Video call")))
  /\ (exists ev, In (calendar_events_insert ev)
                   (calls Clinic.morning
                      (post_bookings_id (RT := UTC.runtime) "accepted" "b1")
                      (Clinic.world "waiting" "Video call"))).
Proof.
  split; [reflexivity|]. split; [reflexivity|]. split; [reflexivity|].
  split; [reflexivity|].
  destruct (notifications_and_calendar_event (RT := UTC.runtime) Clinic.morning
              "accepted" "b1" (Clinic.world "waiting" "Video call")
              (Clinic.booking "waiting" "Video call") Clinic.ada Clinic.bob Clinic.july1
              (fun _ => eq_refl) eq_refl eq_refl eq_refl eq_refl)
    as (Hmail & _ & _ & _ & Hcal).
  { intros H. discriminate H. }
  split.
  - apply Hmail. split; [exists 1; split; [reflexivity | discriminate] | reflexivity].
  - apply Hcal. repeat split.
Defined.

(** ** Exceptions and the routes *)

(** C6, as stated, fails: [GET /subscribe] of the doctor router has no
    [try]; when rendering the form throws, the exception leaves the
    handler, nothing is logged and no response is made. *)
Lemma subscribe_lets_exception_escape :
  In (mkRoute GET "/subscribe" NoTry) doctor_routes
  /\ run Clinic.render_fails get_subscribe Clinic.fresh
     = (Thrown (mkError "Failed to lookup view"), Clinic.fresh)
  /\ calls Clinic.render_fails get_subscribe Clinic.fresh
     = [res_render "subscriptionForm"].
Proof. vm_compute. auto 20. Qed.

Lemma guarded_routes_generic (r : Route) (l : Logged) (answer : Response) :
  In r (doctor_routes ++ patient_routes) ->
  guard r = TryCatch l answer ->
  generic_500 answer.
Proof.
  unfold doctor_routes, patient_routes, generic_500, ServerError. simpl.
  intros Hin Hg.
  repeat (destruct Hin as [ <- | Hin ];
          [simpl in Hg; first [discriminate | injection Hg as <- <-; auto]|]).
  destruct Hin.
Qed.

Lemma unguarded_routes (r : Route) :
  In r (doctor_routes ++ patient_routes) ->
  guard r = NoTry ->
  r = mkRoute GET "/subscribe" NoTry
  \/ r = mkRoute GET "/subscription-failure" NoTry
  \/ r = mkRoute GET "/blog" NoTry.
Proof.
  unfold doctor_routes, patient_routes, ServerError. simpl.
  intros Hin Hg.
  repeat (destruct Hin as [ <- | Hin ];
          [simpl in Hg; first [discriminate | auto]|]).
  destruct Hin.
Qed.

Lemma log_args_message (l : Logged) (e : JsError) : In (message e) (log_args l e).
Proof. destruct l; simpl; auto. Qed.

Section Routes.

Context {RT : JsRuntime}.

(** C6, amended.  For every route of the patient router, and every route
    of the doctor router but [GET /subscribe], [GET /subscription-failure]
    and [GET /blog], which have no [try]: whatever the body of the route
    does, an exception it throws is caught in the handler, its message is
    written with [console.error] and the answer is a 500 with a fixed
    text; no exception leaves the handler, and a body that does not throw
    answers as it did.  The status update and the booking route are two
    of these handlers. *)
Theorem guarded_routes_answer_500 (r : Route) (l : Logged) (answer : Response)
    (env : Env) (body : Prog Response) (w : World) :
  In r (doctor_routes ++ patient_routes) ->
  guard r = TryCatch l answer ->
  generic_500 answer
  /\ (forall e w', run env body w = (Thrown e, w') ->
        run env (handle (guard r) body) w
        = (Returned answer, set_console (console w' ++ [log_args l e]) w')
        /\ In (message e) (log_args l e)
        /\ In (console_error (log_args l e)) (calls env (handle (guard r) body) w))
  /\ (forall x w', run env body w = (Returned x, w') ->
        run env (handle (guard r) body) w = (Returned x, w'))
  /\ (forall e w', run env (handle (guard r) body) w <> (Thrown e, w'))
  /\ (forall r', In r' patient_routes -> guard r' <> NoTry)
  /\ (forall r', In r' (doctor_routes ++ patient_routes) -> guard r' = NoTry ->
        method r' = GET
        /\ In (path r') ["/subscribe"; "/subscription-failure"; "/blog"])
  /\ (forall status id,
        post_bookings_id status id
        = handle (TryCatch LogMessage (Send 500 "Server Error"))
            (post_bookings_id_body status id))
  /\ In (mkRoute POST "/bookings/:id" (TryCatch LogMessage (Send 500 "Server Error")))
        doctor_routes
  /\ In (mkRoute POST "/book" (TryCatch LogMessage (Send 500 "Server Error")))
        patient_routes.
Proof.
  intros Hin Hg. rewrite Hg. simpl handle.
  split; [eapply guarded_routes_generic; eauto|].
  split; [|split; [|split; [|split; [|split; [|split; [|split]]]]]].
  - intros e w' Hrun. rewrite run_guarded, calls_guarded, Hrun.
    split; [reflexivity|]. split; [apply log_args_message|].
    apply in_or_app. right. left. reflexivity.
  - intros x w' Hrun. rewrite run_guarded, Hrun. reflexivity.
  - intros e w'. rewrite run_guarded.
    destruct (run env body w) as [[x|e0] w0]; discriminate.
  - intros r' Hin' Hg'.
    destruct (unguarded_routes r' (in_or_app _ _ _ (or_intror Hin')) Hg')
      as [ -> | [ -> | -> ] ]; vm_compute in Hin'; intuition discriminate.
  - intros r' Hin' Hg'.
    destruct (unguarded_routes r' Hin' Hg') as [ -> | [ -> | -> ] ]; simpl; auto.
  - reflexivity.
  - vm_compute. auto 20.
  - vm_compute. auto 20.
Qed.

End Routes.

(** The theorem at work: the calendar refuses the event while Bob's
    video call is accepted; the handler logs and answers 500. *)
Lemma guarded_routes_answer_500_witness :
  In (mkRoute POST "/bookings/:id" ServerError) (doctor_routes ++ patient_routes)
  /\ guard (mkRoute POST "/bookings/:id" ServerError)
     = TryCatch LogMessage (Send 500 "Server Error")
  /\ run Clinic.calendar_down (post_bookings_id (RT := UTC.runtime) "accepted" "b1")
       (Clinic.world "waiting" "Video call")
     = (Returned (Send 500 "Server Error"),
        set_console
          [["Error creating Google Meet link:"; "quota exceeded"];
           ["Unable to create Google Meet link"]]
          (Clinic.world "waiting" "Video call")).
Proof.
  assert (Hin : In (mkRoute POST "/bookings/:id" ServerError)
                  (doctor_routes ++ patient_routes)) by (vm_compute; auto 20).
  split; [exact Hin|]. split; [reflexivity|].
  destruct (guarded_routes_answer_500 (RT := UTC.runtime)
              (mkRoute POST "/bookings/:id" ServerError)
              LogMessage (Send 500 "Server Error") Clinic.calendar_down
              (post_bookings_id_body (RT := UTC.runtime) "accepted" "b1")
              (Clinic.world "waiting" "Video call") Hin eq_refl)
    as (_ & H & _).
  destruct (H (mkError "Unable to create Google Meet link")
              (set_console [["Error creating Google Meet link:"; "quota exceeded"]]
                 (Clinic.world "waiting" "Video call"))) as [Hrun _].
  - vm_compute. reflexivity.
  - exact Hrun.
Defined.

(** ** Booking a slot *)

Section Book.

Context {RT : JsRuntime}.

(** The body of the booking route, call by call. *)
Lemma post_book_run (env : Env) (_id patientId doctorId date time ct : string)
    (w : World) :
  let b := new_booking _id patientId doctorId date time ct in
  run env (post_book _id patientId doctorId date time ct) w =
  match exec env (Booking_save b) w with
  | (inl e, w1) => (Returned (Send 500 "Server Error"),
                    set_console (console w1 ++ [[message e]]) w1)
  | (inr _, w1) =>
      match exec env (Doctor_findById doctorId) w1 with
      | (inl e, w2) => (Returned (Send 500 "Server Error"),
                        set_console (console w2 ++ [[message e]]) w2)
      | (inr None, w2) => (Returned (Send 404 "Doctor not found"), w2)
      | (inr (Some doctor), w2) =>
          match find_position (slot_of_request date time) (Doctor.timeSlots doctor) with
          | Some n =>
              match exec env (Doctor_save (set_slot_status "booked" n doctor)) w2 with
              | (inl e, w3) => (Returned (Send 500 "Server Error"),
                                set_console (console w3 ++ [[message e]]) w3)
              | (inr _, w3) => (Returned (Redirect "/patient/bookings"), w3)
              end
          | None => (Returned (Redirect "/patient/bookings"), w2)
          end
      end
  end.
Proof.
  intros b. unfold post_book, handle, ServerError. rewrite run_guarded.
  fold b. simpl.
  destruct (exec env (Booking_save b) w) as [[e|x] w1]; [reflexivity|].
  destruct (exec env (Doctor_findById doctorId) w1) as [[e|[doctor|]] w2];
    try reflexivity.
  simpl. destruct (find_position _ _) as [n|]; [|reflexivity].
  simpl. destruct (exec env (Doctor_save _) w2) as [[e|x'] w3]; reflexivity.
Qed.

Lemma post_book_calls (env : Env) (_id patientId doctorId date time ct : string)
    (w : World) :
  let b := new_booking _id patientId doctorId date time ct in
  calls env (post_book _id patientId doctorId date time ct) w =
  Booking_save b ::
  match exec env (Booking_save b) w with
  | (inl e, w1) => [console_error [message e]]
  | (inr _, w1) =>
      Doctor_findById doctorId ::
      match exec env (Doctor_findById doctorId) w1 with
      | (inl e, w2) => [console_error [message e]]
      | (inr None, w2) => []
      | (inr (Some doctor), w2) =>
          match find_position (slot_of_request date time) (Doctor.timeSlots doctor) with
          | Some n =>
              Doctor_save (set_slot_status "booked" n doctor) ::
              match exec env (Doctor_save (set_slot_status "booked" n doctor)) w2 with
              | (inl e, w3) => [console_error [message e]]
              | (inr _, w3) => []
              end
          | None => []
          end
      end
  end.
Proof.
  intros b. unfold post_book, handle, ServerError. rewrite calls_guarded.
  fold b. simpl.
  destruct (exec env (Booking_save b) w) as [[e|x] w1]; [reflexivity|].
  simpl. f_equal. f_equal.
  destruct (exec env (Doctor_findById doctorId) w1) as [[e|[doctor|]] w2];
    try reflexivity.
  simpl. destruct (find_position _ _) as [n|]; [|reflexivity].
  simpl. destruct (exec env (Doctor_save _) w2) as [[e|x'] w3]; reflexivity.
Qed.

(** C8.  The booking route saves a new booking with status ['waiting']
    before it looks at the doctor or at any slot, for every patient,
    doctor identifier, date and time; once the database has accepted
    that write the booking stays stored however the rest goes (no doctor,
    a failed lookup, no matching slot, a failed doctor save).  When the
    doctor is found and a slot has the requested date and start time,
    the first such slot is set to ['booked'] whatever its status was. *)
Theorem booking_saved_without_availability_check (env : Env)
    (_id patientId doctorId date time ct : string) (w : World) :
  let b := new_booking _id patientId doctorId date time ct in
  let request := post_book _id patientId doctorId date time ct in
  Booking.status b = "waiting"
  /\ (exists rest, calls env request w = Booking_save b :: rest)
  /\ (faults env (Booking_save b) = None ->
      bookings (run env request w).2
      = upsert (fun x => Booking._id x === _id) b (bookings w)
      /\ findById Booking._id _id (bookings (run env request w).2) = Some b)
  /\ (forall doctor n,
        faults env (Booking_save b) = None ->
        faults env (Doctor_findById doctorId) = None ->
        findById Doctor._id doctorId (doctors w) = Some doctor ->
        find_position (slot_of_request date time) (Doctor.timeSlots doctor) = Some n ->
        exists slot,
          Doctor.timeSlots doctor !! n = Some slot
          /\ slot_of_request date time slot = true
          /\ In (Doctor_save (set_slot_status "booked" n doctor)) (calls env request w)
          /\ (faults env (Doctor_save (set_slot_status "booked" n doctor)) = None ->
              exists d',
                findById Doctor._id doctorId (doctors (run env request w).2) = Some d'
                /\ Doctor.timeSlots d' !! n = Some (TimeSlot.set_status "booked" slot))).
Proof.
  intros b request. subst request.
  split; [reflexivity|]. split; [|split].
  - rewrite post_book_calls. eauto.
  - intros Hsave. rewrite post_book_run. fold b.
    rewrite (exec_ok _ _ _ Hsave). simpl.
    assert (Hgoal : forall w',
              bookings w' = upsert (fun x => Booking._id x === _id) b (bookings w) ->
              bookings w' = upsert (fun x => Booking._id x === _id) b (bookings w)
              /\ findById Booking._id _id (bookings w') = Some b).
    { intros w' ->. split; [reflexivity|].
      exact (findById_upsert Booking._id b (bookings w)). }
    set (w1 := set_bookings _ w).
    assert (Hw1 : bookings w1 = upsert (fun x => Booking._id x === _id) b (bookings w))
      by reflexivity.
    clearbody w1.
    pose proof (exec_same_on env (Doctor_findById doctorId) w1 SBookings eq_refl) as Hk1.
    destruct (exec env (Doctor_findById doctorId) w1) as [[e|[doctor|]] w2];
      simpl in Hk1; try (apply Hgoal; simpl; congruence).
    destruct (find_position _ _) as [n|]; [|apply Hgoal; simpl; congruence].
    pose proof (exec_same_on env (Doctor_save (set_slot_status "booked" n doctor))
                  w2 SBookings eq_refl) as Hk2.
    destruct (exec env (Doctor_save _) w2) as [[e|x] w3];
      simpl in Hk2; apply Hgoal; simpl; congruence.
  - intros doctor n Hsave Hfind Hdoctor Hn.
    destruct (find_from_found _ _ _ _ Hn) as (k & slot & Hnk & Hk & Hslot & _).
    simpl in Hnk. subst n. exists slot. split; [exact Hk|]. split; [exact Hslot|].
    rewrite post_book_calls, post_book_run. fold b.
    rewrite (exec_ok _ _ _ Hsave). simpl.
    rewrite (exec_ok _ _ _ Hfind). simpl.
    rewrite Hdoctor, Hn.
    split; [right; right; left; reflexivity|].
    intros Hds. rewrite (exec_ok _ _ _ Hds). simpl.
    exists (set_slot_status "booked" k doctor). split.
    + rewrite <- (findById_key _ _ _ _ Hdoctor).
      apply (findById_upsert Doctor._id (set_slot_status "booked" k doctor)).
    + rewrite set_slot_status_lookup, Hk. reflexivity.
Qed.

End Book.

(** The theorem at work: the ten o'clock slot is already booked for Bob
    when Carol books it too; her booking is stored as waiting. *)
Lemma booking_saved_without_availability_check_witness :
  faults Clinic.morning
    (Booking_save (new_booking (RT := UTC.runtime) "b2" "p2" "d1"
                     "2024-07-01T00:00:00.000Z" "10:00 - 10:30" "In-person")) = None
  /\ TimeSlot.status Clinic.slot_10 = "booked"
  /\ findById Booking._id "b2"
       (bookings (run Clinic.morning
                    (post_book (RT := UTC.runtime) "b2" "p2" "d1"
                       "2024-07-01T00:00:00.000Z" "10:00 - 10:30" "In-person")
                    (Clinic.world "accepted" "In-person")).2)
     = Some (Booking.mk "b2" "p2" "d1" (Some Clinic.july1) "10:00 - 10:30"
               "In-person" "waiting" None None).
Proof.
  split; [reflexivity|]. split; [reflexivity|].
  destruct (booking_saved_without_availability_check (RT := UTC.runtime)
              Clinic.morning "b2" "p2" "d1" "2024-07-01T00:00:00.000Z"
              "10:00 - 10:30" "In-person" (Clinic.world "accepted" "In-person"))
    as (_ & _ & H & _).
  destruct (H eq_refl) as [_ Hstored].
  exact Hstored.
Defined.

(** ** Favourite doctors *)

Lemma includes_In (x : ObjectId) (l : list ObjectId) : includes x l = true <-> In x l.
Proof.
  unfold includes. rewrite existsb_exists. split.
  - intros (y & Hy & Heq). apply strict_eq_true in Heq. subst. exact Hy.
  - intros H. exists x. split; [exact H | apply strict_eq_refl].
Qed.

Lemma NoDup_snoc (x : ObjectId) (l : list ObjectId) :
  NoDup l -> ~ In x l -> NoDup (l ++ [x]).
Proof.
  induction 1 as [|y l Hy Hl IH]; simpl; intros Hx.
  - constructor; [intros H; inversion H | constructor].
  - constructor.
    + rewrite list_elem_of_In in *. intros H. apply in_app_or in H as [H|[H|[]]]; auto.
    + apply IH. auto.
Qed.

Section Favorites.

Context {RT : JsRuntime}.

(** C10.  For a patient and a doctor that exist: when the doctor is
    already among the patient's favourites the answer is 400 ['Doctor
    already in favorites'] and nothing is written; otherwise the patient
    is saved once, with the doctor's identifier appended once at the end
    of the list.  So a list without duplicates stays without
    duplicates. *)
Theorem favorites_stay_distinct (env : Env) (patientId doctorId : ObjectId)
    (w : World) (patient : Patient.t) (doctor : Doctor.t) :
  faults env (Patient_findById patientId) = None ->
  faults env (Doctor_findById doctorId) = None ->
  findById Patient._id patientId (patients w) = Some patient ->
  findById Doctor._id doctorId (doctors w) = Some doctor ->
  let request := post_add_to_favorites patientId doctorId in
  let added :=
    Patient.set_favoriteDoctors (Some (favorites patient ++ [doctorId])%list) patient in
  (In doctorId (favorites patient) ->
     run env request w = (Returned (Send 400 "Doctor already in favorites"), w)
     /\ forall p, ~ In (Patient_save p) (calls env request w))
  /\ (~ In doctorId (favorites patient) ->
      (forall p, In (Patient_save p) (calls env request w) <-> p = added)
      /\ (faults env (Patient_save added) = None ->
          run env request w
          = (Returned (Redirect "/patient/doctors"),
             set_patients
               (upsert (fun x => Patient._id x === Patient._id added) added (patients w)) w)
          /\ findById Patient._id patientId (patients (run env request w).2)
             = Some added))
  /\ (NoDup (favorites patient) ->
      forall p, findById Patient._id patientId (patients (run env request w).2) = Some p ->
                NoDup (favorites p)).
Proof.
  intros Hfp Hfd Hp Hd request added.
  assert (Hrun : run env request w =
            if includes doctorId (favorites patient)
            then (Returned (Send 400 "Doctor already in favorites"), w)
            else match exec env (Patient_save added) w with
                 | (inl e, w') =>
                     (Returned (Send 500 "Server error"),
                      set_console
                        (console w' ++ [["Error adding to favorites:"; message e]]) w')
                 | (inr _, w') => (Returned (Redirect "/patient/doctors"), w')
                 end).
  { subst request. unfold post_add_to_favorites, handle. rewrite run_guarded. simpl.
    rewrite (exec_ok _ _ _ Hfp). simpl. rewrite (exec_ok _ _ _ Hfd). simpl.
    rewrite Hp, Hd. fold (favorites patient).
    destruct (includes doctorId (favorites patient)); [reflexivity|].
    subst added. simpl.
    destruct (exec env (Patient_save _) w) as [[e|x] w']; reflexivity. }
  assert (Hcalls : calls env request w =
            Patient_findById patientId :: Doctor_findById doctorId ::
            if includes doctorId (favorites patient) then []
            else Patient_save added ::
                 match exec env (Patient_save added) w with
                 | (inl e, w') => [console_error ["Error adding to favorites:"; message e]]
                 | (inr _, w') => []
                 end).
  { subst request. unfold post_add_to_favorites, handle. rewrite calls_guarded. simpl.
    rewrite (exec_ok _ _ _ Hfp). simpl. rewrite (exec_ok _ _ _ Hfd). simpl.
    rewrite Hp, Hd. fold (favorites patient).
    destruct (includes doctorId (favorites patient)); [reflexivity|].
    subst added. simpl.
    destruct (exec env (Patient_save _) w) as [[e|x] w']; reflexivity. }
  assert (Hkey : Patient._id added = patientId)
    by exact (findById_key _ _ _ _ Hp).
  split; [|split].
  - intros Hin. apply includes_In in Hin. rewrite Hrun, Hcalls, Hin.
    split; [reflexivity|].
    intros p [H|[H|[]]]; discriminate.
  - intros Hnot.
    assert (Hinc : includes doctorId (favorites patient) = false).
    { destruct (includes doctorId (favorites patient)) eqn:E; [|reflexivity].
      apply includes_In in E. contradiction. }
    rewrite Hrun, Hcalls, Hinc. split.
    + intros p. split.
      * intros [H|[H|[H|H]]]; try discriminate; [congruence|].
        destruct (exec env (Patient_save added) w) as [[e|x] w'];
          [destruct H as [H|[]]; discriminate | destruct H].
      * intros ->. right. right. left. reflexivity.
    + intros Hsave. rewrite (exec_ok _ _ _ Hsave). simpl.
      split; [reflexivity|].
      rewrite <- Hkey. apply (findById_upsert Patient._id added).
  - intros Hnodup p. rewrite Hrun.
    destruct (includes doctorId (favorites patient)) eqn:Hinc.
    + simpl. rewrite Hp. intros [= <-]. exact Hnodup.
    + assert (Hnot : ~ In doctorId (favorites patient)).
      { intros H. apply includes_In in H. congruence. }
      unfold exec. simpl.
      destruct (faults env (Patient_save added)); simpl.
      * rewrite Hp. intros [= <-]. exact Hnodup.
      * rewrite <- Hkey. rewrite (findById_upsert Patient._id added).
        intros [= <-]. apply NoDup_snoc; assumption.
Qed.

End Favorites.

(** The theorem at work: Ada is already Carol's favourite, and becomes
    Bob's. *)
Lemma favorites_stay_distinct_witness :
  faults Clinic.morning (Patient_findById "p2") = None
  /\ faults Clinic.morning (Doctor_findById "d1") = None
  /\ findById Patient._id "p2" (patients Clinic.fresh) = Some Clinic.carol
  /\ findById Doctor._id "d1" (doctors Clinic.fresh)
     = Some (set_slot_status "free" 1 Clinic.ada)
  /\ In "d1" (favorites Clinic.carol)
  /\ run Clinic.morning (post_add_to_favorites "p2" "d1") Clinic.fresh
     = (Returned (Send 400 "Doctor already in favorites"), Clinic.fresh).
Proof.
  assert (Hin : In "d1" (favorites Clinic.carol)) by (left; reflexivity).
  repeat (split; [first [reflexivity | exact Hin]|]).
  destruct (favorites_stay_distinct Clinic.morning "p2" "d1" Clinic.fresh
              Clinic.carol (set_slot_status "free" 1 Clinic.ada)
              eq_refl eq_refl eq_refl eq_refl) as [H _].
  destruct (H Hin) as [Hrun _]. exact Hrun.
Defined.

(** ** Searching doctors *)

Section Search.

Context {RT : JsRuntime}.

Ltac next_statement :=
  rewrite !run_bind;
  lazymatch goal with
  | |- (let (_, _) := ?x in _) = _ => destruct x as [[?|?] ?]; [|reflexivity]
  end.

Lemma when_given_truthy {A : Type} (param : option string) (s : string)
    (f : string -> A -> Prog A) (query : A) :
  param = Some s -> truthy param = true -> when_given param f query = f s query.
Proof. intros -> H. unfold when_given. rewrite H. reflexivity. Qed.

Lemma when_given_absent {A : Type} (param : option string)
    (f : string -> A -> Prog A) (query : A) :
  truthy param = false -> when_given param f query = Ret query.
Proof. intros H. unfold when_given. destruct param; [rewrite H|]; reflexivity. Qed.

(** The statement for [what] followed by the one for [where]: the
    second assignment to [query.$or] replaces the first. *)
Lemma what_then_where (env : Env) (q : SearchQuery) (query : gmap string Filter)
    (w : World) :
  truthy (where_ q) = true ->
  compiles (what q) ->
  run env
    (let! query := when_given (what q)
       (fun s query =>
          let! r1 := regexp s in
          let! r2 := regexp s in
          let! r3 := regexp s in
          Ret (<["$or" := FOr [("speciality", r1); ("name", r2); ("conditions", r3)]]> query))
       query in
     when_given (where_ q)
       (fun s query =>
          let! r1 := regexp s in
          let! r2 := regexp s in
          let! r3 := regexp s in
          Ret (<["$or" := FOr [("city", r1); ("state", r2); ("country", r3)]]> query))
       query) w
  = match where_ q with
    | Some s =>
        match newRegExp s with
        | Some r =>
            (Returned (<["$or" := FOr [("city", r); ("state", r); ("country", r)]]> query), w)
        | None => (Thrown (mkError ("Invalid regular expression: /" ++ s ++ "/")), w)
        end
    | None => (Returned query, w)
    end.
Proof.
  intros Hwhere Hwhat. rewrite run_bind.
  destruct (where_ q) as [s|] eqn:Hs; [|discriminate].
  assert (Hlast : forall m : gmap string Filter,
            run env
              (when_given (Some s)
                 (fun s query =>
                    let! r1 := regexp s in
                    let! r2 := regexp s in
                    let! r3 := regexp s in
                    Ret (<["$or" := FOr [("city", r1); ("state", r2); ("country", r3)]]> query))
                 m) w
            = match newRegExp s with
              | Some r =>
                  (Returned (<["$or" := FOr [("city", r); ("state", r); ("country", r)]]> m), w)
              | None => (Thrown (mkError ("Invalid regular expression: /" ++ s ++ "/")), w)
              end).
  { intros m. rewrite (when_given_truthy (Some s) s) by auto.
    unfold regexp. destruct (newRegExp s) as [r|]; reflexivity. }
  destruct (truthy (what q)) eqn:Ht.
  - destruct (what q) as [v|] eqn:Hv; [|discriminate].
    rewrite (when_given_truthy (Some v) v) by auto.
    unfold regexp at 1 2 3.
    destruct (newRegExp v) as [rv|] eqn:Hrv; [|destruct (Hwhat v eq_refl Ht Hrv)].
    simpl run at 1. cbv beta iota. rewrite Hlast.
    destruct (newRegExp s) as [r|]; [|reflexivity].
    rewrite insert_insert_eq. reflexivity.
  - rewrite when_given_absent by exact Ht. simpl run at 1. cbv beta iota.
    apply Hlast.
Qed.

Lemma build_query_run (env : Env) (q : SearchQuery) (v : option string) (w : World) :
  truthy (where_ q) = true ->
  compiles (what q) -> compiles v ->
  run env (build_query q) w = run env (build_query (with_what v q)) w.
Proof.
  intros Hwhere Hq Hv. unfold build_query. simpl.
  do 8 next_statement.
  rewrite (what_then_where env q) by assumption.
  rewrite (what_then_where env (with_what v q)) by assumption.
  reflexivity.
Qed.

Lemma build_query_or (env : Env) (q : SearchQuery) (w w' : World)
    (query : gmap string Filter) :
  truthy (where_ q) = true ->
  compiles (what q) ->
  run env (build_query q) w = (Returned query, w') ->
  exists s r,
    where_ q = Some s /\ newRegExp s = Some r
    /\ query !! "$or" = Some (FOr [("city", r); ("state", r); ("country", r)]).
Proof.
  intros Hwhere Hq H. unfold build_query in H.
  do 8 (rewrite run_bind in H;
        lazymatch type of H with
        | (let (_, _) := ?x in _) = _ => destruct x as [[?|?] ?]; [|discriminate]
        end).
  rewrite (what_then_where env q) in H by assumption.
  destruct (where_ q) as [s|]; [|discriminate].
  destruct (newRegExp s) as [r|] eqn:Hr; [|discriminate].
  injection H as <- _. exists s, r.
  split; [reflexivity|]. split; [exact Hr | apply lookup_insert_eq].
Qed.

Lemma when_given_uses {A : Type} (allowed : Op -> bool) (param : option string)
    (f : string -> A -> Prog A) (query : A) :
  (forall s m, uses allowed (f s m)) -> uses allowed (when_given param f query).
Proof.
  intros Hf. unfold when_given. destruct param as [s|]; [|exact I].
  destruct (truthy (Some s)); [apply Hf | exact I].
Qed.

Lemma regexp_uses (allowed : Op -> bool) (s : string) : uses allowed (regexp s).
Proof. unfold regexp. destruct (newRegExp s); exact I. Qed.

(** Building the filter calls nothing. *)
Lemma build_query_calls (env : Env) (q : SearchQuery) (w : World) :
  calls env (build_query q) w = [].
Proof.
  assert (H : uses (fun _ => false) (build_query q)).
  { unfold build_query.
    repeat first
      [ apply uses_bind; [|intros ?]
      | apply when_given_uses; intros ? ?
      | apply regexp_uses
      | exact I ]. }
  apply (uses_calls _ env _ w) in H.
  destruct (calls env (build_query q) w) as [|op l]; [reflexivity|].
  inversion H; discriminate.
Qed.

Lemma search_calls (env : Env) (q : SearchQuery) (w : World) :
  calls env (get_auth_search_doctors q) w =
  match run env (build_query q) w with
  | (Returned query, _) => [Doctor_find query]
  | (Thrown _, _) => []
  end.
Proof.
  unfold get_auth_search_doctors.
  rewrite calls_tryCatch, calls_bind, run_bind, build_query_calls.
  destruct (run env (build_query q) w) as [[query|e] w']; [|reflexivity].
  simpl. destruct (exec env (Doctor_find query) w') as [[e|x] w'']; reflexivity.
Qed.

Lemma search_run (env : Env) (q : SearchQuery) (w : World) :
  run env (get_auth_search_doctors q) w =
  match run env (build_query q) w with
  | (Returned query, w') =>
      match exec env (Doctor_find query) w' with
      | (inr found, w'') => (Returned (JsonDoctors found), w'')
      | (inl e, w'') => (Returned (JsonError 500 "Error fetching doctors" e), w'')
      end
  | (Thrown e, w') => (Returned (JsonError 500 "Error fetching doctors" e), w')
  end.
Proof.
  unfold get_auth_search_doctors.
  rewrite run_tryCatch, run_bind.
  destruct (run env (build_query q) w) as [[query|e] w']; [|reflexivity].
  simpl. destruct (exec env (Doctor_find query) w') as [[e|x] w'']; reflexivity.
Qed.

End Search.


(** ** Requests in flight together *)

Lemma settle_run {A : Type} (env : Env) (p : Prog A) (w : World) :
  run env (settle env p w).1 (settle env p w).2 = run env p w.
Proof.
  revert w. induction p as [a|e|op k IHk h IHh]; intros w; simpl; try reflexivity.
  destruct (awaited op); [reflexivity|].
  destruct (exec env op w) as [[e|x] w']; [apply IHh | apply IHk].
Qed.

(** A request resumed turn after turn with nothing else running goes the
    way [run] says. *)
Lemma resume_run {A : Type} (env : Env) (p p' : Prog A) (w w' : World) :
  resume env p w = Some (p', w') -> run env p' w' = run env p w.
Proof.
  destruct p as [a|e|op k h]; simpl; try discriminate.
  destruct (awaited op); [|discriminate].
  destruct (exec env op w) as [[e|x] w1]; intros [= H].
  - pose proof (settle_run env (h e) w1) as Hs. rewrite H in Hs. exact Hs.
  - pose proof (settle_run env (k x) w1) as Hs. rewrite H in Hs. exact Hs.
Qed.

Lemma In_upsert {A : Type} (same : A -> bool) (x : A) (l : list A) :
  In x (upsert same x l).
Proof.
  induction l as [|y l IH]; simpl; [auto|].
  destruct (same y); simpl; auto.
Qed.

Section NotAtomic.

Context {RT : JsRuntime}.

(** C7.  The booking and the doctor's slots are written by two separate
    awaited calls with a read between them, and nothing ties them
    together.  The first turn of a booking request stores the booking
    and leaves every doctor document as it was, with the request still
    in flight; a failed doctor save later leaves the booking stored and
    the doctors untouched.  So requests in flight together can leave the
    two collections at odds: two patients booking the same free slot
    both get a waiting booking for it, and a rejection running while
    another patient books the slot leaves that patient waiting for a
    slot shown as free. *)
Theorem booking_and_slot_writes_not_atomic (env : Env)
    (_id patientId doctorId date time ct : string) (w : World) :
  let b := new_booking _id patientId doctorId date time ct in
  let request := post_book _id patientId doctorId date time ct in
  (faults env (Booking_save b) = None ->
   exists rest w',
     resume env request w = Some (rest, w')
     /\ In b (bookings w') /\ doctors w' = doctors w
     /\ finished rest = None
     /\ run env rest w' = run env request w)
  /\ (forall doctor n,
        faults env (Booking_save b) = None ->
        faults env (Doctor_findById doctorId) = None ->
        findById Doctor._id doctorId (doctors w) = Some doctor ->
        find_position (slot_of_request date time) (Doctor.timeSlots doctor) = Some n ->
        faults env (Doctor_save (set_slot_status "booked" n doctor)) <> None ->
        In b (bookings (run env request w).2)
        /\ doctors (run env request w).2 = doctors w
        /\ (run env request w).1 = Returned (Send 500 "Server Error"))
  /\ (exists schedule w',
        interleave Clinic.morning schedule (Clinic.two_patients_book, Clinic.fresh)
        = Some ([Ret (Redirect "/patient/bookings");
                 Ret (Redirect "/patient/bookings")], w')
        /\ double_booked w')
  /\ (exists schedule w',
        interleave Clinic.morning schedule
          (Clinic.reject_while_booking, Clinic.world "accepted" "In-person")
        = Some ([Ret (Redirect "/doctor/bookings");
                 Ret (Redirect "/patient/bookings")], w')
        /\ waits_for_free_slot (RT := UTC.runtime) w').
Proof.
  intros b request.
  assert (Hupsert : forall same l, In b (upsert same b l))
    by (intros; apply In_upsert).
  split; [|split; [|split]].
  - intros Hsave.
    destruct (resume env request w) as [[rest w']|] eqn:Hresume.
    + exists rest, w'. split; [reflexivity|].
      pose proof (resume_run _ _ _ _ _ Hresume) as Hrun.
      subst request. unfold post_book, handle, ServerError, guarded in Hresume.
      simpl in Hresume. fold b in Hresume.
      rewrite (exec_ok _ _ _ Hsave) in Hresume. simpl in Hresume.
      injection Hresume as <- <-. simpl.
      repeat split; auto.
    + exfalso. subst request.
      unfold post_book, handle, ServerError, guarded in Hresume.
      simpl in Hresume. destruct (exec env _ w) as [[e|x] w1]; discriminate.
  - intros doctor n Hsave Hfind Hdoctor Hn Hfail.
    subst request. rewrite post_book_run. fold b.
    rewrite (exec_ok _ _ _ Hsave). simpl.
    rewrite (exec_ok _ _ _ Hfind). simpl. rewrite Hdoctor, Hn.
    destruct (faults env (Doctor_save (set_slot_status "booked" n doctor)))
      as [e|] eqn:He; [|congruence].
    rewrite (exec_fault env (Doctor_save (set_slot_status "booked" n doctor)) _ e
               eq_refl He). simpl.
    repeat split; auto.
  - exists [0; 1; 0; 1; 0; 1]%nat. eexists. split; [vm_compute; reflexivity|].
    exists (Booking.mk "b1" "p1" "d1" (Some Clinic.july1) "09:00 - 09:30"
              "In-person" "waiting" None None),
           (Booking.mk "b2" "p2" "d1" (Some Clinic.july1) "09:00 - 09:30"
              "Video call" "waiting" None None).
    simpl. repeat split; auto; try discriminate.
  - exists [0; 1; 1; 1; 0; 0; 0; 0]%nat. eexists. split; [vm_compute; reflexivity|].
    exists (Booking.mk "b2" "p2" "d1" (Some Clinic.july1) "10:00 - 10:30"
              "In-person" "waiting" None None),
           (set_slot_status "free" 1 Clinic.ada),
           (TimeSlot.set_status "free" Clinic.slot_10).
    vm_compute. repeat split; auto.
Qed.

End NotAtomic.

(** The theorem at work: after the first turn of Carol's request her
    booking is stored and the slot she asked for is still free. *)
Lemma booking_and_slot_writes_not_atomic_witness :
  faults Clinic.morning
    (Booking_save (new_booking (RT := UTC.runtime) "b2" "p2" "d1"
                     "2024-07-01T00:00:00.000Z" "09:00 - 09:30" "Video call")) = None
  /\ exists rest w',
       resume Clinic.morning
         (post_book (RT := UTC.runtime) "b2" "p2" "d1" "2024-07-01T00:00:00.000Z"
            "09:00 - 09:30" "Video call") Clinic.fresh = Some (rest, w')
       /\ In (new_booking (RT := UTC.runtime) "b2" "p2" "d1"
                "2024-07-01T00:00:00.000Z" "09:00 - 09:30" "Video call")
             (bookings w')
       /\ doctors w' = doctors Clinic.fresh.
Proof.
  split; [reflexivity|].
  destruct (booking_and_slot_writes_not_atomic (RT := UTC.runtime) Clinic.morning
              "b2" "p2" "d1" "2024-07-01T00:00:00.000Z" "09:00 - 09:30" "Video call"
              Clinic.fresh) as [H _].
  destruct (H eq_refl) as (rest & w' & H1 & H2 & H3 & _).
  exists rest, w'. auto.
Defined.

(** * Further properties of the routes *)

(** ** From booking to status update *)

Lemma findIndex_from_at {A : Type} (cb : A -> JsError + bool) (l : list A)
    (i : Z) (n : nat) (x : A) :
  l !! n = Some x -> cb x = inr true ->
  (forall j y, (j < n)%nat -> l !! j = Some y -> cb y = inr false) ->
  findIndex_from cb l i = inr (i + Z.of_nat n).
Proof.
  revert i n. induction l as [|y l IH]; intros i n Hn Hx Hbefore; [discriminate|].
  destruct n as [|n]; simpl in *.
  - injection Hn as ->. rewrite Hx. f_equal. lia.
  - rewrite (Hbefore O y ltac:(lia) eq_refl).
    rewrite (IH (i + 1) n Hn Hx).
    + f_equal. lia.
    + intros j z Hj Hz. apply (Hbefore (S j) z); [lia | exact Hz].
Qed.

Section BookThenUpdate.

Context {RT : JsRuntime}.

(** A slot the booking route accepts is accepted by the status update
    for the booking made. *)
Lemma slot_of_request_of_booking (b : Booking.t) (date time : string)
    (slot : TimeSlot.t) :
  (forall t, TimeSlot.date slot = Some t -> newDate (toISOString t) = Some t) ->
  Booking.date b = newDate date -> Booking.time b = time ->
  slot_of_request date time slot = true ->
  slot_of_booking b slot = inr true.
Proof.
  intros Hrt Hdate Htime. unfold slot_of_request, slot_of_booking.
  destruct (TimeSlot.date slot) as [sd|]; [|discriminate].
  intros H. apply andb_true_iff in H as [Hiso Hstart].
  apply strict_eq_true in Hiso.
  rewrite Hdate, <- Hiso, (Hrt sd eq_refl), Htime, strict_eq_refl, Hstart.
  reflexivity.
Qed.

(** With a date in the format of [toISOString], a dated slot the booking
    route passes over is passed over by the status update. *)
Lemma slot_of_request_false (b : Booking.t) (date time : string)
    (slot : TimeSlot.t) (t : Z) :
  newDate (toISOString t) = Some t ->
  date = toISOString t ->
  Booking.date b = newDate date -> Booking.time b = time ->
  TimeSlot.date slot <> None ->
  slot_of_request date time slot = false ->
  slot_of_booking b slot = inr false.
Proof.
  intros Hrt -> Hdate Htime Hsome. unfold slot_of_request, slot_of_booking.
  destruct (TimeSlot.date slot) as [sd|]; [|congruence].
  rewrite Hdate, Hrt, Htime. intros ->. reflexivity.
Qed.

(** The search of the status update, for any booking with the date and
    the time of the request. *)
Lemma found_again (b : Booking.t) (date time : string)
    (slots : list TimeSlot.t) (n : nat) :
  dates_round_trip slots ->
  Booking.date b = newDate date -> Booking.time b = time ->
  find_position (slot_of_request date time) slots = Some n ->
  (forall j earlier, (j < n)%nat -> slots !! j = Some earlier ->
     TimeSlot.date earlier <> None) ->
  findIndex (slot_of_booking b) slots = inr (Z.of_nat n).
Proof.
  intros Hrt Hbdate Hbtime Hn Hdated.
  destruct (find_from_found _ _ _ _ Hn) as (k & slot & Hk & Hslot & Hyes & Hbefore).
  simpl in Hk. subst k.
  assert (Hin : In slot slots).
  { apply list_elem_of_In, list_elem_of_lookup. eauto. }
  assert (Hcanon : exists t, TimeSlot.date slot = Some t /\ date = toISOString t).
  { unfold slot_of_request in Hyes.
    destruct (TimeSlot.date slot) as [sd|]; [|discriminate].
    apply andb_true_iff in Hyes as [Hiso _]. apply strict_eq_true in Hiso. eauto. }
  destruct Hcanon as (t & Hdate & Ht).
  unfold findIndex.
  rewrite (findIndex_from_at _ slots 0 n slot Hslot).
  - reflexivity.
  - apply (slot_of_request_of_booking _ date time slot); auto.
    intros t' Ht'. exact (Hrt slot t' Hin Ht').
  - intros j y Hj Hy.
    apply (slot_of_request_false _ date time y t); auto.
    + exact (Hrt slot t Hin Hdate).
    + exact (Hdated j y Hj Hy).
    + exact (Hbefore j y Hj Hy).
Qed.


End BookThenUpdate.

Lemma findIndex_from_alter {A : Type} (cb : A -> JsError + bool) (f : A -> A)
    (l : list A) (n : nat) (i : Z) :
  (forall x, cb (f x) = cb x) ->
  findIndex_from cb (alter f n l) i = findIndex_from cb l i.
Proof.
  intros Hf. revert n i. induction l as [|x l IH]; intros n i; [reflexivity|].
  destruct n as [|n]; simpl.
  - rewrite Hf. reflexivity.
  - destruct (cb x) as [e|[|]]; try reflexivity. apply IH.
Qed.

(** Outside the console, a guarded route leaves the world as its body
    left it. *)
Lemma guarded_same_on (env : Env) (l : Logged) (answer : Response)
    (body : Prog Response) (w : World) (s : Store) :
  s <> SConsole ->
  same_on s (run env body w).2 (run env (guarded l answer body) w).2.
Proof.
  intros Hs. rewrite run_guarded.
  destruct (run env body w) as [[r|e] w']; simpl; [apply same_on_refl|].
  destruct s; simpl; congruence.
Qed.

Section BookThenUpdateRun.

Context {RT : JsRuntime}.

Lemma with_meeting_link_throws (env : Env) (status : string) (booking : Populated.t)
    (w w' : World) (e : JsError) :
  run env (with_meeting_link status booking) w = (Thrown e, w') ->
  needs_meeting_link status (Populated.doc booking) = true.
Proof.
  unfold with_meeting_link.
  destruct (needs_meeting_link status (Populated.doc booking)); [reflexivity|].
  discriminate.
Qed.

(** What a successful booking leaves behind. *)
Lemma post_book_done (env : Env) (_id patientId doctorId date time ct : string)
    (w : World) (doctor : Doctor.t) (n : nat) :
  (forall op, faults env op = None) ->
  findById Doctor._id doctorId (doctors w) = Some doctor ->
  find_position (slot_of_request date time) (Doctor.timeSlots doctor) = Some n ->
  let b := new_booking _id patientId doctorId date time ct in
  let d := set_slot_status "booked" n doctor in
  run env (post_book _id patientId doctorId date time ct) w
  = (Returned (Redirect "/patient/bookings"),
     set_doctors (upsert (fun x => Doctor._id x === Doctor._id d) d (doctors w))
       (set_bookings (upsert (fun x => Booking._id x === Booking._id b) b (bookings w))
          w)).
Proof.
  intros Hnf Hdoctor Hn b d. rewrite post_book_run. fold b.
  rewrite (exec_ok _ _ _ (Hnf _)). cbn [perform fst snd].
  rewrite (exec_ok _ _ _ (Hnf _)). cbn [perform fst snd].
  cbn [doctors set_bookings]. rewrite Hdoctor, Hn.
  rewrite (exec_ok _ _ _ (Hnf _)). reflexivity.
Qed.

Lemma slot_of_booking_set_status (b : Booking.t) (v : string) (slot : TimeSlot.t) :
  slot_of_booking b (TimeSlot.set_status v slot) = slot_of_booking b slot.
Proof. reflexivity. Qed.

(** X2.  A booking made through [POST /patient/book] and then answered by the
    doctor: when no call fails, the slot the booking marked ends with the
    status of the simple rule, free after a rejection and booked after
    any other answer. *)
Theorem book_then_update_reconciles_slot (env : Env)
    (_id patientId doctorId date time ct status : string) (w : World)
    (doctor : Doctor.t) (n : nat) :
  dates_round_trip (Doctor.timeSlots doctor) ->
  (forall op, faults env op = None) ->
  findById Doctor._id doctorId (doctors w) = Some doctor ->
  find_position (slot_of_request date time) (Doctor.timeSlots doctor) = Some n ->
  (forall j earlier, (j < n)%nat -> Doctor.timeSlots doctor !! j = Some earlier ->
     TimeSlot.date earlier <> None) ->
  let booked := (run env (post_book _id patientId doctorId date time ct) w).2 in
  let answered := (run env (post_bookings_id status _id) booked).2 in
  exists d slot,
    findById Doctor._id doctorId (doctors answered) = Some d
    /\ Doctor.timeSlots d !! n = Some slot
    /\ TimeSlot.status slot = simple_slot_rule status.
Proof.
  intros Hrt Hnf Hdoctor Hn Hdated booked answered.
  pose (b := new_booking _id patientId doctorId date time ct).
  pose (d1 := set_slot_status "booked" n doctor).
  assert (Hkey : Doctor._id d1 = doctorId) by exact (findById_key _ _ _ _ Hdoctor).
  destruct (find_from_found _ _ _ _ Hn) as (k & slot0 & Hk & Hslot0 & _).
  simpl in Hk. subst k.
  assert (Hbookings : findById Booking._id _id (bookings booked) = Some b).
  { subst booked. rewrite (post_book_done env _id patientId doctorId date time ct w
                              doctor n Hnf Hdoctor Hn).
    exact (findById_upsert Booking._id b (bookings w)). }
  assert (Hdoctors : doctors booked
                     = upsert (fun x => Doctor._id x === Doctor._id d1) d1 (doctors w)).
  { subst booked. rewrite (post_book_done env _id patientId doctorId date time ct w
                              doctor n Hnf Hdoctor Hn). reflexivity. }
  assert (Hd1 : findById Doctor._id doctorId (doctors booked) = Some d1).
  { rewrite Hdoctors, <- Hkey. apply (findById_upsert Doctor._id d1). }
  assert (Hslot1 : Doctor.timeSlots d1 !! n = Some (TimeSlot.set_status "booked" slot0)).
  { subst d1. rewrite set_slot_status_lookup, Hslot0. reflexivity. }
  assert (Hindex : findIndex (slot_of_booking b) (Doctor.timeSlots d1) = inr (Z.of_nat n)).
  { subst d1. unfold set_slot_status, findIndex. simpl.
    rewrite findIndex_from_alter by (intros x; apply slot_of_booking_set_status).
    apply (found_again b date time (Doctor.timeSlots doctor) n Hrt
             eq_refl eq_refl Hn Hdated). }
  clearbody booked. subst answered.
  unfold post_bookings_id, handle, ServerError.
  pose proof (guarded_same_on env LogMessage (Send 500 "Server Error")
                (post_bookings_id_body status _id) booked SDoctors ltac:(discriminate))
    as Hguard.
  cbn [same_on] in Hguard. rewrite Hguard. clear Hguard.
  rewrite (post_bookings_id_body_run _ _ _ _ _ (Hnf _) Hbookings).
  pose proof (run_keeps env is_calendar SDoctors
                (with_meeting_link status (updated env status booked b)) booked
                (with_meeting_link_uses _ _)) as Hkeep1.
  destruct (run env (with_meeting_link status (updated env status booked b)) booked)
    as [[b2|e] w2] eqn:Hlink.
  2:{ (* no meeting link could be made: nothing was written *)
      apply with_meeting_link_throws in Hlink.
      apply needs_meeting_link_true in Hlink as [-> _].
      simpl in Hkeep1. simpl.
      exists d1, (TimeSlot.set_status "booked" slot0).
      rewrite Hkeep1 by (intros op; destruct op; simpl; congruence).
      auto. }
  simpl in Hkeep1.
  apply with_meeting_link_returns in Hlink as (Hdoc2 & _ & link & Hdoc).
  rewrite (exec_ok _ _ _ (Hnf _)). cbn [perform fst snd].
  rewrite reconcile_run, Hdoc2, Hdoc.
  unfold updated at 1 2. cbn [Populated.doctor Populated.doc Populated.set_doc populate].
  change (Booking.doctor b) with doctorId.
  rewrite Hd1, slot_of_booking_updated, Hindex.
  assert (Hne : (Z.of_nat n =? -1)%Z = false) by (apply Z.eqb_neq; lia).
  rewrite Hne. cbn [negb]. cbv zeta.
  rewrite (exec_ok _ _ _ (Hnf _)). cbn [perform fst snd].
  set (d2 := set_slot_status (reconciled_status (Booking.status b) status)
               (Z.to_nat (Z.of_nat n)) d1).
  match goal with
  | |- context [run env (notify ?s ?bk ?d) ?w0] =>
      pose proof (run_keeps env is_notification SDoctors (notify s bk d) w0
                    (notify_uses _ _ _)) as Hkeep3;
      destruct (run env (notify s bk d) w0) as [[u|e] w5]
  end;
    simpl in Hkeep3; simpl;
    exists d2, (TimeSlot.set_status (reconciled_status (Booking.status b) status)
                  (TimeSlot.set_status "booked" slot0));
    rewrite Hkeep3 by (intros op; destruct op; simpl; congruence);
    (split; [rewrite <- Hkey; apply (findById_upsert Doctor._id d2)|]);
    (split; [subst d2; rewrite Nat2Z.id, set_slot_status_lookup, Hslot1; reflexivity|]);
    apply reconciled_status_simple.
Qed.

End BookThenUpdateRun.


(** The theorem at work: Carol books Ada's nine o'clock slot and Ada
    rejects the booking; the slot is free again. *)
Lemma book_then_update_reconciles_slot_witness :
  dates_round_trip (RT := UTC.runtime) (Doctor.timeSlots Clinic.ada)
  /\ (forall op, faults Clinic.morning op = None)
  /\ findById Doctor._id "d1" (doctors (Clinic.world "accepted" "In-person"))
     = Some Clinic.ada
  /\ exists d slot,
       findById Doctor._id "d1"
         (doctors
            (run Clinic.morning (post_bookings_id (RT := UTC.runtime) "rejected" "b2")
               (run Clinic.morning
                  (post_book (RT := UTC.runtime) "b2" "p2" "d1"
                     "2024-07-01T00:00:00.000Z" "09:00 - 09:30" "Video call")
                  (Clinic.world "accepted" "In-person")).2).2) = Some d
       /\ Doctor.timeSlots d !! 0%nat = Some slot
       /\ TimeSlot.status slot = "free".
Proof.
  assert (Hrt : dates_round_trip (RT := UTC.runtime) (Doctor.timeSlots Clinic.ada)).
  { intros slot t [<-|[<-|[]]] [= <-]; vm_compute; reflexivity. }
  split; [exact Hrt|]. split; [reflexivity|]. split; [reflexivity|].
  apply (book_then_update_reconciles_slot (RT := UTC.runtime) Clinic.morning
           "b2" "p2" "d1" "2024-07-01T00:00:00.000Z" "09:00 - 09:30" "Video call"
           "rejected" (Clinic.world "accepted" "In-person") Clinic.ada 0
           Hrt (fun _ => eq_refl) eq_refl eq_refl).
  intros j earlier Hj. lia.
Defined.

(** ** What is written when the status update stops early *)

Section StopsEarly.

Context {RT : JsRuntime}.

(** The run of the handler when no meeting link is to be made and the
    booking is saved. *)
Lemma post_bookings_id_plain_run (env : Env) (status : string) (id : ObjectId)
    (w : World) (b : Booking.t) :
  faults env (Booking_findById_populated id) = None ->
  findById Booking._id id (bookings w) = Some b ->
  needs_meeting_link status b = false ->
  let b' := Booking.set_status (assigned_status (moment_now (clock env)) b status) b in
  faults env (Booking_save b') = None ->
  run env (post_bookings_id_body status id) w
  = run env (reconcile (Booking.status b) status (updated env status w b))
      (set_bookings (upsert (fun x => Booking._id x === Booking._id b') b' (bookings w)) w).
Proof.
  intros Hfault Hfound Hneeds b' Hsave.
  rewrite (post_bookings_id_body_run _ _ _ _ _ Hfault Hfound).
  unfold with_meeting_link. unfold updated at 1. cbn [Populated.doc Populated.set_doc].
  rewrite needs_meeting_link_set_status, Hneeds. cbn [run].
  unfold updated at 1. cbn [Populated.doc Populated.set_doc]. fold b'.
  rewrite (exec_ok _ _ _ Hsave). reflexivity.
Qed.

(** X3.  The booking is written before the doctor and the slot are looked
    at, unless a meeting link has to be made first.  An unknown booking
    answers 404 with nothing written.  When no meeting link is to be
    made and the booking can be saved: a booking whose doctor is gone
    answers 404 with the new status stored; a booking with no matching
    slot is answered by the usual redirect, with the new status stored,
    the doctors untouched and one line on the console; a slot without a
    date before any match answers 500 with the new status stored.  When
    a meeting link is to be made and the doctor is gone, the link is
    asked for first: reading the doctor's name throws, the answer is 500
    and nothing is stored. *)
Theorem status_written_before_reconciliation (env : Env) (status : string)
    (id : ObjectId) (w : World) :
  faults env (Booking_findById_populated id) = None ->
  (findById Booking._id id (bookings w) = None ->
   run env (post_bookings_id status id) w
   = (Returned (Send 404 "Booking not found"), w)
   /\ calls env (post_bookings_id status id) w = [Booking_findById_populated id])
  /\ (forall b,
        findById Booking._id id (bookings w) = Some b ->
        needs_meeting_link status b = false ->
        let b' :=
          Booking.set_status
            (if isAfter (moment_now (clock env)) (bookingEndDateTime b)
             then "completed" else status) b in
        let stored :=
          set_bookings
            (upsert (fun x => Booking._id x === Booking._id b') b' (bookings w)) w in
        faults env (Booking_save b') = None ->
        (findById Doctor._id (Booking.doctor b) (doctors w) = None ->
         run env (post_bookings_id status id) w
         = (Returned (Send 404 "Doctor not found"), stored))
        /\ (forall doctor,
              findById Doctor._id (Booking.doctor b) (doctors w) = Some doctor ->
              (findIndex (slot_of_booking b) (Doctor.timeSlots doctor) = inr (-1) ->
               run env (post_bookings_id status id) w
               = (Returned (Redirect "/doctor/bookings"),
                  set_console
                    (console w ++ [["Time slot not found for the given date and time"]])
                    stored))
              /\ (forall e,
                    findIndex (slot_of_booking b) (Doctor.timeSlots doctor) = inl e ->
                    run env (post_bookings_id status id) w
                    = (Returned (Send 500 "Server Error"),
                       set_console (console w ++ [[message e]]) stored))))
  /\ (forall b,
        findById Booking._id id (bookings w) = Some b ->
        needs_meeting_link status b = true ->
        findById Doctor._id (Booking.doctor b) (doctors w) = None ->
        run env (post_bookings_id status id) w
        = (Returned (Send 500 "Server Error"),
           set_console
             (console w ++ [["Cannot read properties of null (reading 'name')"]]) w)).
Proof.
  intros Hfault. split; [|split].
  3:{ intros b Hfound Hneeds Hgone.
      unfold post_bookings_id, handle, ServerError.
      rewrite run_guarded, (post_bookings_id_body_run _ _ _ _ _ Hfault Hfound).
      unfold with_meeting_link.
      change (needs_meeting_link status (Populated.doc (updated env status w b)))
        with (needs_meeting_link status b).
      rewrite Hneeds. unfold createGoogleMeetLink, updated.
      cbn [Populated.doctor Populated.set_doc populate]. rewrite Hgone.
      reflexivity. }
  - intros Hnone. unfold post_bookings_id, handle, ServerError.
    rewrite run_guarded, calls_guarded.
    unfold post_bookings_id_body.
    rewrite run_bind, calls_bind, run_call, calls_call, (exec_ok _ _ _ Hfault).
    cbn [perform fst snd]. rewrite Hnone. split; reflexivity.
  - intros b Hfound Hneeds b' stored Hsave.
    assert (Hrun : run env (post_bookings_id_body status id) w
                   = run env (reconcile (Booking.status b) status (updated env status w b))
                       stored)
      by exact (post_bookings_id_plain_run env status id w b Hfault Hfound Hneeds Hsave).
    unfold post_bookings_id, handle, ServerError.
    split; [|intros doctor Hdoctor; split].
    + intros Hdoctor. rewrite run_guarded, Hrun, reconcile_run.
      unfold updated. cbn [Populated.doctor Populated.set_doc populate].
      rewrite Hdoctor. reflexivity.
    + intros Hi. rewrite run_guarded, Hrun, reconcile_run.
      unfold updated. cbn [Populated.doctor Populated.doc Populated.set_doc populate].
      rewrite Hdoctor.
      change (slot_of_booking (Booking.set_status _ b)) with (slot_of_booking b).
      rewrite Hi. reflexivity.
    + intros e Hi. rewrite run_guarded, Hrun, reconcile_run.
      unfold updated. cbn [Populated.doctor Populated.doc Populated.set_doc populate].
      rewrite Hdoctor.
      change (slot_of_booking (Booking.set_status _ b)) with (slot_of_booking b).
      rewrite Hi. reflexivity.
Qed.

End StopsEarly.

(** The theorem at work: a status update for a booking nobody made, the
    rejection of a visit whose doctor is gone, and the acceptance of a
    video call whose doctor is gone. *)
Lemma status_written_before_reconciliation_witness :
  faults Clinic.morning (Booking_findById_populated "b9") = None
  /\ findById Booking._id "b9" (bookings (Clinic.world "waiting" "In-person")) = None
  /\ needs_meeting_link "rejected" (Clinic.booking "waiting" "In-person") = false
  /\ needs_meeting_link "accepted" (Clinic.booking "waiting" "Video call") = true
  /\ findById Doctor._id "d1" (doctors (Mishaps.doctor_gone "waiting" "In-person")) = None
  /\ run Clinic.morning (post_bookings_id (RT := UTC.runtime) "accepted" "b9")
       (Clinic.world "waiting" "In-person")
     = (Returned (Send 404 "Booking not found"), Clinic.world "waiting" "In-person")
  /\ run Clinic.morning (post_bookings_id (RT := UTC.runtime) "rejected" "b1")
       (Mishaps.doctor_gone "waiting" "In-person")
     = (Returned (Send 404 "Doctor not found"),
        Mishaps.doctor_gone "rejected" "In-person")
  /\ run Clinic.morning (post_bookings_id (RT := UTC.runtime) "accepted" "b1")
       (Mishaps.doctor_gone "waiting" "Video call")
     = (Returned (Send 500 "Server Error"),
        set_console [["Cannot read properties of null (reading 'name')"]]
          (Mishaps.doctor_gone "waiting" "Video call")).
Proof.
  do 5 (split; [reflexivity|]).
  split; [|split].
  - destruct (status_written_before_reconciliation (RT := UTC.runtime) Clinic.morning
                "accepted" "b9" (Clinic.world "waiting" "In-person") eq_refl) as [H _].
    destruct (H eq_refl) as [Hrun _]. exact Hrun.
  - destruct (status_written_before_reconciliation (RT := UTC.runtime) Clinic.morning
                "rejected" "b1" (Mishaps.doctor_gone "waiting" "In-person") eq_refl)
      as (_ & H & _).
    destruct (H (Clinic.booking "waiting" "In-person") eq_refl eq_refl eq_refl)
      as [Hgone _].
    exact (Hgone eq_refl).
  - destruct (status_written_before_reconciliation (RT := UTC.runtime) Clinic.morning
                "accepted" "b1" (Mishaps.doctor_gone "waiting" "Video call") eq_refl)
      as (_ & _ & H).
    exact (H (Clinic.booking "waiting" "Video call") eq_refl eq_refl eq_refl).
Defined.

(** ** The meeting link *)

Section MeetingLink.

Context {RT : JsRuntime}.

(** When the calendar refuses the event, or the doctor, the patient or
    the date needed for it is missing, the link cannot be made. *)
Lemma createGoogleMeetLink_refused (env : Env) (booking : Populated.t) (w : World) :
  (forall ev, faults env (calendar_events_insert ev) <> None) ->
  exists e lines,
    run env (createGoogleMeetLink booking) w
    = (Thrown e, set_console (console w ++ lines) w).
Proof.
  intros Hdown. unfold createGoogleMeetLink.
  assert (Hsame : set_console (console w ++ []) w = w).
  { rewrite app_nil_r. destruct w; reflexivity. }
  destruct (Populated.doctor booking) as [doctor|]; simpl;
    [|eexists _, []; rewrite Hsame; reflexivity].
  destruct (Populated.patient booking) as [patient|]; simpl;
    [|eexists _, []; rewrite Hsame; reflexivity].
  destruct (Booking.date (Populated.doc booking)) as [date|]; simpl;
    [|eexists _, []; rewrite Hsame; reflexivity].
  match goal with
  | |- context [exec env (calendar_events_insert ?ev) w] =>
      destruct (faults env (calendar_events_insert ev)) as [e|] eqn:He;
        [|destruct (Hdown ev He)];
      rewrite (exec_fault env (calendar_events_insert ev) w e eq_refl He)
  end.
  simpl. eexists _, [_]. reflexivity.
Qed.

(** X4.  When the meeting link of an accepted video call cannot be made, the
    answer is 500 and nothing is written: neither the booking nor the
    doctor is saved, no mail is sent, no chat message appended and no
    event added to the calendar. *)
Theorem refused_meeting_link_writes_nothing (env : Env) (status : string)
    (id : ObjectId) (w : World) (b : Booking.t) :
  faults env (Booking_findById_populated id) = None ->
  findById Booking._id id (bookings w) = Some b ->
  needs_meeting_link status b = true ->
  (forall ev, faults env (calendar_events_insert ev) <> None) ->
  exists lines,
    run env (post_bookings_id status id) w
    = (Returned (Send 500 "Server Error"), set_console (console w ++ lines) w)
    /\ lines <> []
    /\ forall op, In op (calls env (post_bookings_id status id) w) ->
                  writes op SBookings = false /\ writes op SDoctors = false
                  /\ writes op SOutbox = false /\ writes op SChats = false.
Proof.
  intros Hfault Hfound Hneeds Hdown.
  destruct (createGoogleMeetLink_refused env (updated env status w b) w Hdown)
    as (e & lines & Hlink).
  assert (Hwith : run env (with_meeting_link status (updated env status w b)) w
                  = (Thrown e, set_console (console w ++ lines) w)).
  { unfold with_meeting_link.
    change (needs_meeting_link status (Populated.doc (updated env status w b)))
      with (needs_meeting_link status b).
    rewrite Hneeds, run_bind, Hlink. reflexivity. }
  exists (lines ++ [[message e]])%list.
  unfold post_bookings_id, handle, ServerError.
  rewrite run_guarded, calls_guarded.
  rewrite (post_bookings_id_body_run _ _ _ _ _ Hfault Hfound), Hwith.
  rewrite (post_bookings_id_body_calls _ _ _ _ _ Hfault Hfound), Hwith.
  split; [|split].
  - cbn [console set_console]. rewrite <- app_assoc. reflexivity.
  - destruct lines; discriminate.
  - intros op Hin. rewrite app_nil_r in Hin.
    apply in_app_or in Hin as [Hin|Hin].
    + destruct Hin as [ <- | [ <- | Hin ] ]; [auto | auto |].
      pose proof (uses_calls is_calendar env _ w
                    (with_meeting_link_uses status (updated env status w b))) as HF.
      rewrite Forall_forall in HF. apply list_elem_of_In in Hin.
      specialize (HF op Hin). destruct op; try discriminate; auto.
    + destruct Hin as [ <- | [] ]. auto.
Qed.

(** X5.  The calendar is called only for an accepted video call that has no
    meeting link yet, whatever else fails; and when it is not called the
    booking is saved with the meeting link it had. *)
Theorem meeting_link_made_once (env : Env) (status : string)
    (id : ObjectId) (w : World) (b : Booking.t) :
  faults env (Booking_findById_populated id) = None ->
  findById Booking._id id (bookings w) = Some b ->
  (forall ev, In (calendar_events_insert ev) (calls env (post_bookings_id status id) w) ->
     status = "accepted" /\ truthy (Booking.meetingLink b) = false
     /\ Booking.consultationType b = "Video call")
  /\ (truthy (Booking.meetingLink b) = true ->
      (forall ev, ~ In (calendar_events_insert ev)
                     (calls env (post_bookings_id status id) w))
      /\ forall b', In (Booking_save b') (calls env (post_bookings_id status id) w) ->
                    Booking.meetingLink b' = Booking.meetingLink b).
Proof.
  intros Hfault Hfound.
  assert (Hcal : forall ev,
            In (calendar_events_insert ev) (calls env (post_bookings_id status id) w) ->
            needs_meeting_link status b = true).
  { intros ev Hin.
    unfold post_bookings_id, handle, ServerError in Hin.
    rewrite calls_guarded in Hin. apply in_app_or in Hin as [Hin|Hin].
    2:{ destruct (run env (post_bookings_id_body status id) w) as [[r|e] w'];
          [destruct Hin | destruct Hin as [Hin|[]]; discriminate]. }
    rewrite (post_bookings_id_body_calls _ _ _ _ _ Hfault Hfound) in Hin.
    destruct Hin as [Hin|[Hin|Hin]]; try discriminate.
    apply in_app_or in Hin as [Hin|Hin].
    - unfold with_meeting_link in Hin.
      change (needs_meeting_link status (Populated.doc (updated env status w b)))
        with (needs_meeting_link status b) in Hin.
      destruct (needs_meeting_link status b); [reflexivity | destruct Hin].
    - exfalso.
      destruct (run env (with_meeting_link status (updated env status w b)) w)
        as [[b2|e] w2]; [|destruct Hin].
      destruct Hin as [Hin|Hin]; [discriminate|].
      destruct (exec env (Booking_save (Populated.doc b2)) w2) as [[e|x] w3];
        [destruct Hin|].
      revert Hin. eapply uses_not_in; [apply reconcile_uses | reflexivity]. }
  split.
  - intros ev Hin. apply needs_meeting_link_true. eauto.
  - intros Hlink.
    assert (Hneeds : needs_meeting_link status b = false).
    { unfold needs_meeting_link. rewrite Hlink.
      destruct (status === "accepted"); reflexivity. }
    split.
    + intros ev Hin. apply Hcal in Hin. congruence.
    + intros b' Hin.
      unfold post_bookings_id, handle, ServerError in Hin.
      rewrite calls_guarded in Hin. apply in_app_or in Hin as [Hin|Hin].
      2:{ destruct (run env (post_bookings_id_body status id) w) as [[r|e] w'];
            [destruct Hin | destruct Hin as [Hin|[]]; discriminate]. }
      rewrite (post_bookings_id_body_calls _ _ _ _ _ Hfault Hfound) in Hin.
      unfold with_meeting_link in Hin.
      change (needs_meeting_link status (Populated.doc (updated env status w b)))
        with (needs_meeting_link status b) in Hin.
      rewrite Hneeds in Hin. cbn [calls run app] in Hin.
      destruct Hin as [Hin|[Hin|[Hin|Hin]]]; try discriminate.
      * injection Hin as <-. reflexivity.
      * exfalso. destruct (exec env _ w) as [[e|x] w3]; [destruct Hin|].
        revert Hin. eapply uses_not_in; [apply reconcile_uses | reflexivity].
Qed.

End MeetingLink.

(** The theorem at work: the calendar is down while Bob's video call is
    accepted. *)
Lemma refused_meeting_link_writes_nothing_witness :
  faults Clinic.calendar_down (Booking_findById_populated "b1") = None
  /\ needs_meeting_link "accepted" (Clinic.booking "waiting" "Video call") = true
  /\ (forall ev, faults Clinic.calendar_down (calendar_events_insert ev) <> None)
  /\ exists lines,
       run Clinic.calendar_down (post_bookings_id (RT := UTC.runtime) "accepted" "b1")
         (Clinic.world "waiting" "Video call")
       = (Returned (Send 500 "Server Error"),
          set_console (console (Clinic.world "waiting" "Video call") ++ lines)
            (Clinic.world "waiting" "Video call")).
Proof.
  assert (Hdown : forall ev,
            faults Clinic.calendar_down (calendar_events_insert ev) <> None)
    by (intros ev; discriminate).
  split; [reflexivity|]. split; [reflexivity|]. split; [exact Hdown|].
  destruct (refused_meeting_link_writes_nothing (RT := UTC.runtime)
              Clinic.calendar_down "accepted" "b1" (Clinic.world "waiting" "Video call")
              (Clinic.booking "waiting" "Video call") eq_refl eq_refl eq_refl Hdown)
    as (lines & Hrun & _).
  exists lines. exact Hrun.
Defined.

(** The theorem at work: the event made for Bob's video call was for an
    accepted video call without a link. *)
Lemma meeting_link_made_once_witness :
  faults Clinic.morning (Booking_findById_populated "b1") = None
  /\ findById Booking._id "b1" (bookings (Clinic.world "waiting" "Video call"))
     = Some (Clinic.booking "waiting" "Video call")
  /\ forall ev,
       In (calendar_events_insert ev)
          (calls Clinic.morning (post_bookings_id (RT := UTC.runtime) "accepted" "b1")
             (Clinic.world "waiting" "Video call")) ->
       truthy (Booking.meetingLink (Clinic.booking "waiting" "Video call")) = false.
Proof.
  split; [reflexivity|]. split; [reflexivity|].
  destruct (meeting_link_made_once (RT := UTC.runtime) Clinic.morning "accepted" "b1"
              (Clinic.world "waiting" "Video call")
              (Clinic.booking "waiting" "Video call") eq_refl eq_refl) as [H _].
  intros ev Hin. destruct (H ev Hin) as (_ & Hlink & _). exact Hlink.
Defined.

(** ** A mail that cannot be sent *)

Section MailDown.

Context {RT : JsRuntime}.

Lemma with_meeting_link_made (env : Env) (status : string) (booking : Populated.t)
    (w : World) (doctor : Doctor.t) (patient : Patient.t) (date : Z) :
  (forall ev, faults env (calendar_events_insert ev) = None) ->
  Populated.doctor booking = Some doctor ->
  Populated.patient booking = Some patient ->
  Booking.date (Populated.doc booking) = Some date ->
  exists booking' w',
    run env (with_meeting_link status booking) w = (Returned booking', w').
Proof.
  intros Hnf Hd Hp Hdate. unfold with_meeting_link.
  destruct (needs_meeting_link status (Populated.doc booking)); [|simpl; eauto].
  unfold createGoogleMeetLink. rewrite Hd, Hp, Hdate. simpl.
  rewrite exec_ok by apply Hnf. simpl. eauto.
Qed.

Lemma sendAppointmentEmail_down (env : Env) (to_ name_ subject_ : string)
    (content : Text) (w : World) :
  (forall m, faults env (transporter_sendMail m) <> None) ->
  exists e,
    run env (sendAppointmentEmail to_ name_ subject_ content) w
    = (Thrown (mkError "Unable to send email"),
       set_console (console w ++ [["Error sending email:"; message e]]) w).
Proof.
  intros Hdown.
  destruct (faults env (transporter_sendMail (mkMail to_ subject_ content)))
    as [e|] eqn:He; [|destruct (Hdown _ He)].
  exists e. unfold sendAppointmentEmail. cbn [tryCatch call bind run].
  rewrite (exec_fault env (transporter_sendMail (mkMail to_ subject_ content)) w e
             eq_refl He).
  reflexivity.
Qed.

Lemma notify_mail_down (env : Env) (status : string) (booking : Populated.t)
    (doctor : Doctor.t) (w : World) (patient : Patient.t) (date : Z) :
  (forall m, faults env (transporter_sendMail m) <> None) ->
  Populated.patient booking = Some patient ->
  Booking.date (Populated.doc booking) = Some date ->
  (Booking.consultationType (Populated.doc booking) = "In-person" ->
   Booking.hospital (Populated.doc booking) <> None) ->
  notifies status (Booking.consultationType (Populated.doc booking)) = true ->
  exists e,
    run env (notify status booking doctor) w
    = (Thrown (mkError "Unable to send email"),
       set_console (console w ++ [["Error sending email:"; message e]]) w).
Proof.
  intros Hdown Hp Hd Hh. unfold notify, notifies.
  assert (Hmail : forall to_ name_ subject_ content (k : Prog unit),
            exists e,
              run env (sendAppointmentEmail to_ name_ subject_ content ;;; k) w
              = (Thrown (mkError "Unable to send email"),
                 set_console (console w ++ [["Error sending email:"; message e]]) w)).
  { intros to_ name_ subject_ content k.
    destruct (sendAppointmentEmail_down env to_ name_ subject_ content w Hdown)
      as [e He].
    exists e. rewrite run_bind, He. reflexivity. }
  destruct (status === "accepted") eqn:Ha; cbn [orb andb].
  - destruct (Booking.consultationType (Populated.doc booking) === "Video call") eqn:Hv;
      cbn [orb andb].
    + intros _. rewrite Hp, Hd. cbn [read_of bind]. apply Hmail.
    + destruct (Booking.consultationType (Populated.doc booking) === "In-person") eqn:Hi;
        cbn [orb andb].
      * intros _. apply strict_eq_true in Hi.
        destruct (Booking.hospital (Populated.doc booking)) as [hospital|];
          [|destruct (Hh Hi eq_refl)].
        rewrite Hp, Hd. cbn [read_of bind]. apply Hmail.
      * apply strict_eq_true in Ha. subst status. discriminate.
  - rewrite orb_false_r. intros Hr. rewrite Hr. rewrite Hp, Hd. cbn [read_of bind].
    apply Hmail.
Qed.

End MailDown.

Section MailDownTheorem.

Context {RT : JsRuntime}.

(** X6.  When the mail of an accepted or rejected booking cannot be sent, the
    doctor is answered 500 while the booking's new status and the slot's
    new status are already stored; nothing is sent and no chat message is
    written. *)
Theorem unsent_mail_keeps_the_writes (env : Env) (status : string) (id : ObjectId)
    (w : World) (b : Booking.t) (doctor : Doctor.t) (patient : Patient.t)
    (date i : Z) :
  faults env (Booking_findById_populated id) = None ->
  (forall ev, faults env (calendar_events_insert ev) = None) ->
  (forall b', faults env (Booking_save b') = None) ->
  (forall d', faults env (Doctor_save d') = None) ->
  (forall m, faults env (transporter_sendMail m) <> None) ->
  findById Booking._id id (bookings w) = Some b ->
  findById Doctor._id (Booking.doctor b) (doctors w) = Some doctor ->
  findById Patient._id (Booking.patient b) (patients w) = Some patient ->
  Booking.date b = Some date ->
  (Booking.consultationType b = "In-person" -> Booking.hospital b <> None) ->
  findIndex (slot_of_booking b) (Doctor.timeSlots doctor) = inr i ->
  i <> -1 ->
  notifies status (Booking.consultationType b) = true ->
  exists w',
    run env (post_bookings_id status id) w = (Returned (Send 500 "Server Error"), w')
    /\ (exists b',
          findById Booking._id id (bookings w') = Some b'
          /\ Booking.status b' = assigned_status (moment_now (clock env)) b status)
    /\ (exists d' slot,
          findById Doctor._id (Booking.doctor b) (doctors w') = Some d'
          /\ Doctor.timeSlots d' !! Z.to_nat i = Some slot
          /\ TimeSlot.status slot = simple_slot_rule status)
    /\ outbox w' = outbox w
    /\ chats w' = chats w.
Proof.
  intros Hfind Hcal Hbs Hds Hdown Hb Hdoctor Hpatient Hdate Hhosp Hi Hne Hsent.
  unfold post_bookings_id, handle, ServerError.
  rewrite run_guarded.
  rewrite (post_bookings_id_body_run _ _ _ _ _ Hfind Hb).
  assert (Hpd : Populated.doctor (updated env status w b) = Some doctor)
    by (unfold updated; simpl; exact Hdoctor).
  assert (Hpp : Populated.patient (updated env status w b) = Some patient)
    by (unfold updated; simpl; exact Hpatient).
  assert (Hpdate : Booking.date (Populated.doc (updated env status w b)) = Some date)
    by (unfold updated; simpl; exact Hdate).
  destruct (with_meeting_link_made env status _ w doctor patient date Hcal Hpd Hpp Hpdate)
    as (b2 & w2 & Hlink).
  pose proof (fun s H => run_keeps env is_calendar s
                (with_meeting_link status (updated env status w b)) w
                (with_meeting_link_uses _ _) H) as Hkeep.
  rewrite Hlink in Hkeep |- *. cbn [snd] in Hkeep.
  apply with_meeting_link_returns in Hlink as (Hdoc2 & Hpat2 & link & Hdoc).
  rewrite (exec_ok _ _ _ (Hbs _)). cbn [perform fst snd].
  rewrite reconcile_run, Hdoc2, Hpd, Hdoc.
  replace (slot_of_booking (Booking.set_meetingLink link
             (Populated.doc (updated env status w b))))
    with (slot_of_booking b) by (destruct b; reflexivity).
  rewrite Hi.
  assert (Hne' : (i =? -1)%Z = false) by (apply Z.eqb_neq; exact Hne).
  rewrite Hne'. cbn [negb]. cbv zeta.
  rewrite (exec_ok _ _ _ (Hds _)). cbn [perform fst snd].
  match goal with
  | |- context [run env (notify ?s ?bk ?d) ?w0] =>
      destruct (notify_mail_down env s bk d w0 patient date Hdown) as [e He]
  end.
  - rewrite Hpat2. exact Hpp.
  - rewrite Hdoc. destruct b; exact Hdate.
  - rewrite Hdoc. intros Hct Hh. apply Hhosp; [destruct b; exact Hct|].
    destruct b; exact Hh.
  - rewrite Hdoc. destruct b; exact Hsent.
  - rewrite He. eexists. split; [reflexivity|].
    cbn [bookings doctors outbox chats set_console set_doctors set_bookings].
    assert (Hbk : bookings w2 = bookings w)
      by exact (Hkeep SBookings ltac:(intros op; destruct op; easy)).
    assert (Hdk : doctors w2 = doctors w)
      by exact (Hkeep SDoctors ltac:(intros op; destruct op; easy)).
    assert (Hok : outbox w2 = outbox w)
      by exact (Hkeep SOutbox ltac:(intros op; destruct op; easy)).
    assert (Hck : chats w2 = chats w)
      by exact (Hkeep SChats ltac:(intros op; destruct op; easy)).
    repeat split; try assumption.
    + exists (Populated.doc b2). split.
      * replace id with (Booking._id (Populated.doc b2)).
        -- rewrite <- Hdoc. apply (findById_upsert Booking._id).
        -- rewrite Hdoc. rewrite <- (findById_key _ _ _ _ Hb). destruct b; reflexivity.
      * rewrite Hdoc. destruct b; reflexivity.
    + destruct (findIndex_found _ _ _ Hi Hne) as (n & slot & -> & Hslot & _).
      rewrite Nat2Z.id.
      exists (set_slot_status (reconciled_status (Booking.status b) status) n doctor),
        (TimeSlot.set_status (simple_slot_rule status) slot).
      split; [|split].
      * rewrite <- (findById_key _ _ _ _ Hdoctor).
        apply (findById_upsert Doctor._id
                 (set_slot_status (reconciled_status (Booking.status b) status)
                    n doctor)).
      * rewrite set_slot_status_lookup, Hslot. simpl.
        rewrite reconciled_status_simple. reflexivity.
      * reflexivity.
Qed.

End MailDownTheorem.

(** The theorem at work: Ada accepts Bob's visit while the mail server is
    down. *)
Lemma unsent_mail_keeps_the_writes_witness :
  (forall m, faults Mishaps.mail_down (transporter_sendMail m) <> None)
  /\ findIndex (slot_of_booking (RT := UTC.runtime) (Clinic.booking "waiting" "Video call"))
       (Doctor.timeSlots Clinic.ada) = inr 1
  /\ notifies "accepted" "Video call" = true
  /\ exists w',
       run Mishaps.mail_down (post_bookings_id (RT := UTC.runtime) "accepted" "b1")
         (Clinic.world "waiting" "Video call")
       = (Returned (Send 500 "Server Error"), w')
       /\ (exists b',
             findById Booking._id "b1" (bookings w') = Some b'
             /\ Booking.status b' = "accepted")
       /\ outbox w' = [].
Proof.
  assert (Hdown : forall m, faults Mishaps.mail_down (transporter_sendMail m) <> None)
    by (intros m; discriminate).
  split; [exact Hdown|]. split; [reflexivity|]. split; [reflexivity|].
  destruct (unsent_mail_keeps_the_writes (RT := UTC.runtime) Mishaps.mail_down
              "accepted" "b1" (Clinic.world "waiting" "Video call")
              (Clinic.booking "waiting" "Video call") Clinic.ada Clinic.bob
              Clinic.july1 1
              eq_refl (fun _ => eq_refl) (fun _ => eq_refl) (fun _ => eq_refl) Hdown
              eq_refl eq_refl eq_refl eq_refl
              ltac:(discriminate) eq_refl ltac:(lia) eq_refl)
    as (w' & Hrun & Hb & _ & Hout & _).
  exists w'. split; [exact Hrun|]. split; [exact Hb|exact Hout].
Defined.

(** ** Favourite doctors, request after request *)

Lemma In_upsert_inv {A : Type} (same : A -> bool) (x y : A) (l : list A) :
  In y (upsert same x l) -> y = x \/ In y l.
Proof.
  induction l as [|z l IH]; simpl.
  - intros [ <- | [] ]. left. reflexivity.
  - destruct (same z); simpl.
    + intros [ <- | H ]; auto.
    + intros [ <- | H ]; auto. destruct (IH H); auto.
Qed.

Section Favorites.

Context {RT : JsRuntime}.

Lemma post_add_to_favorites_run (env : Env) (patientId doctorId : ObjectId)
    (w : World) :
  faults env (Patient_findById patientId) = None ->
  faults env (Doctor_findById doctorId) = None ->
  run env (post_add_to_favorites patientId doctorId) w =
  match findById Patient._id patientId (patients w),
        findById Doctor._id doctorId (doctors w) with
  | Some patient, Some _ =>
      if includes doctorId (favorites patient) then
        (Returned (Send 400 "Doctor already in favorites"), w)
      else
        let added :=
          Patient.set_favoriteDoctors
            (Some (favorites patient ++ [doctorId])%list) patient in
        match faults env (Patient_save added) with
        | None =>
            (Returned (Redirect "/patient/doctors"),
             set_patients
               (upsert (fun x => Patient._id x === Patient._id added) added
                  (patients w)) w)
        | Some e =>
            (Returned (Send 500 "Server error"),
             set_console
               (console w ++ [log_args (LogLabelled "Error adding to favorites:") e]) w)
        end
  | _, _ => (Returned (Send 404 "Patient or Doctor not found"), w)
  end.
Proof.
  intros Hp Hd. unfold post_add_to_favorites, handle. rewrite run_guarded.
  simpl. rewrite (exec_ok _ _ _ Hp). simpl. rewrite (exec_ok _ _ _ Hd). simpl.
  destruct (findById Patient._id patientId (patients w)) as [patient|];
    [|destruct (findById Doctor._id doctorId (doctors w)); reflexivity].
  destruct (findById Doctor._id doctorId (doctors w)) as [doctor|]; [|reflexivity].
  fold (favorites patient).
  destruct (includes doctorId (favorites patient)); [reflexivity|].
  cbv zeta. destruct (faults env (Patient_save _)) as [e|] eqn:Hs; simpl.
  - match goal with
    | |- context [exec env (Patient_save ?p) w] =>
        rewrite (exec_fault env (Patient_save p) w e eq_refl Hs)
    end. reflexivity.
  - match goal with
    | |- context [exec env (Patient_save ?p) w] =>
        rewrite (exec_ok env (Patient_save p) w Hs)
    end. reflexivity.
Qed.

(** X7.  Asked a second time to add the same doctor, the route answers 400 and
    writes nothing, whether the first request added the doctor or found
    it in the list. *)
Theorem favorite_added_twice_is_refused (env : Env) (patientId doctorId : ObjectId)
    (w : World) (patient : Patient.t) (doctor : Doctor.t) :
  (forall op, faults env op = None) ->
  findById Patient._id patientId (patients w) = Some patient ->
  findById Doctor._id doctorId (doctors w) = Some doctor ->
  let request := post_add_to_favorites patientId doctorId in
  let after := (run env request w).2 in
  run env request after = (Returned (Send 400 "Doctor already in favorites"), after).
Proof.
  intros Hnf Hp Hd request after. subst request after.
  rewrite (post_add_to_favorites_run env patientId doctorId w (Hnf _) (Hnf _)), Hp, Hd.
  destruct (includes doctorId (favorites patient)) eqn:Hin.
  - cbn [snd].
    rewrite (post_add_to_favorites_run env patientId doctorId w (Hnf _) (Hnf _)), Hp, Hd, Hin.
    reflexivity.
  - cbv zeta. rewrite Hnf. cbn [snd].
    set (added := Patient.set_favoriteDoctors
                    (Some (favorites patient ++ [doctorId])%list) patient).
    set (w1 := set_patients _ w).
    rewrite (post_add_to_favorites_run env patientId doctorId w1 (Hnf _) (Hnf _)).
    assert (Hkey : Patient._id added = patientId)
      by (rewrite <- (findById_key _ _ _ _ Hp); destruct patient; reflexivity).
    assert (Hp1 : findById Patient._id patientId (patients w1) = Some added).
    { subst w1. cbn [patients set_patients]. rewrite <- Hkey.
      apply (findById_upsert Patient._id added). }
    rewrite Hp1. change (doctors w1) with (doctors w). rewrite Hd.
    assert (Hin1 : includes doctorId (favorites added) = true).
    { apply includes_In. subst added. destruct patient; simpl.
      apply in_or_app. right. left. reflexivity. }
    rewrite Hin1. reflexivity.
Qed.

Lemma post_add_to_favorites_keeps (env : Env) (patientId doctorId : ObjectId)
    (w : World) :
  distinct_favorites w ->
  distinct_favorites (run env (post_add_to_favorites patientId doctorId) w).2.
Proof.
  intros Hw. unfold post_add_to_favorites, handle. rewrite run_guarded. simpl.
  destruct (faults env (Patient_findById patientId)) as [e|] eqn:Hp.
  { rewrite (exec_fault env (Patient_findById patientId) w e eq_refl Hp). exact Hw. }
  rewrite (exec_ok _ _ _ Hp). simpl.
  destruct (faults env (Doctor_findById doctorId)) as [e|] eqn:Hd.
  { rewrite (exec_fault env (Doctor_findById doctorId) w e eq_refl Hd). exact Hw. }
  rewrite (exec_ok _ _ _ Hd). simpl.
  destruct (findById Patient._id patientId (patients w)) as [patient|] eqn:Hfound;
    [|exact Hw].
  destruct (findById Doctor._id doctorId (doctors w)) as [doctor|]; [|exact Hw].
  fold (favorites patient).
  destruct (includes doctorId (favorites patient)) eqn:Hin; [exact Hw|].
  simpl.
  match goal with
  | |- context [exec env (Patient_save ?p) w] =>
      destruct (faults env (Patient_save p)) as [e|] eqn:Hs;
      [rewrite (exec_fault env (Patient_save p) w e eq_refl Hs); exact Hw
      |rewrite (exec_ok env (Patient_save p) w Hs)]
  end.
  simpl. intros p Hp'. apply In_upsert_inv in Hp' as [ -> | Hp' ]; [|exact (Hw p Hp')].
  unfold favorites at 1. simpl. apply NoDup_snoc.
  - apply Hw. unfold findById in Hfound. apply find_some in Hfound as [H _]. exact H.
  - intros H. apply includes_In in H. rewrite Hin in H. discriminate.
Qed.

(** X8.  However many requests to add a favourite are served, by whichever
    patients and whichever calls failing, no patient's list of favourites
    gets a doctor twice. *)
Theorem favorites_never_repeat (env : Env) (requests : list (ObjectId * ObjectId))
    (w : World) :
  distinct_favorites w ->
  distinct_favorites
    (in_turn env (map (fun r => post_add_to_favorites r.1 r.2) requests) w).
Proof.
  revert w. induction requests as [|[patientId doctorId] requests IH]; intros w Hw.
  - exact Hw.
  - simpl. apply IH. apply post_add_to_favorites_keeps. exact Hw.
Qed.

End Favorites.

(** The theorem at work: Bob adds Ada to his favourites twice. *)
Lemma favorite_added_twice_is_refused_witness :
  findById Patient._id "p1" (patients Clinic.fresh) = Some Clinic.bob
  /\ run Clinic.morning (post_add_to_favorites "p1" "d1")
       (run Clinic.morning (post_add_to_favorites "p1" "d1") Clinic.fresh).2
     = (Returned (Send 400 "Doctor already in favorites"),
        (run Clinic.morning (post_add_to_favorites "p1" "d1") Clinic.fresh).2).
Proof.
  split; [reflexivity|].
  exact (favorite_added_twice_is_refused Clinic.morning "p1" "d1" Clinic.fresh
           Clinic.bob (set_slot_status "free" 1 Clinic.ada)
           (fun _ => eq_refl) eq_refl eq_refl).
Defined.

(** The theorem at work: Bob and Carol each ask twice for Ada. *)
Lemma favorites_never_repeat_witness :
  distinct_favorites Clinic.fresh
  /\ distinct_favorites
       (in_turn Clinic.morning
          (map (fun r => post_add_to_favorites r.1 r.2)
               [("p1", "d1"); ("p2", "d1"); ("p1", "d1"); ("p2", "d1")])
          Clinic.fresh).
Proof.
  assert (H : distinct_favorites Clinic.fresh).
  { intros p [ <- | [ <- | [] ] ].
    - vm_compute. apply NoDup_nil_2.
    - vm_compute. apply NoDup_cons_2; [apply not_elem_of_nil|apply NoDup_nil_2]. }
  split; [exact H|].
  exact (favorites_never_repeat Clinic.morning
           [("p1", "d1"); ("p2", "d1"); ("p1", "d1"); ("p2", "d1")] Clinic.fresh H).
Defined.

(** ** The search: what it sends and what it refuses *)

Section SearchPatterns.

Context {RT : JsRuntime}.

Lemma base_conditions_insert (k : string) (f : Filter) (query : gmap string Filter) :
  k <> "role" -> k <> "verified" -> k <> "timeSlots.status" ->
  base_conditions query -> base_conditions (<[k := f]> query).
Proof.
  intros H1 H2 H3 (Hr & Hv & Ht). unfold base_conditions.
  rewrite !lookup_insert_ne by assumption. auto.
Qed.

Lemma compiles_step (param : option string) (done : list (option string)) :
  compiles param -> Forall compiles done -> Forall compiles (done ++ [param])%list.
Proof. intros Hp Hd. apply Forall_app. split; [exact Hd|]. constructor; auto. Qed.

(** A statement that compiles its parameter. *)
Lemma pattern_statement (env : Env) (q : SearchQuery) (w : World)
    (done : list (option string)) (param : option string)
    (f : string -> gmap string Filter -> Prog (gmap string Filter))
    (query : gmap string Filter) :
  In param (patterns q) ->
  (forall s m, base_conditions m ->
     match newRegExp s with
     | Some _ => exists m', run env (f s m) w = (Returned m', w) /\ base_conditions m'
     | None =>
         run env (f s m) w
         = (Thrown (mkError ("Invalid regular expression: /" ++ s ++ "/")), w)
     end) ->
  built q w done (Returned query, w) ->
  built q w (done ++ [param])%list (run env (when_given param f query) w).
Proof.
  intros Hin Hf (_ & Hdone & Hbase). unfold when_given, built.
  destruct param as [s|].
  - destruct (truthy (Some s)) eqn:Ht.
    + specialize (Hf s query Hbase).
      destruct (newRegExp s) as [r|] eqn:Hr.
      * destruct Hf as (m' & -> & Hm'). simpl.
        split; [reflexivity|]. split; [|exact Hm'].
        apply compiles_step; [|exact Hdone].
        intros s' [= <-] _. congruence.
      * rewrite Hf. simpl. split; [reflexivity|]. exists s. auto.
    + simpl. split; [reflexivity|]. split; [|exact Hbase].
      apply compiles_step; [|exact Hdone]. intros s' [= <-] H. congruence.
  - simpl. split; [reflexivity|]. split; [|exact Hbase].
    apply compiles_step; [|exact Hdone]. intros s' [=].
Qed.

(** A statement that copies its parameter into the filter. *)
Lemma plain_statement (env : Env) (q : SearchQuery) (w : World)
    (done : list (option string)) (param : option string)
    (f : string -> gmap string Filter -> Prog (gmap string Filter))
    (query : gmap string Filter) :
  (forall s m, base_conditions m ->
     exists m', run env (f s m) w = (Returned m', w) /\ base_conditions m') ->
  built q w done (Returned query, w) ->
  built q w done (run env (when_given param f query) w).
Proof.
  intros Hf (_ & Hdone & Hbase). unfold when_given, built.
  destruct param as [s|]; [destruct (truthy (Some s))|]; simpl; auto.
  destruct (Hf s query Hbase) as (m' & -> & Hm'). simpl. auto.
Qed.

Ltac inserted :=
  eexists; split; [reflexivity|];
  apply base_conditions_insert; [discriminate..|assumption].

Ltac continue_with q H H' :=
  lazymatch goal with
  | |- context [run ?env0 (when_given ?param0 ?f0 ?query0) ?w0] =>
      let Hw := fresh "Hw" in
      destruct (run env0 (when_given param0 f0 query0) w0) as [[?query|?e] ?w];
      destruct H' as (Hw & H'); simpl in Hw, H'; subst;
      [pose proof (conj eq_refl H' : built q w0 _ (Returned _, w0)) as H; clear H'
      |split; [reflexivity|exact H']]
  end.

Ltac pattern_given :=
  rewrite ?run_bind;
  lazymatch goal with
  | H : built ?q ?w ?done (Returned ?query, ?w)
    |- context [run ?env (when_given ?param ?f ?query) ?w] =>
      let H' := fresh "H" in
      assert (H' : built q w (done ++ [param])%list
                     (run env (when_given param f query) w));
      [apply pattern_statement;
       [simpl; tauto
       |let s := fresh "s" in
        let m := fresh "m" in
        let Hm := fresh "Hm" in
        intros s m Hm; unfold regexp; destruct (newRegExp s); simpl;
        [inserted|reflexivity]
       |exact H]
      |clear H; continue_with q H H']
  end.

Ltac plain_given :=
  rewrite ?run_bind;
  lazymatch goal with
  | H : built ?q ?w ?done (Returned ?query, ?w)
    |- context [run ?env (when_given ?param ?f ?query) ?w] =>
      let H' := fresh "H" in
      assert (H' : built q w done (run env (when_given param f query) w));
      [apply plain_statement;
       [let s := fresh "s" in
        let m := fresh "m" in
        let Hm := fresh "Hm" in
        intros s m Hm; simpl; inserted
       |exact H]
      |clear H; continue_with q H H']
  end.

Lemma build_query_built (env : Env) (q : SearchQuery) (w : World) :
  built q w (patterns q) (run env (build_query q) w).
Proof.
  assert (H : built q w [] (Returned initial_query, w)).
  { split; [reflexivity|]. split; [constructor|].
    unfold base_conditions, initial_query. repeat split. }
  unfold build_query.
  pattern_given.
  pattern_given.
  pattern_given.
  pattern_given.
  pattern_given.
  plain_given.
  pattern_given.
  plain_given.
  pattern_given.
  lazymatch goal with
  | H : built _ _ ?done _ |- _ =>
      change (patterns q) with (done ++ [where_ q])%list
  end.
  apply pattern_statement; [simpl; tauto | | exact H].
  intros s m Hm. unfold regexp. destruct (newRegExp s); simpl; [inserted|reflexivity].
Qed.

(** X9.  The search answers every request, changes nothing, and asks the
    database only for free, verified doctors: the one call it can make is
    [Doctor.find] with a filter that still has the three conditions the
    route starts from, whatever parameters were given. *)
Theorem search_reads_free_verified_doctors (env : Env) (q : SearchQuery) (w : World) :
  (exists r, run env (get_auth_search_doctors q) w = (Returned r, w))
  /\ forall op,
       In op (calls env (get_auth_search_doctors q) w) ->
       exists query, op = Doctor_find query /\ base_conditions query.
Proof.
  pose proof (build_query_built env q w) as (Hw & Hb).
  rewrite search_run, search_calls.
  destruct (run env (build_query q) w) as [[query|e] w']; simpl in Hw, Hb; subst w'.
  - split.
    + unfold exec. simpl. destruct (faults env (Doctor_find query)); eauto.
    + intros op [ <- | [] ]. exists query. tauto.
  - split; [eauto|]. intros op [].
Qed.

(** X10.  The database is asked exactly when every given pattern compiles; a
    given pattern that [new RegExp] rejects is answered 500 ['Error
    fetching doctors'] with the error of such a pattern, and no call is
    made. *)
Theorem search_refuses_a_bad_pattern (env : Env) (q : SearchQuery) (w : World) :
  (Forall compiles (patterns q) ->
   exists query, calls env (get_auth_search_doctors q) w = [Doctor_find query])
  /\ (~ Forall compiles (patterns q) ->
      calls env (get_auth_search_doctors q) w = []
      /\ exists e,
           rejected_pattern q e
           /\ run env (get_auth_search_doctors q) w
              = (Returned (JsonError 500 "Error fetching doctors" e), w)).
Proof.
  pose proof (build_query_built env q w) as (Hw & Hb).
  rewrite search_run, search_calls.
  destruct (run env (build_query q) w) as [[query|e] w']; simpl in Hw, Hb; subst w'.
  - split; [eauto|]. intros Hnot. destruct Hb as [Hall _]. contradiction.
  - split.
    + intros Hall. destruct Hb as (s & Hin & Ht & Hr & _).
      rewrite Forall_forall in Hall. apply list_elem_of_In in Hin.
      destruct (Hall _ Hin s eq_refl Ht Hr).
    + intros _. split; [reflexivity|]. exists e. auto.
Qed.

(** C9.  When [where] is given, the [$or] built from [what] is replaced
    by the [$or] built from [where] before the query is sent.  Every
    filter passed to [Doctor.find] has the three location alternatives
    as its [$or], and [Doctor.find] is called with such a filter, which
    also has the conditions every search starts from, when every given
    pattern compiles.  Among the values of [what] that compile, [what]
    absent included, the answer and the calls of the request are the
    same.  A [what] that does not compile is answered 500 ['Error
    fetching doctors'] and [Doctor.find] is not called. *)
Theorem what_overwritten_by_where (env : Env) (q : SearchQuery)
    (v : option string) (w : World) :
  truthy (where_ q) = true ->
  (compiles (what q) -> compiles v ->
   run env (get_auth_search_doctors q) w
   = run env (get_auth_search_doctors (with_what v q)) w
   /\ calls env (get_auth_search_doctors q) w
      = calls env (get_auth_search_doctors (with_what v q)) w)
  /\ (Forall compiles (patterns q) ->
      exists query s r,
        calls env (get_auth_search_doctors q) w = [Doctor_find query]
        /\ where_ q = Some s /\ newRegExp s = Some r
        /\ query !! "$or" = Some (FOr [("city", r); ("state", r); ("country", r)])
        /\ base_conditions query)
  /\ (forall query,
        In (Doctor_find query) (calls env (get_auth_search_doctors q) w) ->
        exists s r,
          where_ q = Some s /\ newRegExp s = Some r
          /\ query !! "$or" = Some (FOr [("city", r); ("state", r); ("country", r)]))
  /\ (~ compiles (what q) ->
      calls env (get_auth_search_doctors q) w = []
      /\ exists e,
           run env (get_auth_search_doctors q) w
           = (Returned (JsonError 500 "Error fetching doctors" e), w)).
Proof.
  intros Hwhere.
  assert (Hwhat_in : In (what q) (patterns q)) by (simpl; tauto).
  pose proof (build_query_built env q w) as (Hw & Hb).
  split; [|split; [|split]].
  - intros Hq Hv.
    pose proof (build_query_run env q v w Hwhere Hq Hv) as Hsame.
    split.
    + rewrite !search_run, Hsame. reflexivity.
    + rewrite !search_calls, Hsame. reflexivity.
  - intros Hall. rewrite search_calls.
    destruct (run env (build_query q) w) as [[query|e] w'] eqn:Hrun;
      simpl in Hw, Hb; subst w'.
    + destruct Hb as [_ Hbase].
      assert (Hq : compiles (what q)).
      { rewrite Forall_forall in Hall. apply Hall, list_elem_of_In, Hwhat_in. }
      destruct (build_query_or env q w w query Hwhere Hq Hrun) as (s & r & Hs & Hr & Hor).
      exists query, s, r. auto.
    + destruct Hb as (s & Hin & Ht & Hr & _).
      rewrite Forall_forall in Hall. apply list_elem_of_In in Hin.
      destruct (Hall _ Hin s eq_refl Ht Hr).
  - intros query Hin. rewrite search_calls in Hin.
    destruct (run env (build_query q) w) as [[query'|e] w'] eqn:Hrun; [|destruct Hin].
    destruct Hin as [[= <-]|[]].
    simpl in Hw, Hb. subst w'. destruct Hb as [Hall _].
    assert (Hq : compiles (what q)).
    { rewrite Forall_forall in Hall. apply Hall, list_elem_of_In, Hwhat_in. }
    eapply build_query_or; eauto.
  - intros Hnot. rewrite search_run, search_calls.
    destruct (run env (build_query q) w) as [[query|e] w']; simpl in Hw, Hb; subst w'.
    + destruct Hb as [Hall _]. destruct Hnot.
      rewrite Forall_forall in Hall. apply Hall, list_elem_of_In, Hwhat_in.
    + split; [reflexivity|]. exists e. reflexivity.
Qed.

End SearchPatterns.

(** C9, as stated, fails: with [where] given, [what] still has an effect
    on the result.  A search for cardiologists in Paris is answered with
    the doctors; the same search with a parenthesis left open in [what]
    is answered 500 and asks the database nothing. *)
Lemma what_changes_the_result :
  truthy (where_ Clinic.search) = true
  /\ where_ (with_what (Some "(") Clinic.search) = where_ Clinic.search
  /\ (exists found,
        (run Clinic.morning (get_auth_search_doctors (RT := UTC.runtime) Clinic.search)
           Clinic.fresh).1
        = Returned (JsonDoctors found))
  /\ (exists query,
        calls Clinic.morning (get_auth_search_doctors (RT := UTC.runtime) Clinic.search)
          Clinic.fresh
        = [Doctor_find query])
  /\ (exists e,
        (run Clinic.morning
           (get_auth_search_doctors (RT := UTC.runtime)
              (with_what (Some "(") Clinic.search)) Clinic.fresh).1
        = Returned (JsonError 500 "Error fetching doctors" e))
  /\ calls Clinic.morning
       (get_auth_search_doctors (RT := UTC.runtime) (with_what (Some "(") Clinic.search))
       Clinic.fresh
     = [].
Proof.
  split; [reflexivity|]. split; [reflexivity|].
  split; [eexists; vm_compute; reflexivity|].
  split; [eexists; vm_compute; reflexivity|].
  split; [eexists; vm_compute; reflexivity|].
  vm_compute. reflexivity.
Qed.

(** The theorem at work: a search for cardiologists in Paris answers
    like a search for anything in Paris, and asks for Paris only. *)
Lemma what_overwritten_by_where_witness :
  truthy (where_ Clinic.search) = true
  /\ compiles (RT := UTC.runtime) (what Clinic.search)
  /\ compiles (RT := UTC.runtime) None
  /\ Forall (compiles (RT := UTC.runtime)) (patterns Clinic.search)
  /\ run Clinic.morning (get_auth_search_doctors (RT := UTC.runtime) Clinic.search)
       Clinic.fresh
     = run Clinic.morning
         (get_auth_search_doctors (RT := UTC.runtime) (with_what None Clinic.search))
         Clinic.fresh
  /\ exists query,
       calls Clinic.morning (get_auth_search_doctors (RT := UTC.runtime) Clinic.search)
         Clinic.fresh
       = [Doctor_find query]
       /\ query !! "$or"
          = Some (FOr [("city", mkRegExp "Paris" "i"); ("state", mkRegExp "Paris" "i");
                       ("country", mkRegExp "Paris" "i")]).
Proof.
  assert (H1 : compiles (RT := UTC.runtime) (what Clinic.search)).
  { intros s [= <-] _. discriminate. }
  assert (H2 : compiles (RT := UTC.runtime) None).
  { intros s [=]. }
  assert (H3 : Forall (compiles (RT := UTC.runtime)) (patterns Clinic.search)).
  { unfold patterns. repeat constructor; intros s [= <-] _; discriminate. }
  split; [reflexivity|]. split; [exact H1|]. split; [exact H2|]. split; [exact H3|].
  destruct (what_overwritten_by_where (RT := UTC.runtime) Clinic.morning
              Clinic.search None Clinic.fresh eq_refl) as (Hsame & Hsent & _).
  split; [exact (proj1 (Hsame H1 H2))|].
  destruct (Hsent H3) as (query & s & r & Hcalls & Hs & Hr & Hor & _).
  exists query. split; [exact Hcalls|].
  injection Hs as <-. vm_compute in Hr. injection Hr as <-. exact Hor.
Defined.


(** The theorem at work: a parenthesis left open in [what]. *)
Lemma search_refuses_a_bad_pattern_witness :
  ~ Forall (compiles (RT := UTC.runtime)) (patterns Mishaps.unbalanced)
  /\ calls Clinic.morning (get_auth_search_doctors (RT := UTC.runtime) Mishaps.unbalanced)
       Clinic.fresh = [].
Proof.
  assert (H : ~ Forall (compiles (RT := UTC.runtime)) (patterns Mishaps.unbalanced)).
  { intros H. rewrite Forall_forall in H.
    apply (H (Some "(cardio") ltac:(vm_compute; set_solver) "(cardio" eq_refl eq_refl).
    reflexivity. }
  split; [exact H|].
  destruct (search_refuses_a_bad_pattern (RT := UTC.runtime) Clinic.morning
              Mishaps.unbalanced Clinic.fresh) as [_ Hbad].
  exact (proj1 (Hbad H)).
Defined.


(** ** What the calendar is asked for *)

Section MeetingEvent.

Context {RT : JsRuntime}.

(** X11.  Every event the status update asks the calendar for starts at the
    booking's [date] and ends thirty minutes later, with the doctor and
    the patient as attendees: the booking's [time], the range of the
    slot, is not part of it. *)
Theorem meeting_event_ignores_the_slot_time (env : Env) (status : string)
    (id : ObjectId) (w : World) (b : Booking.t) (ev : CalendarEvent) :
  faults env (Booking_findById_populated id) = None ->
  findById Booking._id id (bookings w) = Some b ->
  In (calendar_events_insert ev) (calls env (post_bookings_id status id) w) ->
  exists doctor patient date,
    findById Doctor._id (Booking.doctor b) (doctors w) = Some doctor
    /\ findById Patient._id (Booking.patient b) (patients w) = Some patient
    /\ Booking.date b = Some date
    /\ ev = mkEvent (Doctor.name doctor) (Patient.name patient)
              (toISOString date) (toISOString (date + 30 * 60000))
              [Doctor.email doctor; Patient.email patient].
Proof.
  intros Hfault Hfound Hin.
  unfold post_bookings_id, handle, ServerError in Hin.
  rewrite calls_guarded in Hin. apply in_app_or in Hin as [Hin|Hin].
  2:{ destruct (run env (post_bookings_id_body status id) w) as [[r|e] w'];
        [destruct Hin | destruct Hin as [Hin|[]]; discriminate]. }
  rewrite (post_bookings_id_body_calls _ _ _ _ _ Hfault Hfound) in Hin.
  destruct Hin as [Hin|[Hin|Hin]]; try discriminate.
  apply in_app_or in Hin as [Hin|Hin].
  - unfold with_meeting_link in Hin.
    destruct (needs_meeting_link _ _); [|destruct Hin].
    rewrite calls_bind in Hin. apply in_app_or in Hin as [Hin|Hin].
    2:{ destruct (run env (createGoogleMeetLink _) w) as [[link|e] w1]; destruct Hin. }
    unfold createGoogleMeetLink, updated in Hin.
    cbn [Populated.doctor Populated.patient Populated.doc Populated.set_doc populate
         Booking.date Booking.set_status] in Hin.
    destruct (findById Doctor._id (Booking.doctor b) (doctors w)) as [doctor|];
      [|destruct Hin].
    destruct (findById Patient._id (Booking.patient b) (patients w)) as [patient|];
      [|destruct Hin].
    destruct (Booking.date b) as [date|] eqn:Hdate.
    2:{ destruct b; simpl in Hdate; subst; destruct Hin. }
    exists doctor, patient, date. repeat split.
    cbn [read_of bind] in Hin. rewrite calls_tryCatch in Hin.
    apply in_app_or in Hin as [Hin|Hin].
    + unfold call in Hin. cbn [calls] in Hin. destruct Hin as [[= <-]|Hin]; [reflexivity|].
      destruct (exec env _ w) as [[e|x] w1]; destruct Hin.
    + unfold call in Hin. cbn [run] in Hin.
      destruct (exec env _ w) as [[e|x] w1]; [|destruct Hin].
      simpl in Hin. destruct Hin as [Hin|Hin]; [discriminate|destruct Hin].
  - exfalso.
    destruct (run env (with_meeting_link status (updated env status w b)) w)
      as [[b2|e] w2]; [|destruct Hin].
    destruct Hin as [Hin|Hin]; [discriminate|].
    destruct (exec env (Booking_save (Populated.doc b2)) w2) as [[e|x] w3];
      [destruct Hin|].
    revert Hin. eapply uses_not_in; [apply reconcile_uses | reflexivity].
Qed.

End MeetingEvent.

(** The theorem at work: Bob's video call of ten o'clock gets an event
    from midnight to half past midnight. *)
Lemma meeting_event_ignores_the_slot_time_witness :
  let ev := mkEvent "Ada" "Bob" "2024-07-01T00:00:00.000Z" "2024-07-01T00:30:00.000Z"
              ["ada@clinic.example"; "bob@mail.example"] in
  In (calendar_events_insert ev)
     (calls Clinic.morning (post_bookings_id (RT := UTC.runtime) "accepted" "b1")
        (Clinic.world "waiting" "Video call"))
  /\ exists doctor patient date,
       Booking.date (Clinic.booking "waiting" "Video call") = Some date
       /\ ev = mkEvent (Doctor.name doctor) (Patient.name patient)
                 (toISOString (JsRuntime := UTC.runtime) date)
                 (toISOString (JsRuntime := UTC.runtime) (date + 30 * 60000))
                 [Doctor.email doctor; Patient.email patient].
Proof.
  intros ev.
  assert (Hin : In (calendar_events_insert ev)
                  (calls Clinic.morning
                     (post_bookings_id (RT := UTC.runtime) "accepted" "b1")
                     (Clinic.world "waiting" "Video call"))).
  { vm_compute. right. right. left. reflexivity. }
  split; [exact Hin|].
  destruct (meeting_event_ignores_the_slot_time (RT := UTC.runtime) Clinic.morning
              "accepted" "b1" (Clinic.world "waiting" "Video call")
              (Clinic.booking "waiting" "Video call") ev eq_refl eq_refl Hin)
    as (doctor & patient & date & _ & _ & Hdate & Hev).
  exists doctor, patient, date. split; assumption.
Defined.

(** * The time slots a doctor manages *)

Section Splice.

Import Office.

Lemma actualStart_le (start : Integral) (len : nat) : (actualStart start len <= len)%nat.
Proof.
  destruct start as [|z|[|]]; simpl; try lia.
  destruct (z <? 0)%Z eqn:E; lia.
Qed.

(** Deleting one element with [splice] is [delete] at the position the
    start is clamped to. *)
Lemma splice_one {A : Type} (start : Integral) (l : list A) :
  splice start 1 l = delete (actualStart start (length l)) l.
Proof.
  unfold splice. pose proof (actualStart_le start (length l)) as Hle.
  set (from := actualStart start (length l)) in *.
  rewrite delete_take_drop.
  destruct (decide (from = length l)) as [Heq|Hne].
  - rewrite Heq, Nat.sub_diag. simpl. rewrite Nat.add_0_r.
    rewrite !drop_ge by lia. reflexivity.
  - replace (from + Nat.min 1 (length l - from))%nat with (S from) by lia.
    reflexivity.
Qed.

End Splice.

Lemma find_upsert {A : Type} (p same : A -> bool) (x x' : A) (l : list A) :
  List.find p l = Some x -> same x = true -> p x' = true ->
  List.find p (upsert same x' l) = Some x'.
Proof.
  intros Hfind Hsame Hp. induction l as [|y l IH]; [discriminate|].
  simpl in Hfind |- *. destruct (p y) eqn:Hy.
  - injection Hfind as ->. rewrite Hsame. simpl. rewrite Hp. reflexivity.
  - destruct (same y); simpl.
    + rewrite Hp. reflexivity.
    + rewrite Hy. apply IH. exact Hfind.
Qed.

Section TimeSlots.

Import Office.

Context {RT : JsRuntime} {C : Conversions}.

Variable env : Odds.

(** A doctor's request passes the guard and reaches the handler. *)
Lemma doctor_route_passes (user : User.t) (ip url : string)
    (handler : Session -> M Reply) (db : Db) :
  User.role user = "doctor" ->
  doctor_route (mkRequest (Some (Some user)) ip url) handler db
  = handler (Some (Some user)) db.
Proof.
  intros Hrole. unfold doctor_route, behind, doctor_isLoggedIn, bind. simpl.
  rewrite Hrole. simpl. reflexivity.
Qed.

(** What the handler of [DELETE /manage-time-slots/:index] does for a
    doctor who has a document. *)
Lemma delete_manage_time_slots_run (user : User.t) (index : string) (db : Db)
    (d : Doc.t) :
  rejects env (Doctor_findOne (User.email user)) = None ->
  List.find (fun x => Doc.email x === User.email user) (doctors db) = Some d ->
  let d' := Doc.set_timeSlots
              (delete (actualStart (ToIntegerOrInfinity index)
                         (length (Doc.timeSlots d))) (Doc.timeSlots d)) d in
  let noted := set_asked (asked db ++ [Doctor_findOne (User.email user)])%list db in
  delete_manage_time_slots env (Some (Some user)) index db
  = match rejects env (Doctor_save d') with
    | None =>
        (Returned (Redirected "/doctor/manage-time-slots"),
         set_doctors (upsert (fun x => Doc._id x === Doc._id d') d' (doctors db))
           (set_asked (asked noted ++ [Doctor_save d'])%list noted))
    | Some e =>
        (Returned (Sent 500 "Server Error"),
         set_console (console db ++ [[message e]])%list
           (set_asked (asked noted ++ [Doctor_save d'])%list noted))
    end.
Proof.
  intros Hfind Hd d' noted.
  unfold delete_manage_time_slots, guarded, try_catch, bind, session_email, read,
    findOne, save, ask, ret, log.
  simpl. rewrite Hfind. simpl. rewrite Hd. rewrite splice_one. fold d'.
  destruct (rejects env (Doctor_save d')); reflexivity.
Qed.

(** X12.  [DELETE /manage-time-slots/:index] asked by the doctor removes the
    slot at the position the index is clamped to, whatever its status:
    an index from [0] on names that position and removes nothing once it
    is past the end; a negative index counts from the end and names the
    first slot once it is before the beginning. *)
Theorem delete_removes_the_slot_at_the_clamped_index (user : User.t)
    (ip url index : string) (db : Db) (d : Doc.t) (z : Z) :
  User.role user = "doctor" ->
  rejects env (Doctor_findOne (User.email user)) = None ->
  (forall d', rejects env (Doctor_save d') = None) ->
  List.find (fun x => Doc.email x === User.email user) (doctors db) = Some d ->
  ToIntegerOrInfinity index = Int z ->
  let slots := Doc.timeSlots d in
  let n := if (z <? 0)%Z then Z.to_nat (Z.max (Z.of_nat (length slots) + z) 0)
           else Z.to_nat z in
  exists db',
    DELETE_manage_time_slots env (mkRequest (Some (Some user)) ip url) index db
    = (Returned (Redirected "/doctor/manage-time-slots"), db')
    /\ List.find (fun x => Doc.email x === User.email user) (doctors db')
       = Some (Doc.set_timeSlots (delete n slots) d)
    /\ blogs db' = blogs db
    /\ console db' = console db.
Proof.
  intros Hrole Hfind Hsave Hd Hindex slots n.
  unfold DELETE_manage_time_slots. rewrite doctor_route_passes by exact Hrole.
  rewrite (delete_manage_time_slots_run user index db d Hfind Hd), Hsave.
  eexists. split; [reflexivity|]. split; [|split; reflexivity].
  cbn [doctors set_doctors set_asked].
  assert (Hn : delete (actualStart (ToIntegerOrInfinity index) (length slots)) slots
               = delete n slots).
  { rewrite Hindex. subst n. simpl. destruct (z <? 0)%Z eqn:Hz; [reflexivity|].
    apply Z.ltb_ge in Hz.
    destruct (decide (z < Z.of_nat (length slots))%Z) as [Hlt|Hge].
    - rewrite Z.min_l by lia. reflexivity.
    - rewrite Z.min_r by lia. rewrite Nat2Z.id.
      rewrite !delete_take_drop, !take_ge, !drop_ge by lia. reflexivity. }
  fold slots. rewrite Hn.
  apply find_upsert with (x := d).
  - exact Hd.
  - apply strict_eq_refl.
  - apply find_some in Hd as [_ Hd]. exact Hd.
Qed.

(** What the handler of [POST /add-time-slot] does for a doctor who has
    a document. *)
Lemma post_add_time_slot_run (user : User.t) (date startTime endTime hospital : string)
    (db : Db) (d : Doc.t) :
  rejects env (Doctor_findOne (User.email user)) = None ->
  List.find (fun x => Doc.email x === User.email user) (doctors db) = Some d ->
  let noted := set_asked (asked db ++ [Doctor_findOne (User.email user)])%list db in
  post_add_time_slot env (Some (Some user)) date startTime endTime hospital db
  = match List.find (fun h => Hospital.name h === hospital) (Doc.hospitals d) with
    | None => (Returned (Sent 404 "Hospital not found"), noted)
    | Some h =>
        let d' :=
          Doc.set_timeSlots
            (Doc.timeSlots d ++
             [Slot.mk (TimeSlot.mk (newDate date) startTime endTime "free" hospital)
                (Some (Hospital.loc h))])%list d in
        match rejects env (Doctor_save d') with
        | None =>
            (Returned (Redirected "/doctor/manage-time-slots"),
             set_doctors (upsert (fun x => Doc._id x === Doc._id d') d' (doctors db))
               (set_asked (asked noted ++ [Doctor_save d'])%list noted))
        | Some e =>
            (Returned (Sent 500 "Server Error"),
             set_console (console db ++ [[message e]])%list
               (set_asked (asked noted ++ [Doctor_save d'])%list noted))
        end
    end.
Proof.
  intros Hfind Hd noted.
  unfold post_add_time_slot, guarded, try_catch, bind, session_email, read,
    findOne, save, ask, ret, log.
  simpl. rewrite Hfind. simpl. rewrite Hd.
  destruct (List.find _ (Doc.hospitals d)) as [h|]; [|reflexivity].
  simpl. destruct (rejects env (Doctor_save _)); reflexivity.
Qed.

(** X13.  [POST /add-time-slot] asked by the doctor appends a free slot with
    the address of the first hospital of that name, and does so again
    when the same slot is posted again: it never looks at the slots the
    doctor has.  With no hospital of that name it answers 404 and stores
    nothing. *)
Theorem add_time_slot_appends_without_looking (user : User.t)
    (ip url date startTime endTime hospital : string) (db : Db) (d : Doc.t) :
  User.role user = "doctor" ->
  rejects env (Doctor_findOne (User.email user)) = None ->
  (forall d', rejects env (Doctor_save d') = None) ->
  List.find (fun x => Doc.email x === User.email user) (doctors db) = Some d ->
  let request :=
    POST_add_time_slot env (mkRequest (Some (Some user)) ip url)
      date startTime endTime hospital in
  match List.find (fun h => Hospital.name h === hospital) (Doc.hospitals d) with
  | Some h =>
      let added :=
        Slot.mk (TimeSlot.mk (newDate date) startTime endTime "free" hospital)
          (Some (Hospital.loc h)) in
      (request db).1 = Returned (Redirected "/doctor/manage-time-slots")
      /\ List.find (fun x => Doc.email x === User.email user)
           (doctors (request db).2)
         = Some (Doc.set_timeSlots (Doc.timeSlots d ++ [added])%list d)
      /\ List.find (fun x => Doc.email x === User.email user)
           (doctors (request (request db).2).2)
         = Some (Doc.set_timeSlots (Doc.timeSlots d ++ [added; added])%list d)
  | None =>
      (request db).1 = Returned (Sent 404 "Hospital not found")
      /\ doctors (request db).2 = doctors db
  end.
Proof.
  intros Hrole Hfind Hsave Hd request. subst request.
  unfold POST_add_time_slot. rewrite !doctor_route_passes by exact Hrole.
  rewrite (post_add_time_slot_run user date startTime endTime hospital db d Hfind Hd).
  destruct (List.find _ (Doc.hospitals d)) as [h|] eqn:Hh; [|split; reflexivity].
  cbv zeta. rewrite Hsave. cbn [fst snd].
  set (added := Slot.mk _ _).
  set (d1 := Doc.set_timeSlots (Doc.timeSlots d ++ [added])%list d).
  set (db1 := set_doctors _ _).
  assert (Hd1 : List.find (fun x => Doc.email x === User.email user) (doctors db1)
                = Some d1).
  { subst db1. cbn [doctors set_doctors set_asked].
    apply find_upsert with (x := d); [exact Hd | apply strict_eq_refl |].
    apply find_some in Hd as [_ Hd]. exact Hd. }
  split; [reflexivity|]. split; [exact Hd1|].
  rewrite (post_add_time_slot_run user date startTime endTime hospital db1 d1 Hfind Hd1).
  change (Doc.hospitals d1) with (Doc.hospitals d). rewrite Hh.
  cbv zeta. rewrite Hsave. cbn [snd doctors set_doctors set_asked].
  replace (Doc.set_timeSlots (Doc.timeSlots d ++ [added; added])%list d)
    with (Doc.set_timeSlots (Doc.timeSlots d1 ++ [added])%list d1).
  - apply find_upsert with (x := d1); [exact Hd1 | apply strict_eq_refl |].
    apply find_some in Hd as [_ Hd]. exact Hd.
  - subst d1. unfold Doc.set_timeSlots. simpl. rewrite <- app_assoc. reflexivity.
Qed.

(** X14.  A slot just added is the one [DELETE /manage-time-slots/-1] removes:
    after the two requests the doctor has the slots there were before. *)
Theorem added_slot_is_removed_by_minus_one (user : User.t)
    (ip url date startTime endTime hospital index : string) (db : Db) (d : Doc.t)
    (h : Hospital.t) :
  User.role user = "doctor" ->
  rejects env (Doctor_findOne (User.email user)) = None ->
  (forall d', rejects env (Doctor_save d') = None) ->
  List.find (fun x => Doc.email x === User.email user) (doctors db) = Some d ->
  List.find (fun h => Hospital.name h === hospital) (Doc.hospitals d) = Some h ->
  ToIntegerOrInfinity index = Int (-1) ->
  let req := mkRequest (Some (Some user)) ip url in
  let added := (POST_add_time_slot env req date startTime endTime hospital db).2 in
  let removed := (DELETE_manage_time_slots env req index added).2 in
  List.find (fun x => Doc.email x === User.email user) (doctors removed) = Some d.
Proof.
  intros Hrole Hfind Hsave Hd Hh Hindex req added removed.
  subst removed added req.
  unfold POST_add_time_slot, DELETE_manage_time_slots.
  rewrite !doctor_route_passes by exact Hrole.
  rewrite (post_add_time_slot_run user date startTime endTime hospital db d Hfind Hd), Hh.
  cbv zeta. rewrite Hsave. cbn [snd].
  set (slot := Slot.mk _ _).
  set (d1 := Doc.set_timeSlots (Doc.timeSlots d ++ [slot])%list d).
  set (db1 := set_doctors _ _).
  assert (Hd1 : List.find (fun x => Doc.email x === User.email user) (doctors db1)
                = Some d1).
  { subst db1. cbn [doctors set_doctors set_asked].
    apply find_upsert with (x := d); [exact Hd | apply strict_eq_refl |].
    apply find_some in Hd as [_ Hd]. exact Hd. }
  rewrite (delete_manage_time_slots_run user index db1 d1 Hfind Hd1).
  cbv zeta. rewrite Hsave. cbn [snd doctors set_doctors set_asked].
  rewrite Hindex.
  assert (Hback : Doc.set_timeSlots
                    (delete (actualStart (Int (-1)) (length (Doc.timeSlots d1)))
                       (Doc.timeSlots d1)) d1 = d).
  { subst d1. unfold Doc.set_timeSlots. simpl. rewrite length_app. simpl.
    replace (Z.to_nat (Z.max (Z.of_nat (length (Doc.timeSlots d) + 1) + -1) 0))
      with (length (Doc.timeSlots d) + 0)%nat by lia.
    rewrite delete_take_drop, take_app_add, drop_app_ge by lia.
    replace (S (length (Doc.timeSlots d) + 0) - length (Doc.timeSlots d))%nat
      with 1%nat by lia.
    simpl. rewrite !app_nil_r. destruct d; reflexivity. }
  rewrite Hback.
  apply find_upsert with (x := d1); [exact Hd1 | |].
  - subst d1. apply strict_eq_refl.
  - apply find_some in Hd as [_ Hd]. exact Hd.
Qed.

End TimeSlots.

(** * The search of the patient router *)

Section PatientSearch.

Import Office.

Context {RT : JsRuntime} {C : Conversions}.

Variable env : Odds.

Lemma returns_bind {A B : Type} (I : A -> Prop) (J : B -> Prop) (m : M A)
    (f : A -> M B) :
  returns I m -> (forall a, I a -> returns J (f a)) -> returns J (bind m f).
Proof.
  intros Hm Hf db. unfold bind. destruct (Hm db) as (a & -> & Ha).
  apply Hf. exact Ha.
Qed.

Lemma returns_given (I : gmap string Cond -> Prop) (param : option string)
    (g : string -> gmap string Cond -> gmap string Cond)
    (filter : gmap string Cond) :
  I filter -> (forall s m, I m -> I (g s m)) ->
  returns I (given param (fun s filter => ret (g s filter)) filter).
Proof.
  intros Hfilter Hg. unfold given.
  destruct param as [s|]; [destruct (truthy (Some s))|];
    intros db; eexists; (split; [reflexivity|]); auto.
Qed.


Lemma given_present {A : Type} (param : option string) (s : string)
    (f : string -> A -> M A) (filter : A) :
  param = Some s -> truthy param = true -> given param f filter = f s filter.
Proof. intros -> H. unfold given. rewrite H. reflexivity. Qed.







(** X16.  With [what] and [where] both given, the filter of the patient
    router's search asks for a match of either: its [$or] has the three
    alternatives of [what] followed by the three of [where], and that
    filter is what [Doctor.find] is asked for. *)
Theorem patient_search_joins_what_and_where (q : Search) (db : Db)
    (a b : string) (ra rb : RegExp) :
  what q = Some a -> truthy (what q) = true ->
  where_ q = Some b -> truthy (where_ q) = true ->
  newRegExp a = Some ra -> newRegExp b = Some rb ->
  (forall filter, rejects env (Doctor_find filter) = None) ->
  exists filter,
    get_search_doctors env q db
    = (Returned (Json (List.filter (selects env filter) (doctors db))),
       set_asked (asked db ++ [Doctor_find filter])%list db)
    /\ filter !! "$or"
       = Some (Or [("speciality", ra); ("conditionsTreated", ra); ("name", ra);
                   ("city", rb); ("state", rb); ("country", rb)]).
Proof.
  intros Hwhat Ht Hwhere Ht' Hra Hrb Hfind.
  set (I := fun m : gmap string Cond =>
              m !! "$or"
              = Some (Or [("speciality", ra); ("conditionsTreated", ra); ("name", ra);
                          ("city", rb); ("state", rb); ("country", rb)])).
  assert (H : returns I (search_filter q)).
  { unfold search_filter.
    apply returns_bind
      with (I := fun m : gmap string Cond =>
                   m !! "$or"
                   = Some (Or [("speciality", ra); ("conditionsTreated", ra);
                               ("name", ra)])).
    { rewrite (given_present _ a) by assumption.
      intros db0. unfold bind, regexp. rewrite Hra. simpl.
      eexists. split; [reflexivity|]. apply lookup_insert_eq. }
    intros m Hm. apply returns_bind with (I := I).
    { rewrite (given_present _ b) by assumption.
      intros db0. unfold bind, regexp, alternatives_of. rewrite Hrb, Hm. simpl.
      eexists. split; [reflexivity|]. apply lookup_insert_eq. }
    do 9 (intros ? ?; apply returns_bind with (I := I);
          [apply returns_given;
           [assumption
           |intros; unfold I; rewrite lookup_insert_ne by discriminate; assumption]
          |]).
    intros ? ?. apply returns_given;
      [assumption
      |intros; unfold I; rewrite lookup_insert_ne by discriminate; assumption]. }
  destruct (H db) as (filter & Hrun & Hor).
  exists filter. split; [|exact Hor].
  unfold get_search_doctors, guarded, try_catch. unfold bind at 1 2.
  rewrite Hrun. unfold find, ask, bind, ret. rewrite Hfind. reflexivity.
Qed.

End PatientSearch.

(** * Blogs and who may edit them *)

Section Blogs.

Import Office.

Context {RT : JsRuntime} {C : Conversions}.

Variable env : Odds.

(** X17.  [POST /blogs/edit/:id] changes the stored blogs only for the author:
    when they differ after the request, the blog exists, its [authorId]
    is the [_id] of the session's user, and what is stored is that blog
    with the fields of the form, the same author and comments, and the
    verification status ['pending']. *)
Theorem only_the_author_edits_a_blog (session : Session) (id : ObjectId)
    (body : Edit) (db : Db) :
  blogs (post_blogs_edit env session id body db).2 <> blogs db ->
  exists blog user user_id categories hashtags,
    findById Blog._id id (blogs db) = Some blog
    /\ session = Some (Some user)
    /\ User._id user = Some user_id
    /\ Blog.authorId blog = Some user_id
    /\ edit_categories body = Some categories
    /\ edit_hashtags body = Some hashtags
    /\ (post_blogs_edit env session id body db).1
       = Returned (Redirected "/doctor/profile/blogs")
    /\ blogs (post_blogs_edit env session id body db).2
       = upsert (fun x => Blog._id x === Blog._id blog)
           (edited blog body categories hashtags) (blogs db)
    /\ Blog.verificationStatus (edited blog body categories hashtags) = "pending"
    /\ Blog.authorId (edited blog body categories hashtags) = Blog.authorId blog
    /\ Blog.comments (edited blog body categories hashtags) = Blog.comments blog.
Proof.
  unfold post_blogs_edit, guarded, try_catch, bind, Blog_find, Blog_store, ask, read,
    log, ret, throw.
  destruct (rejects env (Blog_findById id)); [intros H; destruct H; reflexivity|].
  cbn [fst snd blogs set_asked].
  destruct (findById Blog._id id (blogs db)) as [blog|];
    [|intros H; destruct H; reflexivity].
  destruct (Blog.authorId blog) as [authorId|] eqn:Hauthor;
    [|intros H; destruct H; reflexivity].
  destruct session as [[user|]|]; try (intros H; destruct H; reflexivity).
  destruct (User._id user) as [user_id|] eqn:Huser;
    [|intros H; destruct H; reflexivity].
  destruct (authorId === user_id) eqn:Hsame;
    [|intros H; destruct H; reflexivity].
  apply strict_eq_true in Hsame. subst user_id.
  destruct (edit_categories body) as [categories|];
    [|intros H; destruct H; reflexivity].
  destruct (edit_hashtags body) as [hashtags|];
    [|intros H; destruct H; reflexivity].
  cbn [negb]. cbv iota beta.
  destruct (rejects env (Blog_save _)); [intros H; destruct H; reflexivity|].
  intros _. exists blog, user, authorId, categories, hashtags.
  repeat split; assumption.
Qed.

(** X18.  A blog without author: a doctor who asks for the edit form is
    answered 403, one who posts the form is answered 500; neither
    changes a blog. *)
Theorem blog_without_author_403_or_500 (user : User.t) (c : ascii) (rest : string)
    (id : ObjectId) (body : Edit) (db : Db) (blog : Blog.t) :
  User._id user = Some (String c rest) ->
  rejects env (Blog_findById id) = None ->
  findById Blog._id id (blogs db) = Some blog ->
  Blog.authorId blog = None ->
  (get_blogs_edit env (Some (Some user)) id db).1 = Returned (Sent 403 "Unauthorized")
  /\ (post_blogs_edit env (Some (Some user)) id body db).1
     = Returned (Sent 500 "Server Error")
  /\ blogs (get_blogs_edit env (Some (Some user)) id db).2 = blogs db
  /\ blogs (post_blogs_edit env (Some (Some user)) id body db).2 = blogs db.
Proof.
  intros Huser Hfind Hblog Hauthor.
  unfold get_blogs_edit, post_blogs_edit, guarded, try_catch, bind, Blog_find, ask,
    read, log, ret, throw.
  rewrite Hfind. cbn [fst snd blogs set_asked]. rewrite Hblog.
  destruct user as [uid name email role]. simpl in Huser. subst uid.
  rewrite Hauthor. repeat split.
Qed.

End Blogs.

(** * The guards and the routes behind them *)

Section Guards.

Import Office.

Context {RT : JsRuntime} {C : Conversions}.

Variable env : Odds.

(** X19.  The two guards tell the roles apart: the doctor's guard lets
    exactly the doctors through and the patient's guard exactly the
    patients, so no session passes both; whoever either guard stops is
    sent to the login page, and the doctor's guard notes the attempt on
    the console while the patient's guard changes nothing.  A request
    without a session object makes both guards throw. *)
Theorem guards_tell_roles_apart (session : Session) (ip url : string) (db : Db) :
  ((doctor_isLoggedIn session ip url db).1 = Returned Next
   <-> exists user, session = Some (Some user) /\ User.role user = "doctor")
  /\ ((patient_isLoggedIn session db).1 = Returned Next
      <-> exists user, session = Some (Some user) /\ User.role user = "patient")
  /\ ~ ((doctor_isLoggedIn session ip url db).1 = Returned Next
        /\ (patient_isLoggedIn session db).1 = Returned Next)
  /\ (session <> None ->
      (doctor_isLoggedIn session ip url db).1 <> Returned Next ->
      exists who,
        doctor_isLoggedIn session ip url db
        = (Returned (Answered (Redirected "/auth/login")),
           set_console
             (console db ++ [["Unauthorized access attempt:"; ip; url; who]])%list db))
  /\ (session <> None ->
      (patient_isLoggedIn session db).1 <> Returned Next ->
      patient_isLoggedIn session db
      = (Returned (Answered (Redirected "/auth/login")), db))
  /\ (session = None ->
      exists e,
        doctor_isLoggedIn session ip url db = (Thrown e, db)
        /\ patient_isLoggedIn session db = (Thrown e, db)).
Proof.
  assert (Hd : (doctor_isLoggedIn session ip url db).1 = Returned Next
               <-> exists user, session = Some (Some user) /\ User.role user = "doctor").
  { unfold doctor_isLoggedIn, bind, read, log, ret, throw.
    destruct session as [[user|]|]; simpl.
    - destruct (User.role user === "doctor") eqn:E; simpl.
      + apply strict_eq_true in E. split; [eauto|reflexivity].
      + split; [discriminate|]. intros (u & [= <-] & Hu).
        rewrite Hu in E. discriminate.
    - split; [discriminate|]. intros (u & [=] & _).
    - split; [discriminate|]. intros (u & [=] & _). }
  assert (Hp : (patient_isLoggedIn session db).1 = Returned Next
               <-> exists user, session = Some (Some user) /\ User.role user = "patient").
  { unfold patient_isLoggedIn, bind, read, ret, throw.
    destruct session as [[user|]|]; simpl.
    - destruct (User.role user === "patient") eqn:E; simpl.
      + apply strict_eq_true in E. split; [eauto|reflexivity].
      + split; [discriminate|]. intros (u & [= <-] & Hu).
        rewrite Hu in E. discriminate.
    - split; [discriminate|]. intros (u & [=] & _).
    - split; [discriminate|]. intros (u & [=] & _). }
  split; [exact Hd|]. split; [exact Hp|]. split; [|split; [|split]].
  - intros [H1 H2]. apply Hd in H1 as (u & -> & Hu). apply Hp in H2 as (u' & [= <-] & Hu').
    congruence.
  - intros Hsession Hstopped.
    unfold doctor_isLoggedIn, bind, read, log, ret, throw in Hstopped |- *.
    destruct session as [[user|]|]; [| |contradiction]; simpl in *.
    + destruct (User.role user === "doctor"); [contradiction|]. eauto.
    + eauto.
  - intros Hsession Hstopped.
    unfold patient_isLoggedIn, bind, read, ret, throw in Hstopped |- *.
    destruct session as [[user|]|]; [| |contradiction]; simpl in *.
    + destruct (User.role user === "patient"); [contradiction|]. reflexivity.
    + reflexivity.
  - intros ->. eexists. split; reflexivity.
Qed.

(** X20.  Behind the doctor's guard a request of anyone else changes nothing
    but the console: whatever the handler, no document is touched and no
    query is made. *)
Theorem doctor_routes_are_closed_to_others (req : Request)
    (handler : Session -> M Reply) (db : Db) :
  session req <> None ->
  (forall user, session req = Some (Some user) -> User.role user <> "doctor") ->
  let after := (doctor_route req handler db).2 in
  (doctor_route req handler db).1 = Returned (Redirected "/auth/login")
  /\ doctors after = doctors db
  /\ blogs after = blogs db
  /\ asked after = asked db.
Proof.
  intros Hsession Hrole after. subst after.
  unfold doctor_route, behind, doctor_isLoggedIn, bind, read, log, ret, throw.
  destruct (session req) as [[user|]|]; [| |contradiction]; simpl.
  - destruct (User.role user === "doctor") eqn:E.
    + apply strict_eq_true in E. destruct (Hrole user eq_refl E).
    + repeat split.
  - repeat split.
Qed.

(** X21.  An account without a doctor document is answered 404 by [GET
    /profile] and 500 by [GET /edit], which reads [doctor.hospitals]
    without looking whether a doctor was found. *)
Theorem missing_doctor_404_or_500 (user : User.t) (db : Db) :
  rejects env (Doctor_findOne (User.email user)) = None ->
  List.find (fun x => Doc.email x === User.email user) (doctors db) = None ->
  (get_profile env (Some (Some user)) db).1 = Returned (Sent 404 "Doctor not found")
  /\ (get_edit env (Some (Some user)) db).1 = Returned (Sent 500 "Server Error")
  /\ console (get_edit env (Some (Some user)) db).2
     = (console db ++ [["Cannot read properties of null (reading 'hospitals')"]])%list.
Proof.
  intros Hfind Hnone.
  unfold get_profile, get_edit, guarded, try_catch, bind, session_email, read,
    findOne, ask, log, ret, throw.
  simpl. rewrite Hfind. simpl. rewrite Hnone. repeat split.
Qed.

End Guards.

(** * The month and the year of the calendars *)

Section Calendar.

Import Office.

Context {C : Conversions}.

(** X22.  The month the calendars show is a month of the year and the year
    lies between 1900 and 2100 (or is the current year); the month [0],
    January, can be asked for only by not asking: a parameter that reads
    as [0] gives the current month, as does [12] or any other number
    outside [1..11]. *)
Theorem calendar_month_and_year (month year : option string) (now_month now_year : Z) :
  0 <= now_month <= 11 ->
  (exists m, calendar_month month now_month = Int m /\ 0 <= m <= 11)
  /\ (exists y, calendar_year year now_year = Int y
                /\ (1900 <= y <= 2100 \/ y = now_year))
  /\ (forall z, parseInt month = Int z ->
        calendar_month month now_month
        = Int (if ((1 <=? z) && (z <=? 11))%Z then z else now_month)).
Proof.
  intros Hnow. unfold calendar_month, calendar_year, or_else, lt, gt.
  split; [|split].
  - destruct (parseInt month) as [|[|p|p]|[|]]; cbn [negb orb];
      repeat match goal with
             | |- context [(?a <? ?b)%Z] => destruct (Z.ltb_spec a b)
             end;
      cbn [negb orb]; eexists; (split; [reflexivity|lia]).
  - destruct (parseInt year) as [|[|p|p]|[|]]; cbn [negb orb];
      repeat match goal with
             | |- context [(?a <? ?b)%Z] => destruct (Z.ltb_spec a b)
             end;
      cbn [negb orb]; eexists; (split; [reflexivity|lia]).
  - intros z ->. destruct z as [|p|p]; cbn [negb orb];
      repeat match goal with
             | |- context [(?a <? ?b)%Z] => destruct (Z.ltb_spec a b)
             | |- context [(?a <=? ?b)%Z] => destruct (Z.leb_spec a b)
             end;
      cbn [negb orb andb]; try reflexivity; lia.
Qed.

End Calendar.

(** * The theorems at work at Ada's desk *)

(** Ada removes her last slot with the index [-1]. *)
Lemma delete_removes_the_slot_at_the_clamped_index_witness :
  Office.ToIntegerOrInfinity (Conversions := Practice.decimal) "-1" = Office.Int (-1)
  /\ exists db',
       Office.DELETE_manage_time_slots (C := Practice.decimal) Practice.calm (Practice.from Practice.ada_user)
         "-1" Practice.db
       = (Returned (Office.Redirected "/doctor/manage-time-slots"), db')
       /\ List.find (fun x => Office.Doc.email x === "ada@clinic.example")
            (Office.doctors db')
          = Some (Office.Doc.set_timeSlots [Office.Slot.mk Clinic.slot_9 None]
                    Practice.ada).
Proof.
  split; [reflexivity|].
  destruct (delete_removes_the_slot_at_the_clamped_index (C := Practice.decimal) Practice.calm
              Practice.ada_user "203.0.113.7" "/doctor/manage-time-slots" "-1"
              Practice.db Practice.ada (-1)
              eq_refl eq_refl (fun _ => eq_refl) eq_refl eq_refl)
    as (db' & Hrun & Hfound & _).
  exists db'. split; [exact Hrun | exact Hfound].
Defined.

(** Ada adds the same slot at the General hospital twice. *)
Lemma add_time_slot_appends_without_looking_witness :
  let request :=
    Office.POST_add_time_slot (RT := UTC.runtime) Practice.calm
      (Practice.from Practice.ada_user) "2024-07-02T00:00:00.000Z" "09:00" "09:30"
      "General" in
  let added :=
    Office.Slot.mk
      (TimeSlot.mk (Some (Clinic.july1 + 86400000)) "09:00" "09:30" "free" "General")
      (Some (Hospital.loc Practice.general)) in
  List.find (fun x => Office.Doc.email x === "ada@clinic.example")
    (Office.doctors Practice.db) = Some Practice.ada
  /\ List.find (fun x => Office.Doc.email x === "ada@clinic.example")
       (Office.doctors (request (request Practice.db).2).2)
     = Some (Office.Doc.set_timeSlots
               (Office.Doc.timeSlots Practice.ada ++ [added; added])%list Practice.ada).
Proof.
  intros request added. split; [reflexivity|].
  exact (proj2 (proj2
           (add_time_slot_appends_without_looking (RT := UTC.runtime) Practice.calm
              Practice.ada_user "203.0.113.7" "/doctor/manage-time-slots"
              "2024-07-02T00:00:00.000Z" "09:00" "09:30" "General"
              Practice.db Practice.ada eq_refl eq_refl (fun _ => eq_refl) eq_refl))).
Defined.

(** Ada adds a slot and removes it again. *)
Lemma added_slot_is_removed_by_minus_one_witness :
  Office.ToIntegerOrInfinity (Conversions := Practice.decimal) "-1" = Office.Int (-1)
  /\ List.find (fun x => Office.Doc.email x === "ada@clinic.example")
       (Office.doctors
          (Office.DELETE_manage_time_slots (C := Practice.decimal) Practice.calm
             (Practice.from Practice.ada_user) "-1"
             (Office.POST_add_time_slot (RT := UTC.runtime) Practice.calm
                (Practice.from Practice.ada_user) "2024-07-02T00:00:00.000Z"
                "09:00" "09:30" "General" Practice.db).2).2)
     = Some Practice.ada.
Proof.
  split; [reflexivity|].
  exact (added_slot_is_removed_by_minus_one (RT := UTC.runtime) (C := Practice.decimal) Practice.calm
           Practice.ada_user "203.0.113.7" "/doctor/manage-time-slots"
           "2024-07-02T00:00:00.000Z" "09:00" "09:30" "General" "-1"
           Practice.db Practice.ada Practice.general
           eq_refl eq_refl (fun _ => eq_refl) eq_refl eq_refl eq_refl).
Defined.

(** A patient looks for cardiologists or for anyone in Paris. *)
Lemma patient_search_joins_what_and_where_witness :
  newRegExp (JsRuntime := UTC.runtime) "cardio" = Some (mkRegExp "cardio" "i")
  /\ exists filter,
       (Office.get_search_doctors (RT := UTC.runtime) Practice.calm
          Practice.cardio_in_paris Practice.db).1
       = Returned (Office.Json (List.filter (Office.selects Practice.calm filter)
                                  (Office.doctors Practice.db)))
       /\ filter !! "$or"
          = Some (Office.Or
                    [("speciality", mkRegExp "cardio" "i");
                     ("conditionsTreated", mkRegExp "cardio" "i");
                     ("name", mkRegExp "cardio" "i");
                     ("city", mkRegExp "Paris" "i");
                     ("state", mkRegExp "Paris" "i");
                     ("country", mkRegExp "Paris" "i")]).
Proof.
  split; [reflexivity|].
  destruct (patient_search_joins_what_and_where (RT := UTC.runtime) Practice.calm
              Practice.cardio_in_paris Practice.db "cardio" "Paris"
              (mkRegExp "cardio" "i") (mkRegExp "Paris" "i")
              eq_refl eq_refl eq_refl eq_refl eq_refl eq_refl (fun _ => eq_refl))
    as (filter & Hrun & Hor).
  exists filter. split; [rewrite Hrun; reflexivity | exact Hor].
Defined.


(** Ada, a doctor, knocks at a route of the patients. *)
Lemma guards_tell_roles_apart_witness :
  Some (Some Practice.ada_user) <> None
  /\ (Office.patient_isLoggedIn (Some (Some Practice.ada_user)) Practice.db).1
     <> Returned Office.Next
  /\ Office.patient_isLoggedIn (Some (Some Practice.ada_user)) Practice.db
     = (Returned (Office.Answered (Office.Redirected "/auth/login")), Practice.db).
Proof.
  assert (H1 : Some (Some Practice.ada_user) <> @None (option Office.User.t))
    by discriminate.
  assert (H2 : (Office.patient_isLoggedIn (Some (Some Practice.ada_user)) Practice.db).1
               <> Returned Office.Next) by discriminate.
  split; [exact H1|]. split; [exact H2|].
  destruct (guards_tell_roles_apart (Some (Some Practice.ada_user)) "203.0.113.7" "/"
              Practice.db) as (_ & _ & _ & _ & Hstopped & _).
  exact (Hstopped H1 H2).
Defined.

(** Ada edits her blog on the heart. *)
Lemma only_the_author_edits_a_blog_witness :
  Office.blogs (Office.post_blogs_edit Practice.calm (Some (Some Practice.ada_user))
                  "g1" Practice.form Practice.db).2
  <> Office.blogs Practice.db
  /\ exists blog user,
       findById Office.Blog._id "g1" (Office.blogs Practice.db) = Some blog
       /\ Office.Blog.authorId blog = Office.User._id user
       /\ user = Practice.ada_user.
Proof.
  assert (H : Office.blogs
                (Office.post_blogs_edit Practice.calm (Some (Some Practice.ada_user))
                   "g1" Practice.form Practice.db).2
              <> Office.blogs Practice.db).
  { vm_compute. discriminate. }
  split; [exact H|].
  destruct (only_the_author_edits_a_blog Practice.calm (Some (Some Practice.ada_user))
              "g1" Practice.form Practice.db H)
    as (blog & user & user_id & categories & hashtags & Hblog & [= <-] & Huser
        & Hauthor & _).
  exists blog, Practice.ada_user. split; [exact Hblog|]. split; [|reflexivity].
  rewrite Hauthor, Huser. reflexivity.
Defined.

(** Ada meets the blog whose author is not recorded. *)
Lemma blog_without_author_403_or_500_witness :
  Office.Blog.authorId Practice.orphan = None
  /\ (Office.get_blogs_edit Practice.calm (Some (Some Practice.ada_user)) "g2"
        Practice.db).1
     = Returned (Office.Sent 403 "Unauthorized")
  /\ (Office.post_blogs_edit Practice.calm (Some (Some Practice.ada_user)) "g2"
        Practice.form Practice.db).1
     = Returned (Office.Sent 500 "Server Error").
Proof.
  split; [reflexivity|].
  destruct (blog_without_author_403_or_500 Practice.calm Practice.ada_user "d" "1" "g2"
              Practice.form Practice.db Practice.orphan
              eq_refl eq_refl eq_refl eq_refl) as (Hget & Hpost & _).
  split; [exact Hget | exact Hpost].
Defined.

(** Bob, a patient, asks for Ada's first slot to be removed. *)
Lemma doctor_routes_are_closed_to_others_witness :
  Office.session (Practice.from Practice.bob_user) <> None
  /\ Office.doctors
       (Office.DELETE_manage_time_slots (C := Practice.decimal) Practice.calm (Practice.from Practice.bob_user)
          "0" Practice.db).2
     = Office.doctors Practice.db.
Proof.
  assert (H1 : Office.session (Practice.from Practice.bob_user) <> None)
    by discriminate.
  split; [exact H1|].
  assert (H2 : forall user,
            Office.session (Practice.from Practice.bob_user) = Some (Some user) ->
            Office.User.role user <> "doctor").
  { intros user [= <-]. discriminate. }
  exact (proj1 (proj2
           (doctor_routes_are_closed_to_others (Practice.from Practice.bob_user)
              (fun s => Office.delete_manage_time_slots (C := Practice.decimal) Practice.calm s "0")
              Practice.db H1 H2))).
Defined.

(** Eve is logged in as a doctor and has no document. *)
Lemma missing_doctor_404_or_500_witness :
  List.find (fun x => Office.Doc.email x === "eve@clinic.example")
    (Office.doctors Practice.db) = None
  /\ (Office.get_profile Practice.calm (Some (Some Practice.eve_user)) Practice.db).1
     = Returned (Office.Sent 404 "Doctor not found")
  /\ (Office.get_edit Practice.calm (Some (Some Practice.eve_user)) Practice.db).1
     = Returned (Office.Sent 500 "Server Error").
Proof.
  split; [reflexivity|].
  destruct (missing_doctor_404_or_500 Practice.calm Practice.eve_user Practice.db
              eq_refl eq_refl) as (H404 & H500 & _).
  split; [exact H404 | exact H500].
Defined.

(** In July, a calendar asked for month [0] shows July. *)
Lemma calendar_month_and_year_witness :
  0 <= 6 <= 11
  /\ Office.parseInt (Conversions := Practice.decimal) (Some "0") = Office.Int 0
  /\ Office.calendar_month (C := Practice.decimal) (Some "0") 6 = Office.Int 6.
Proof.
  assert (H : 0 <= 6 <= 11) by lia.
  split; [exact H|]. split; [reflexivity|].
  destruct (calendar_month_and_year (C := Practice.decimal) (Some "0") None 6 2024 H)
    as (_ & _ & Hmonth).
  exact (Hmonth 0 eq_refl).
Defined.
